(** * Vote API worker: ledger, rate limiter, counters, cache, aggregator

    A shallow embedding of the Cloudflare worker of the repository (the file
    whose header reads "Cloudflare Worker - Vote API"): its five handlers
    [handleVote], [getVoteCounts], [getBatchVoteCounts], [getRankings] and
    [getStats], over a model of the key-value namespace [env.VOTES].

    Conventions of the model.
    - Strings are Rocq strings, one character per code unit; the white
      space of [trim] and [parseInt] is the ASCII white space and U+00A0.
    - A JavaScript number that holds an integer is a [Z] (exact in the
      worker below 2^53); [NaN] is a value of its own.  The one place where
      the worker divides, [getStats], is computed in IEEE 754 binary64 with
      the [SpecFloat] operations of the Standard Library.
    - The namespace is a finite map from key to value and expiration.  A
      request is served at one instant [now] (milliseconds since the epoch):
      [Date.now()] and [new Date()] both read it.  Requests are served one
      after the other (the worker has no transaction, and the properties
      below are about executions without races).
    - [JSON.parse] belongs to the runtime and is a parameter of the model
      ([JsonParser]); [JSON.stringify] is written out for the objects the
      worker builds.
    - The handlers are given twice for [POST /vote].  [handleVote] is the
      handler on a body whose fields are strings or missing, which is what
      the page sends.  [Worker.handleVote] takes a body as the worker can
      receive it, with fields of any kind, and [Worker.fetch] is the entry
      point on a request as it arrives; the two agree on string fields
      ([worker_handleVote_strings]).

    The development also covers the voting service of the page that calls
    the worker ([voteForItem], [getUserVote] and [getBatchVoteCounts], over
    a model of [localStorage]), [getUserToken] and [simpleHash], which
    makes the fallback token of the page. *)

From Stdlib Require Import ZArith Lia List Ascii String SpecFloat.
From Stdlib Require Import DecimalString DecimalPos DecimalN.
From stdpp Require Import base option list sorting gmap strings.

Local Open Scope Z_scope.

(** ** The JavaScript runtime, as far as the worker uses it *)

Module JS.

(** *** Numbers *)

Inductive number :=
| Num (z : Z)
| NaN.

Definition num_add (a b : number) : number :=
  match a, b with
  | Num x, Num y => Num (x + y)
  | _, _ => NaN
  end.

Definition num_sub (a b : number) : number :=
  match a, b with
  | Num x, Num y => Num (x - y)
  | _, _ => NaN
  end.

(** [a >= b]; a comparison with [NaN] is false. *)
Definition num_ge (a b : number) : bool :=
  match a, b with
  | Num x, Num y => y <=? x
  | _, _ => false
  end.

(** [a > b]. *)
Definition num_gt (a b : number) : bool :=
  match a, b with
  | Num x, Num y => y <? x
  | _, _ => false
  end.

(** *** Strings *)

Definition is_white (c : ascii) : bool :=
  let n := N_of_ascii c in
  ((9 <=? n) && (n <=? 13) || (n =? 32) || (n =? 160))%N.

Fixpoint trimStart (s : string) : string :=
  match s with
  | String c s' => if is_white c then trimStart s' else s
  | EmptyString => EmptyString
  end.

(** [trimEnd] keeps a character when it is not white space or when
    something that is kept follows it. *)
Fixpoint trimEnd (s : string) : string :=
  match s with
  | String c s' =>
      match trimEnd s' with
      | EmptyString => if is_white c then EmptyString else String c EmptyString
      | t => String c t
      end
  | EmptyString => EmptyString
  end.

Definition trim (s : string) : string := trimEnd (trimStart s).

(** [s.split(sep)] for a one-character separator: always at least one
    piece, the empty string included. *)
Fixpoint split (sep : ascii) (s : string) : list string :=
  match s with
  | EmptyString => [EmptyString]
  | String c s' =>
      if Ascii.eqb c sep then EmptyString :: split sep s'
      else match split sep s' with
           | p :: ps => String c p :: ps
           | [] => [String c EmptyString]
           end
  end.

(** [s.substring(0, n)] *)
Fixpoint substring0 (n : nat) (s : string) : string :=
  match n, s with
  | S n', String c s' => String c (substring0 n' s')
  | _, _ => EmptyString
  end.

(** [s.startsWith(p)] *)
Fixpoint startsWith (p s : string) : bool :=
  match p, s with
  | EmptyString, _ => true
  | String a p', String b s' => Ascii.eqb a b && startsWith p' s'
  | String _ _, EmptyString => false
  end.

(** The rest of [s] after [p] when [s] starts with [p]. *)
Fixpoint stripPrefix (p s : string) : option string :=
  match p, s with
  | EmptyString, _ => Some s
  | String a p', String b s' => if Ascii.eqb a b then stripPrefix p' s' else None
  | String _ _, EmptyString => None
  end.

(** [!s] for a value that is a string, [null] or [undefined]: the empty
    string is falsy, as are [null] and [undefined]. *)
Definition truthy (o : option string) : bool :=
  match o with
  | Some (String _ _) => true
  | _ => false
  end.

(** [o || d] *)
Definition or_else (o : option string) (d : string) : string :=
  match o with
  | Some (String c s) => String c s
  | _ => d
  end.

(** *** [String(n)] and [parseInt(s)] *)

Definition decimal (n : N) : string := NilZero.string_of_uint (N.to_uint n).

Definition String_of_Z (z : Z) : string :=
  match z with
  | Zneg p => String "-" (decimal (Npos p))
  | _ => decimal (Z.to_N z)
  end.

Definition String_of (n : number) : string :=
  match n with
  | Num z => String_of_Z z
  | NaN => "NaN"
  end.

Definition digit_value (c : ascii) : option Z :=
  let n := Z.of_N (N_of_ascii c) in
  if (48 <=? n) && (n <=? 57) then Some (n - 48)
  else if (97 <=? n) && (n <=? 122) then Some (n - 87)
  else if (65 <=? n) && (n <=? 90) then Some (n - 55)
  else None.

(** The value of the longest prefix of [s] made of digits of radix [R],
    continuing from [acc]; [None] when [acc] is [None] and the prefix is
    empty. *)
Fixpoint parse_digits (R : Z) (s : string) (acc : option Z) : option Z :=
  match s with
  | String c s' =>
      match digit_value c with
      | Some d =>
          if d <? R then parse_digits R s' (Some (default 0 acc * R + d)) else acc
      | None => acc
      end
  | EmptyString => acc
  end.

Definition parse_unsigned (s : string) : option Z :=
  match s with
  | String "0" (String x s') =>
      if Ascii.eqb x "x" || Ascii.eqb x "X" then parse_digits 16 s' None
      else parse_digits 10 s None
  | _ => parse_digits 10 s None
  end.

Definition parseInt (s : string) : number :=
  let s := trimStart s in
  let '(neg, s) :=
    match s with
    | String "-" s' => (true, s')
    | String "+" s' => (false, s')
    | _ => (false, s)
    end in
  match parse_unsigned s with
  | Some v => Num (if neg then - v else v)
  | None => NaN
  end.

(** *** JSON values and [JSON.stringify] *)

#[warnings="-register-all"]
Inductive json :=
| JNull
| JNumber (n : number)
| JString (s : string)
| JObject (fields : list (string * json)).

Definition hex_digit (n : N) : ascii :=
  ascii_of_N (if (n <? 10)%N then 48 + n else 87 + n)%N.

(** One character inside a JSON string literal. *)
Definition json_escape (c : ascii) : string :=
  let n := N_of_ascii c in
  if (n =? 34)%N then String "\" (String c "")
  else if (n =? 92)%N then "\\"
  else if (n =? 8)%N then "\b"
  else if (n =? 9)%N then "\t"
  else if (n =? 10)%N then "\n"
  else if (n =? 12)%N then "\f"
  else if (n =? 13)%N then "\r"
  else if (n <? 32)%N then
    "\u00" +:+ String (hex_digit (n / 16)) (String (hex_digit (n mod 16)) "")
  else String c "".

Fixpoint json_quote_body (s : string) : string :=
  match s with
  | String c s' => json_escape c +:+ json_quote_body s'
  | EmptyString => EmptyString
  end.

Definition json_quote (s : string) : string :=
  String (ascii_of_N 34) (json_quote_body s) +:+ String (ascii_of_N 34) "".

(** [JSON.stringify(v)]: no white space, [NaN] printed as [null]. *)
Fixpoint JSON_stringify (v : json) : string :=
  match v with
  | JNull => "null"
  | JNumber NaN => "null"
  | JNumber (Num z) => String_of_Z z
  | JString s => json_quote s
  | JObject fields =>
      let member (kv : string * json) :=
        json_quote (fst kv) +:+ ":" +:+ JSON_stringify (snd kv) in
      "{" +:+
      (fix members (l : list (string * json)) : string :=
         match l with
         | [] => ""
         | [kv] => member kv
         | kv :: l' => member kv +:+ "," +:+ members l'
         end) fields
      +:+ "}"
  end.

(** *** Dates: [new Date(now).toISOString().split('T')[0]] *)

Definition ms_per_day : Z := 86400000.

(** Year, month and day of the proleptic Gregorian calendar for a day
    number counted from 1970-01-01. *)
Definition civil_from_days (z : Z) : Z * Z * Z :=
  let z := z + 719468 in
  let era := z / 146097 in
  let doe := z - era * 146097 in
  let yoe := (doe - doe / 1460 + doe / 36524 - doe / 146096) / 365 in
  let doy := doe - (365 * yoe + yoe / 4 - yoe / 100) in
  let mp := (5 * doy + 2) / 153 in
  let d := doy - (153 * mp + 2) / 5 + 1 in
  let m := if mp <? 10 then mp + 3 else mp - 9 in
  let y := yoe + era * 400 in
  (if m <=? 2 then y + 1 else y, m, d).

(** [n] in decimal, padded with zeros on the left to [width] digits. *)
Definition pad_start (width : nat) (n : Z) : string :=
  let s := decimal (Z.to_N n) in
  String.concat "" (repeat "0"%string (width - String.length s)) +:+ s.

Definition iso_year (y : Z) : string :=
  if (0 <=? y) && (y <=? 9999) then pad_start 4 y
  else if y <? 0 then "-" +:+ pad_start 6 (- y)
  else "+" +:+ pad_start 6 y.

Definition iso_date (day : Z) : string :=
  let '(y, m, d) := civil_from_days day in
  iso_year y +:+ "-" +:+ pad_start 2 m +:+ "-" +:+ pad_start 2 d.

(** The UTC calendar date at the instant [now]. *)
Definition today (now : Z) : string := iso_date (now / ms_per_day).

(** *** Doubles: the quotient and [Math.round] of [getStats] *)

Definition double_of_Z (z : Z) : spec_float := binary_normalize 53 1024 z 0 false.
Definition double_div : spec_float -> spec_float -> spec_float := SFdiv 53 1024.
Definition double_mul : spec_float -> spec_float -> spec_float := SFmul 53 1024.

(** [Math.round(x)]: the integer nearest to [x], a tie going up.  A finite
    double is [m * 2^e]; for a negative [e] the result is
    [floor ((2 m + 2^-e) / 2^(1-e))].  An infinite or undefined [x] is
    returned as it is by the runtime and is [NaN] here (it needs counts
    beyond the range of a double). *)
Definition Math_round (x : spec_float) : number :=
  match x with
  | S754_zero _ => Num 0
  | S754_finite s m e =>
      let n := if s then Z.neg m else Z.pos m in
      match e with
      | Zneg p => Num ((2 * n + 2 ^ Z.pos p) / 2 ^ (Z.pos p + 1))
      | _ => Num (n * 2 ^ e)
      end
  | _ => NaN
  end.

End JS.

(** ** The key-value namespace [env.VOTES] *)

Module KV.

(** A stored value and, when the key was written with [expirationTtl], the
    instant (in milliseconds) from which the key is gone. *)
Record entry := Entry { value : string; expiration : option Z }.

Abbreviation namespace := (gmap string entry).

Definition live (now : Z) (e : entry) : bool :=
  match expiration e with
  | Some t => now <? t
  | None => true
  end.

(** [await env.VOTES.get(key)]: the value, or [null] ([None]). *)
Definition get (now : Z) (s : namespace) (key : string) : option string :=
  match s !! key with
  | Some e => if live now e then Some (value e) else None
  | None => None
  end.

(** [await env.VOTES.put(key, v, { expirationTtl: ttl })], [ttl] in seconds. *)
Definition put (now : Z) (key v : string) (ttl : option Z) (s : namespace)
  : namespace :=
  <[key := Entry v ((fun t => now + t * 1000) <$> ttl)]> s.

(** [(await env.VOTES.list({ prefix })).keys], as key names: every live key
    that starts with [prefix] (the worker reads one page and the model
    takes the page to hold them all), in the order in which the store
    lists keys, which is the lexicographic order of their bytes. *)
Definition list_keys (now : Z) (prefix : string) (s : namespace) : list string :=
  merge_sort (fun a b => Is_true (String.leb a b))
    (omap (fun ke : string * entry =>
             if live now ke.2 && JS.startsWith prefix ke.1 then Some ke.1 else None)
          (map_to_list s)).

End KV.

(** ** The worker *)

Import JS.

(** [JSON.parse], of the runtime; [None] when it throws. *)
Class JsonParser := JSON_parse : string → option json.

(** The object that the three read paths build for an item. *)
Record summary := Summary {
  item_id : string;
  likes : number;
  dislikes : number;
  net_score : number;
  total_votes : number
}.

Definition json_of_summary (r : summary) : json :=
  JObject [("item_id"%string, JString (item_id r));
           ("likes"%string, JNumber (likes r));
           ("dislikes"%string, JNumber (dislikes r));
           ("net_score"%string, JNumber (net_score r));
           ("total_votes"%string, JNumber (total_votes r))].

Inductive cache_status := HIT | MISS.

Inductive response :=
| ErrorResponse (status : Z) (error : string)
| VoteResponse (item_id : string) (likes dislikes net_score : number)
| CountsResponse (x_cache : cache_status) (body : string)
| BatchResponse (results : gmap string json) (count cache_hits cache_misses : nat)
| RankingsResponse (items : list summary) (total_items : nat) (generated_at : Z)
| StatsResponse (total_likes total_dislikes total_votes : number)
                (total_items : nat) (like_percentage : number) (generated_at : Z).

Inductive request :=
| POST_vote (item_id token vote_type date : option string)
| GET_votes_batch (ids : option string)
| GET_votes (itemId : string)
| GET_rankings
| GET_stats.

(** *** Key names *)

Definition voteKey (token item_id : string) : string :=
  "vote:" +:+ token +:+ ":" +:+ item_id.
Definition countKey (vote_type item_id : string) : string :=
  vote_type +:+ ":" +:+ item_id.
Definition rateLimitKey (token today : string) : string :=
  "rate:" +:+ token +:+ ":" +:+ today.
Definition metaKey (item_id : string) (now : Z) : string :=
  "meta:" +:+ item_id +:+ ":" +:+ String_of_Z now.
Definition cacheKey (itemId : string) : string :=
  "cache:votes:" +:+ itemId.

Definition vote_ttl : Z := 60 * 60 * 24 * 30.
Definition rate_ttl : Z := 60 * 60 * 24.
Definition cache_ttl : Z := 60.

(** *** [handleVote], on a body whose fields are strings

    The fields [item_id], [token], [vote_type] and [date] of the body are
    strings or missing here, as the page sends them.  [Worker.handleVote]
    below is the handler on fields of any kind, and agrees with this one on
    strings. *)

Definition vote_metadata (token vote_type : string) (now : Z) (date : string)
  : json :=
  JObject [("token_hash"%string, JString (substring0 8 token));
           ("vote_type"%string, JString vote_type);
           ("timestamp"%string, JNumber (Num now));
           ("date"%string, JString date)].

Definition handleVote (now : Z) (s : KV.namespace)
    (item_id token vote_type date : option string) : response * KV.namespace :=
  if negb (truthy item_id) || negb (truthy token) || negb (truthy vote_type) then
    (ErrorResponse 400 "Missing required fields", s)
  else
  let item_id := or_else item_id "" in
  let token := or_else token "" in
  let vote_type := or_else vote_type "" in
  if negb (bool_decide (vote_type ∈ ["like"; "dislike"]%string)) then
    (ErrorResponse 400 "Invalid vote_type", s)
  else
  let existingVote := KV.get now s (voteKey token item_id) in
  if truthy existingVote then (ErrorResponse 409 "Already voted", s) else
  let today := today now in
  let voteCount := parseInt (or_else (KV.get now s (rateLimitKey token today)) "0") in
  if num_ge voteCount (Num 50) then (ErrorResponse 429 "Rate limit exceeded", s) else
  let s := KV.put now (voteKey token item_id) vote_type (Some vote_ttl) s in
  let currentCount :=
    parseInt (or_else (KV.get now s (countKey vote_type item_id)) "0") in
  let s :=
    KV.put now (countKey vote_type item_id)
      (String_of (num_add currentCount (Num 1))) None s in
  let s :=
    KV.put now (rateLimitKey token today)
      (String_of (num_add voteCount (Num 1))) (Some rate_ttl) s in
  let s :=
    KV.put now (metaKey item_id now)
      (JSON_stringify (vote_metadata token vote_type now (or_else date today)))
      (Some vote_ttl) s in
  let likes := parseInt (or_else (KV.get now s (countKey "like" item_id)) "0") in
  let dislikes := parseInt (or_else (KV.get now s (countKey "dislike" item_id)) "0") in
  (VoteResponse item_id likes dislikes (num_sub likes dislikes), s).

(** *** [getVoteCounts] *)

(** The "Fetch from KV" block that [getVoteCounts], [getBatchVoteCounts]
    and the two scans share: both counters of an item and the two values
    derived from them. *)
Definition countsFromKV (now : Z) (s : KV.namespace) (itemId : string) : summary :=
  let likes := parseInt (or_else (KV.get now s (countKey "like" itemId)) "0") in
  let dislikes := parseInt (or_else (KV.get now s (countKey "dislike" itemId)) "0") in
  Summary itemId likes dislikes (num_sub likes dislikes) (num_add likes dislikes).

Definition getVoteCounts (now : Z) (s : KV.namespace) (itemId : string)
  : response * KV.namespace :=
  if negb (truthy (Some itemId)) then (ErrorResponse 400 "Missing item_id", s) else
  let cached := KV.get now s (cacheKey itemId) in
  if truthy cached then (CountsResponse HIT (or_else cached ""), s) else
  let result := countsFromKV now s itemId in
  let body := JSON_stringify (json_of_summary result) in
  (CountsResponse MISS body, KV.put now (cacheKey itemId) body (Some cache_ttl) s).

(** *** [getBatchVoteCounts] *)

(** [results[key] = v] on the object literal [{}]: an own property, except
    that the name [__proto__] reaches the prototype setter and leaves the
    own properties as they are. *)
Definition js_set (key : string) (v : json) (o : gmap string json)
  : gmap string json :=
  if decide (key = "__proto__"%string) then o else <[key := v]> o.

(** What one callback of the [Promise.all] does for its id.  Every callback
    issues its cache read when [map] calls it, before any callback resumes,
    so the cache reads all see the namespace as it is on entry; the counter
    keys read afterwards are written by no callback. *)
Inductive resolution :=
| FromCache (v : json)
| FromKV (r : summary)
| Thrown.

Definition resolve `{JsonParser} (now : Z) (s : KV.namespace) (itemId : string)
  : resolution :=
  let trimmedId := trim itemId in
  let cached := KV.get now s (cacheKey trimmedId) in
  if truthy cached then
    match JSON_parse (or_else cached "") with
    | Some v => FromCache v
    | None => Thrown
    end
  else FromKV (countsFromKV now s trimmedId).

Definition batch_results `{JsonParser} (now : Z) (s : KV.namespace)
    (itemIds : list string) : gmap string json :=
  foldl (fun results itemId =>
           match resolve now s itemId with
           | FromCache v => js_set (trim itemId) v results
           | FromKV r => js_set (trim itemId) (json_of_summary r) results
           | Thrown => results
           end) ∅ itemIds.

Definition batch_store `{JsonParser} (now : Z) (s : KV.namespace)
    (itemIds : list string) : KV.namespace :=
  foldl (fun s' itemId =>
           match resolve now s itemId with
           | FromKV r =>
               KV.put now (cacheKey (trim itemId))
                 (JSON_stringify (json_of_summary r)) (Some cache_ttl) s'
           | _ => s'
           end) s itemIds.

Definition is_hit (r : resolution) : bool :=
  match r with FromCache _ => true | _ => false end.
Definition is_miss (r : resolution) : bool :=
  match r with FromKV _ => true | _ => false end.
Definition is_thrown (r : resolution) : bool :=
  match r with Thrown => true | _ => false end.

(** [idsParam.split(',').filter(id => id.trim().length > 0)] *)
Definition itemIds_of (idsParam : string) : list string :=
  filter (fun id => (0 < String.length (trim id))%nat) (split "," idsParam).

(** [None] stands for the exception of a [JSON.parse] that throws: it
    leaves the handler and [fetch] answers 500. *)
Definition getBatchVoteCounts `{JsonParser} (now : Z) (s : KV.namespace)
    (idsParam : option string) : option response * KV.namespace :=
  if negb (truthy idsParam) then
    (Some (ErrorResponse 400 "Missing ids parameter"), s)
  else
  let itemIds := itemIds_of (or_else idsParam "") in
  if bool_decide (length itemIds = 0%nat) then
    (Some (ErrorResponse 400 "No valid item IDs provided"), s)
  else if bool_decide (200 < length itemIds)%nat then
    (Some (ErrorResponse 400 "Too many IDs (max 200)"), s)
  else
  let outcomes := resolve now s <$> itemIds in
  let s' := batch_store now s itemIds in
  if existsb is_thrown outcomes then (None, s') else
  (Some (BatchResponse (batch_results now s itemIds) (length itemIds)
           (length (filter (fun r => is_hit r = true) outcomes))
           (length (filter (fun r => is_miss r = true) outcomes))), s').

(** *** [getRankings] and [getStats] *)

(** [key.replace(pattern, '')]: the first occurrence of [pattern] removed. *)
Fixpoint remove_first (pattern s : string) : string :=
  match stripPrefix pattern s with
  | Some rest => rest
  | None =>
      match s with
      | String c s' => String c (remove_first pattern s')
      | EmptyString => EmptyString
      end
  end.

(** The loop of both scans: one summary per listed key. *)
Definition scan (now : Z) (s : KV.namespace) : list summary :=
  (fun key => countsFromKV now s (remove_first "like:" key))
    <$> KV.list_keys now "like:" s.

(** The comparator [(a, b) => b.net_score - a.net_score]. *)
Definition by_net_score (a b : summary) : number :=
  num_sub (net_score b) (net_score a).

(** [items.sort(compare)]: a stable sort, here by insertion.  [a] stays in
    front of [b] unless [compare(a, b) > 0].  This is the order of the
    runtime where the comparator is consistent, that is where every net
    score is a number; where one is [NaN] the runtime may give any order
    of the same items, and nothing below relies on the order there. *)
Fixpoint insert_by (compare : summary → summary → number) (a : summary)
    (l : list summary) : list summary :=
  match l with
  | [] => [a]
  | b :: l' =>
      if num_gt (compare a b) (Num 0) then b :: insert_by compare a l'
      else a :: b :: l'
  end.

Definition sort (compare : summary → summary → number) (l : list summary)
  : list summary :=
  foldr (insert_by compare) [] l.

Definition getRankings (now : Z) (s : KV.namespace) : response * KV.namespace :=
  let items := sort by_net_score (scan now s) in
  (RankingsResponse items (length items) now, s).

Definition to_double (n : number) : spec_float :=
  match n with
  | Num z => double_of_Z z
  | NaN => S754_nan
  end.

Definition getStats (now : Z) (s : KV.namespace) : response * KV.namespace :=
  let '(totalLikes, totalDislikes, totalItems) :=
    foldl (fun '(totalLikes, totalDislikes, totalItems) r =>
             (num_add totalLikes (likes r), num_add totalDislikes (dislikes r),
              S totalItems))
          (Num 0, Num 0, 0%nat) (scan now s) in
  (StatsResponse totalLikes totalDislikes (num_add totalLikes totalDislikes)
     totalItems
     (if num_gt (num_add totalLikes totalDislikes) (Num 0) then
        Math_round
          (double_mul
             (double_div (to_double totalLikes)
                (to_double (num_add totalLikes totalDislikes)))
             (double_of_Z 100))
      else Num 0)
     now, s).

(** *** [fetch]: the routes, and the [catch] that answers 500 *)

Definition fetch `{JsonParser} (now : Z) (s : KV.namespace) (r : request)
  : response * KV.namespace :=
  match r with
  | POST_vote item_id token vote_type date =>
      handleVote now s item_id token vote_type date
  | GET_votes_batch ids =>
      match getBatchVoteCounts now s ids with
      | (Some resp, s') => (resp, s')
      | (None, s') => (ErrorResponse 500 "Internal server error", s')
      end
  | GET_votes itemId => getVoteCounts now s itemId
  | GET_rankings => getRankings now s
  | GET_stats => getStats now s
  end.

(** *** Executions: requests served one after the other *)

(** A trace is a list of requests with the instant each is served at. *)
Fixpoint run `{JsonParser} (tr : list (Z * request)) (s : KV.namespace)
  : KV.namespace :=
  match tr with
  | [] => s
  | (now, r) :: tr' => run tr' (fetch now s r).2
  end.

(** The responses of a trace, in order. *)
Fixpoint responses `{JsonParser} (tr : list (Z * request)) (s : KV.namespace)
  : list response :=
  match tr with
  | [] => []
  | (now, r) :: tr' => (fetch now s r).1 :: responses tr' (fetch now s r).2
  end.

(** ** A parser for the texts of the model

    An instance of [JSON.parse] for the values of [json]: objects, strings,
    integers and [null], with white space between tokens.  The properties
    below hold for every parser; this one serves where a concrete run is
    evaluated. *)

Module Parser.

Definition hex_value (c : ascii) : option N :=
  match digit_value c with
  | Some d => if d <? 16 then Some (Z.to_N d) else None
  | None => None
  end.

(** The characters of a string literal after its opening quote, and what
    follows the closing quote. *)
Fixpoint string_body (s : string) : option (string * string) :=
  match s with
  | EmptyString => None
  | String c s' =>
      if (N_of_ascii c =? 34)%N then Some (EmptyString, s')
      else if (N_of_ascii c =? 92)%N then
        match s' with
        | String e s'' =>
            let literal (x : N) (rest : option (string * string)) :=
              match rest with
              | Some (body, after) => Some (String (ascii_of_N x) body, after)
              | None => None
              end in
            if Ascii.eqb e "u" then
              match s'' with
              | String h1 (String h2 (String h3 (String h4 s3))) =>
                  match hex_value h1, hex_value h2, hex_value h3, hex_value h4 with
                  | Some 0%N, Some 0%N, Some a, Some b =>
                      literal (16 * a + b)%N (string_body s3)
                  | _, _, _, _ => None
                  end
              | _ => None
              end
            else if Ascii.eqb e "b" then literal 8%N (string_body s'')
            else if Ascii.eqb e "t" then literal 9%N (string_body s'')
            else if Ascii.eqb e "n" then literal 10%N (string_body s'')
            else if Ascii.eqb e "f" then literal 12%N (string_body s'')
            else if Ascii.eqb e "r" then literal 13%N (string_body s'')
            else if Ascii.eqb e "/" then literal 47%N (string_body s'')
            else if (N_of_ascii e =? 34)%N || (N_of_ascii e =? 92)%N then
              literal (N_of_ascii e) (string_body s'')
            else None
        | EmptyString => None
        end
      else if (N_of_ascii c <? 32)%N then None
      else
        match string_body s' with
        | Some (body, after) => Some (String c body, after)
        | None => None
        end
  end.

(** What is left of [s] after its longest prefix of decimal digits. *)
Fixpoint after_digits (s : string) : string :=
  match s with
  | String c s' =>
      match digit_value c with
      | Some d => if d <? 10 then after_digits s' else s
      | None => s
      end
  | EmptyString => EmptyString
  end.

Definition integer (s : string) : option (json * string) :=
  let '(neg, digits) :=
    match s with
    | String "-" s' => (true, s')
    | _ => (false, s)
    end in
  match parse_digits 10 digits None with
  | Some v => Some (JNumber (Num (if neg then - v else v)), after_digits digits)
  | None => None
  end.

Fixpoint value (fuel : nat) (s : string) : option (json * string) :=
  match fuel with
  | O => None
  | S fuel =>
      match trimStart s with
      | String c s' =>
          if (N_of_ascii c =? 34)%N then
            match string_body s' with
            | Some (body, after) => Some (JString body, after)
            | None => None
            end
          else if Ascii.eqb c "{" then
            match trimStart s' with
            | String "}" after => Some (JObject [], after)
            | inner =>
                (fix members (n : nat) (s : string) (acc : list (string * json))
                   : option (json * string) :=
                   match n with
                   | O => None
                   | S n =>
                       match trimStart s with
                       | String q s1 =>
                           if (N_of_ascii q =? 34)%N then
                             match string_body s1 with
                             | Some (key, s2) =>
                                 match trimStart s2 with
                                 | String ":" s3 =>
                                     match value fuel s3 with
                                     | Some (v, s4) =>
                                         match trimStart s4 with
                                         | String "," s5 =>
                                             members n s5 (acc ++ [(key, v)])
                                         | String "}" s5 =>
                                             Some (JObject (acc ++ [(key, v)]), s5)
                                         | _ => None
                                         end
                                     | None => None
                                     end
                                 | _ => None
                                 end
                             | None => None
                             end
                           else None
                       | EmptyString => None
                       end
                   end) fuel inner []
            end
          else
            match stripPrefix "null" (String c s') with
            | Some after => Some (JNull, after)
            | None => integer (String c s')
            end
      | EmptyString => None
      end
  end.

Definition parse (s : string) : option json :=
  match value (String.length s) s with
  | Some (v, rest) =>
      match trimStart rest with
      | EmptyString => Some v
      | _ => None
      end
  | None => None
  end.

End Parser.

#[export] Instance runtime_parser : JsonParser := Parser.parse.

(** ** The worker on a request as it arrives

    [fetch] of the worker, on the method, the path, the query parameter
    [ids] and the body of a request, and [handleVote] on the body as the
    worker can receive it. *)

Module Worker.

(** *** The body of [POST /vote]

    A field of the parsed body, by what [handleVote] observes of it.  A
    string is itself.  Of any other value the handler sees whether it is
    truthy, the string that a template literal makes of it ([None] when
    the conversion throws, as for an object whose [toString] is not a
    function) and the text that [JSON.stringify] prints for it.  [Falsy]
    stands for a missing field and for [null], [false] and [0];
    [Truthy] for a number other than 0, for [true], for an array and for
    an object. *)
Inductive field :=
| Str (s : string)
| Falsy
| Truthy (text : option string) (printed : string).

Definition of_option (o : option string) : field :=
  match o with
  | Some s => Str s
  | None => Falsy
  end.

(** [!f] is false. *)
Definition is_truthy (f : field) : bool :=
  match f with
  | Str (String _ _) => true
  | Truthy _ _ => true
  | _ => false
  end.

(** The string that a template literal makes of a truthy field; [None]
    when the conversion throws.  (No falsy field is converted: the handler
    has refused the request before.) *)
Definition text (f : field) : option string :=
  match f with
  | Str s => Some s
  | Truthy text _ => text
  | Falsy => None
  end.

(** What [await request.json()] and the destructuring find: a body that is
    not JSON or is [null] (one of the two throws), or the four fields of
    the parsed value (all missing when it is not an object). *)
Inductive request_body :=
| NotJson
| Fields (item_id token vote_type date : field).

Record http_request := HttpRequest {
  method : string;
  pathname : string;
  ids : option string;
  body : request_body
}.

(** *** [handleVote] *)

(** [JSON.stringify] of the metadata object, [date] being the text printed
    for its last member. *)
Definition metadata_text (token vote_type : string) (now : Z) (date : string)
  : string :=
  "{" +:+
  ((json_quote "token_hash" +:+ ":" +:+ json_quote (substring0 8 token)) +:+ "," +:+
   (json_quote "vote_type" +:+ ":" +:+ json_quote vote_type) +:+ "," +:+
   (json_quote "timestamp" +:+ ":" +:+ String_of_Z now) +:+ "," +:+
   json_quote "date" +:+ ":" +:+ date)
  +:+ "}".

(** The text printed for [date || today]. *)
Definition date_text (date : field) (today : string) : string :=
  match date with
  | Str (String c d) => json_quote (String c d)
  | Truthy _ printed => printed
  | _ => json_quote today
  end.

(** How a call of [handleVote] ends: with an error response, with the 200
    of a vote, or with an exception, thrown by a template literal that
    cannot convert a field ([Unconvertible], before anything is read or
    written), or by [token.substring] when the token is not a string
    ([Crashed], after three of the four writes). *)
Inductive outcome :=
| Refused (status : Z) (error : string)
| Voted (item_id : field) (likes dislikes net_score : number)
| Crashed
| Unconvertible.

Definition handleVote (now : Z) (s : KV.namespace)
    (item_id token vote_type date : field) : outcome * KV.namespace :=
  if negb (is_truthy item_id) || negb (is_truthy token) || negb (is_truthy vote_type) then
    (Refused 400 "Missing required fields", s)
  else
  match vote_type with
  | Str vote_type =>
      if negb (bool_decide (vote_type ∈ ["like"; "dislike"]%string)) then
        (Refused 400 "Invalid vote_type", s)
      else
      match text token, text item_id with
      | Some token_text, Some item_text =>
          let existingVote := KV.get now s (voteKey token_text item_text) in
          if truthy existingVote then (Refused 409 "Already voted", s) else
          let today := today now in
          let voteCount :=
            parseInt (or_else (KV.get now s (rateLimitKey token_text today)) "0") in
          if num_ge voteCount (Num 50) then (Refused 429 "Rate limit exceeded", s) else
          let s := KV.put now (voteKey token_text item_text) vote_type (Some vote_ttl) s in
          let currentCount :=
            parseInt (or_else (KV.get now s (countKey vote_type item_text)) "0") in
          let s :=
            KV.put now (countKey vote_type item_text)
              (String_of (num_add currentCount (Num 1))) None s in
          let s :=
            KV.put now (rateLimitKey token_text today)
              (String_of (num_add voteCount (Num 1))) (Some rate_ttl) s in
          match token with
          | Str token =>
              let s :=
                KV.put now (metaKey item_text now)
                  (metadata_text token vote_type now (date_text date today))
                  (Some vote_ttl) s in
              let likes :=
                parseInt (or_else (KV.get now s (countKey "like" item_text)) "0") in
              let dislikes :=
                parseInt (or_else (KV.get now s (countKey "dislike" item_text)) "0") in
              (Voted item_id likes dislikes (num_sub likes dislikes), s)
          | _ => (Crashed, s)
          end
      | _, _ => (Unconvertible, s)
      end
  | _ => (Refused 400 "Invalid vote_type", s)
  end.

(** *** [fetch] *)

(** The 204 of the preflight, which has no body, or a JSON response; the
    200 of a vote carries the [item_id] of the body as it came. *)
Inductive http_response :=
| NoContent
| Json (r : response)
| JsonVote (item_id : field) (likes dislikes net_score : number).

Definition answer (p : response * KV.namespace) : http_response * KV.namespace :=
  (Json p.1, p.2).

Definition internal_error : response := ErrorResponse 500 "Internal server error".

(** The response for the way [handleVote] ended; the [catch] of [fetch]
    answers an exception. *)
Definition vote_response (o : outcome) : http_response :=
  match o with
  | Refused status error => Json (ErrorResponse status error)
  | Voted item_id likes dislikes net_score => JsonVote item_id likes dislikes net_score
  | Crashed | Unconvertible => Json internal_error
  end.

Definition fetch `{JsonParser} (now : Z) (s : KV.namespace) (req : http_request)
  : http_response * KV.namespace :=
  if bool_decide (method req = "OPTIONS"%string) then (NoContent, s) else
  if bool_decide (method req = "POST"%string)
     && bool_decide (pathname req = "/vote"%string) then
    match body req with
    | Fields item_id token vote_type date =>
        let '(o, s') := handleVote now s item_id token vote_type date in
        (vote_response o, s')
    | NotJson => (Json internal_error, s)
    end
  else if bool_decide (method req = "GET"%string)
          && bool_decide (pathname req = "/votes/batch"%string) then
    match getBatchVoteCounts now s (ids req) with
    | (Some resp, s') => (Json resp, s')
    | (None, s') => (Json internal_error, s')
    end
  else if bool_decide (method req = "GET"%string)
          && startsWith "/votes/" (pathname req) then
    let itemId := default ""%string (split "/" (pathname req) !! 2%nat) in
    answer (getVoteCounts now s itemId)
  else if bool_decide (method req = "GET"%string)
          && bool_decide (pathname req = "/rankings"%string) then
    answer (getRankings now s)
  else if bool_decide (method req = "GET"%string)
          && bool_decide (pathname req = "/stats"%string) then
    answer (getStats now s)
  else (Json (ErrorResponse 404 "Not found"), s).

(** [response.status] and [response.ok] *)
Definition status (r : http_response) : Z :=
  match r with
  | NoContent => 204
  | Json (ErrorResponse status _) => status
  | Json _ => 200
  | JsonVote _ _ _ _ => 200
  end.

Definition ok (r : http_response) : bool :=
  (200 <=? status r) && (status r <=? 299).

(** Requests served one after the other, each at its instant. *)
Fixpoint run `{JsonParser} (tr : list (Z * http_request)) (s : KV.namespace)
  : KV.namespace :=
  match tr with
  | [] => s
  | (now, req) :: tr' => run tr' (fetch now s req).2
  end.

End Worker.

(** ** The page

    The two files of the page that talk to the worker: the fingerprint,
    which makes the token, and the voting service.  Both keep strings in
    [localStorage], a map from key to string, which is taken to work
    ([getItem] and [setItem] do not throw). *)

Abbreviation storage := (gmap string string).

(** How a call of an [async] function ends: with a value, or with an
    exception and its message. *)
Inductive promise (A : Type) :=
| Resolved (a : A)
| Rejected (message : string).

Arguments Resolved {A} a.
Arguments Rejected {A} message.

(** What [fetch] of the browser does with a request: the worker serves it
    and the response arrives, or [fetch] rejects, with a message of the
    browser, and the worker has served the request or has not. *)
Inductive network :=
| Delivered
| Lost (served : bool) (message : string).

(** *** The token: [getUserToken] and [simpleHash]

    [crypto.subtle.digest] and the text encoder belong to the browser:
    [digest] stands for the bytes of the SHA-256 of the encoded string. *)

Module Fingerprint.

(** [b.toString(16)] for a byte. *)
Definition toString16 (b : Byte.byte) : string :=
  let n := Byte.to_N b in
  if (n <? 16)%N then String (hex_digit n) ""
  else String (hex_digit (n / 16)) (String (hex_digit (n mod 16)) "").

(** [s.padStart(2, '0')] *)
Definition padStart2 (s : string) : string :=
  String.concat "" (repeat "0"%string (2 - String.length s)) +:+ s.

Definition simpleHash (digest : string → list Byte.byte) (str : string) : string :=
  let hashArray := digest str in
  let hashHex := String.concat "" ((fun b => padStart2 (toString16 b)) <$> hashArray) in
  substring0 16 hashHex.

(** What one call of [getUserToken] finds in the browser: FingerprintJS,
    which reports a [visitorId]; no FingerprintJS, and the properties of
    the browser joined by a bar; an exception in the [try] block, [fresh]
    being the string [Math.random().toString() + Date.now()] that the
    fallback hashes when it has to; or an exception in the fallback as
    well, with its message. *)
Inductive browser :=
| Visitor (visitorId : string)
| Properties (fingerprint : string)
| Failing (fresh : string)
| Broken (message : string).

Definition getUserToken (digest : string → list Byte.byte) (b : browser)
    (ls : storage) : promise string * storage :=
  match b with
  | Visitor visitorId => (Resolved visitorId, ls)
  | Properties fingerprint => (Resolved (simpleHash digest fingerprint), ls)
  | Failing fresh =>
      let token := ls !! "user_token"%string in
      if truthy token then (Resolved (or_else token ""), ls) else
      let token := simpleHash digest fresh in
      (Resolved token, <["user_token"%string := token]> ls)
  | Broken message => (Rejected message, ls)
  end.

End Fingerprint.

(** *** The voting service

    The client of the worker (the file whose header reads "Voting
    Service").  It keeps its own record of the votes of the browser in
    [localStorage].  The instants that the clock of the browser and the
    worker read are parameters, as are the browser that [getUserToken]
    finds and what the network does with the request.  The item, the vote
    type and the date are strings, as the documentation of the functions
    has them, and the date may be left out. *)

Module Client.

(** A value as [response.json()] gives it: what the worker printed, read
    back.  A counter that is [NaN] is printed as [null].  [Echo f] is the
    value of a field [f] of the request that is not a string, which the
    worker sends back, and [Body r] the parsed body of a response [r] of
    another route. *)
#[warnings="-register-all"]
Inductive value :=
| Null
| Bool (b : bool)
| Number (z : Z)
| Text (s : string)
| Object (fields : list (string * value))
| Echo (f : Worker.field)
| Body (r : response).

Definition received_number (n : number) : value :=
  match n with
  | Num z => Number z
  | NaN => Null
  end.

Fixpoint received (v : json) : value :=
  match v with
  | JNull => Null
  | JNumber n => received_number n
  | JString s => Text s
  | JObject fields => Object (map (fun kv => (fst kv, received (snd kv))) fields)
  end.

Definition received_field (f : Worker.field) : value :=
  match f with
  | Worker.Str s => Text s
  | _ => Echo f
  end.

Definition localKey (token itemId : string) : string :=
  "vote:" +:+ token +:+ ":" +:+ itemId.
Definition timeKey (token itemId : string) : string :=
  "vote_time:" +:+ token +:+ ":" +:+ itemId.

(** The object that an accepted vote is answered with. *)
Definition vote_result (item_id : Worker.field) (likes dislikes net_score : number)
  : value :=
  Object [("success"%string, Bool true);
          ("item_id"%string, received_field item_id);
          ("likes"%string, received_number likes);
          ("dislikes"%string, received_number dislikes);
          ("net_score"%string, received_number net_score)].

(** [error.error] of the body of a response that is not [ok]. *)
Definition error_of (r : Worker.http_response) : option string :=
  match r with
  | Worker.Json (ErrorResponse _ error) => Some error
  | _ => None
  end.

(** [response.json()]: there is nothing to parse in a response without a
    body. *)
Definition response_json (r : Worker.http_response) : option value :=
  match r with
  | Worker.NoContent => None
  | Worker.JsonVote item_id likes dislikes net_score =>
      Some (vote_result item_id likes dislikes net_score)
  | Worker.Json r => Some (Body r)
  end.

Definition no_body : string := "Unexpected end of JSON input".

(** The request of [voteForItem]. *)
Definition vote_request (token itemId voteType : string) (date : option string)
  : Worker.http_request :=
  Worker.HttpRequest "POST" "/vote" None
    (Worker.Fields (Worker.Str itemId) (Worker.Str token) (Worker.Str voteType)
       (Worker.of_option date)).

(** [voteForItem(itemId, voteType, date)].  The [catch] logs the exception
    and throws it again. *)
Definition voteForItem `{JsonParser} (digest : string → list Byte.byte)
    (browser : Fingerprint.browser) (net : network) (clock now : Z)
    (ls : storage) (s : KV.namespace)
    (itemId voteType : string) (date : option string)
  : promise value * storage * KV.namespace :=
  if negb (bool_decide (voteType ∈ ["like"; "dislike"]%string)) then
    (Rejected "Invalid vote type", ls, s)
  else
  match Fingerprint.getUserToken digest browser ls with
  | (Rejected message, ls) => (Rejected message, ls, s)
  | (Resolved token, ls) =>
      if truthy (ls !! localKey token itemId) then (Rejected "Already voted", ls, s) else
      let request := vote_request token itemId voteType date in
      match net with
      | Lost served message =>
          (Rejected message, ls, if served then (Worker.fetch now s request).2 else s)
      | Delivered =>
          let '(response, s') := Worker.fetch now s request in
          if negb (Worker.ok response) then
            (Rejected (or_else (error_of response) "Vote failed"), ls, s')
          else
          match response_json response with
          | Some result =>
              (Resolved result,
               <[timeKey token itemId := String_of_Z clock]>
                 (<[localKey token itemId := voteType]> ls),
               s')
          | None => (Rejected no_body, ls, s')
          end
      end
  end.

(** [getUserVote(itemId)] *)
Definition getUserVote (digest : string → list Byte.byte)
    (browser : Fingerprint.browser) (ls : storage) (itemId : string)
  : promise (option string) * storage :=
  match Fingerprint.getUserToken digest browser ls with
  | (Rejected message, ls) => (Rejected message, ls)
  | (Resolved token, ls) => (Resolved (ls !! localKey token itemId), ls)
  end.

(** [o[key] = v] on an object literal (see [js_set]). *)
Definition assign (key : string) (v : value) (o : gmap string value)
  : gmap string value :=
  if decide (key = "__proto__"%string) then o else <[key := v]> o.

Definition zero_counts : value :=
  Object [("likes"%string, Number 0); ("dislikes"%string, Number 0);
          ("net_score"%string, Number 0); ("total_votes"%string, Number 0)].

Definition emptyResults (itemIds : list string) : gmap string value :=
  foldl (fun o id => assign id zero_counts o) ∅ itemIds.

(** The request of [getBatchVoteCounts]. *)
Definition batch_request (itemIds : list string) : Worker.http_request :=
  Worker.HttpRequest "GET" "/votes/batch" (Some (String.concat "," itemIds))
    Worker.NotJson.

(** [getBatchVoteCounts(itemIds)].  The ids are joined with commas and
    sent as the query parameter [ids], which the worker reads back as it
    was written ([encodeURIComponent] and the parsing of the query are
    inverse to each other).  Whatever goes wrong is caught and answered
    with zeros for every id; a body without [results] gives the empty
    object. *)
Definition getBatchVoteCounts `{JsonParser} (net : network) (now : Z)
    (s : KV.namespace) (itemIds : list string)
  : gmap string value * KV.namespace :=
  if bool_decide (length itemIds = 0%nat) then (∅, s) else
  match net with
  | Lost served _ =>
      (emptyResults itemIds,
       if served then (Worker.fetch now s (batch_request itemIds)).2 else s)
  | Delivered =>
      let '(response, s') := Worker.fetch now s (batch_request itemIds) in
      if negb (Worker.ok response) then (emptyResults itemIds, s') else
      match response with
      | Worker.Json (BatchResponse results _ _ _) => (received <$> results, s')
      | Worker.NoContent => (emptyResults itemIds, s')
      | _ => (∅, s')
      end
  end.

End Client.

(** ** Notions used to state the properties *)

(** *** Votes and the ledger *)

Definition is_vote_type (v : string) : Prop := v ∈ ["like"; "dislike"]%string.

(** The namespace after an accepted vote: the vote record, the counter of
    the item, the rate counter and the metadata record, in the order of the
    four [put]s. *)
Definition after_vote (now : Z) (s : KV.namespace)
    (item_id token vote_type : string) (date : option string) : KV.namespace :=
  let s1 := KV.put now (voteKey token item_id) vote_type (Some vote_ttl) s in
  let s2 :=
    KV.put now (countKey vote_type item_id)
      (String_of (num_add
         (parseInt (or_else (KV.get now s1 (countKey vote_type item_id)) "0"))
         (Num 1))) None s1 in
  let s3 :=
    KV.put now (rateLimitKey token (today now))
      (String_of (num_add
         (parseInt (or_else (KV.get now s (rateLimitKey token (today now))) "0"))
         (Num 1))) (Some rate_ttl) s2 in
  KV.put now (metaKey item_id now)
    (JSON_stringify
       (vote_metadata token vote_type now (or_else date (today now))))
    (Some vote_ttl) s3.

(** What [handleVote] checks before it writes. *)
Definition vote_admissible (now : Z) (s : KV.namespace)
    (item_id token vote_type : string) : Prop :=
  item_id ≠ ""%string ∧ token ≠ ""%string ∧ is_vote_type vote_type
  ∧ truthy (KV.get now s (voteKey token item_id)) = false
  ∧ num_ge (parseInt (or_else (KV.get now s (rateLimitKey token (today now))) "0"))
      (Num 50) = false.

(** The ledger holds a record for the pair, with a value that is not
    empty, that lasts at least until [until]. *)
Definition vote_on_record (s : KV.namespace) (token item_id : string) (until : Z)
  : Prop :=
  ∃ v x, s !! voteKey token item_id = Some (KV.Entry v (Some x))
         ∧ v ≠ ""%string ∧ until ≤ x.

(** The reading of the ledger property without the lifetime of the vote
    record: a later submission for the same pair is rejected, however much
    later. *)
Definition duplicate_always_rejected : Prop :=
  ∀ now s i t v d l dl n s1 now' v' d',
    handleVote now s (Some i) (Some t) (Some v) d = (VoteResponse i l dl n, s1) →
    is_vote_type v' → now ≤ now' →
    handleVote now' s1 (Some i) (Some t) (Some v') d'
    = (ErrorResponse 409 "Already voted", s1).

(** *** Counters *)

(** The request is a vote of type [vote_type] for [item_id] and its
    response is the 200 of an accepted vote. *)
Definition accepts (vote_type item_id : string) (r : request) (resp : response)
  : bool :=
  match r, resp with
  | POST_vote (Some i) _ (Some v) _, VoteResponse _ _ _ _ =>
      bool_decide (i = item_id ∧ v = vote_type)
  | _, _ => false
  end.

(** How many votes of type [vote_type] for [item_id] the worker accepts
    along a trace that starts in [s]. *)
Fixpoint accepted `{JsonParser} (vote_type item_id : string)
    (tr : list (Z * request)) (s : KV.namespace) : Z :=
  match tr with
  | [] => 0
  | (now, r) :: tr' =>
      (if accepts vote_type item_id r (fetch now s r).1 then 1 else 0)
      + accepted vote_type item_id tr' (fetch now s r).2
  end.

(** The counter [vote_type:item_id], as every handler reads it, holds [c]. *)
Definition counter_reads (s : KV.namespace) (vote_type item_id : string) (c : Z)
  : Prop :=
  ∀ now, parseInt (or_else (KV.get now s (countKey vote_type item_id)) "0") = Num c.

(** Every counter key holds the decimal numeral of an integer, which is
    what [handleVote] writes there. *)
Definition numeric_counters (s : KV.namespace) : Prop :=
  ∀ v i e, is_vote_type v → s !! countKey v i = Some e →
           ∃ z, KV.value e = String_of_Z z.

(** *** Rankings and statistics *)

(** [a] may stand in front of [b] in a ranking: both net scores are
    integers and that of [a] is not the smaller one. *)
Definition ranks_before (a b : summary) : Prop :=
  ∃ x y, net_score a = Num x ∧ net_score b = Num y ∧ y ≤ x.

Definition has_numeric_score (r : summary) : Prop := ∃ x, net_score r = Num x.

(** The percentage of the statistics in the words of the specification:
    [round(totalLikes / totalVotes * 100)] if [totalVotes > 0], else 0,
    with the division, the product and [round] of the runtime. *)
Definition like_percentage_spec (totalLikes totalVotes : number) : number :=
  if num_gt totalVotes (Num 0) then
    Math_round
      (double_mul (double_div (to_double totalLikes) (to_double totalVotes))
         (double_of_Z 100))
  else Num 0.

(** The sum of one field over the scanned items, in scan order. *)
Definition total (field : summary → number) (l : list summary) : number :=
  foldl (fun acc r => num_add acc (field r)) (Num 0) l.

(** *** Batch reads and the cache *)

(** The value that a callback stores in [results], when it does not throw. *)
Definition entry_of (r : resolution) : option json :=
  match r with
  | FromCache v => Some v
  | FromKV r => Some (json_of_summary r)
  | Thrown => None
  end.

(** The entry [e] of a batch answer is what the single-item read of
    [itemId] answers at the same instant on the same namespace: the parsed
    cache text on a hit, the object that is printed on a miss. *)
Definition valid_entry `{JsonParser} (now : Z) (s : KV.namespace)
    (itemId : string) (e : json) : Prop :=
  match (getVoteCounts now s itemId).1 with
  | CountsResponse HIT body => JSON_parse body = Some e
  | CountsResponse MISS body =>
      e = json_of_summary (countsFromKV now s itemId) ∧ body = JSON_stringify e
  | _ => False
  end.

(** The reading of the batch contract under which the answer holds one
    entry for each requested id: as many entries as the reported count,
    which is the number of requested ids. *)
Definition batch_one_to_one `{JsonParser} : Prop :=
  ∀ now s raw results count hits misses s',
    getBatchVoteCounts now s (Some raw)
    = (Some (BatchResponse results count hits misses), s') →
    count = length (itemIds_of raw) ∧ size results = count.

(** The cache entry of [itemId] is gone, or it holds the summary of the
    counters as they are now: the entry was invalidated or refreshed. *)
Definition cache_fresh (now : Z) (s : KV.namespace) (itemId : string) : Prop :=
  match KV.get now s (cacheKey itemId) with
  | Some body => body = JSON_stringify (json_of_summary (countsFromKV now s itemId))
  | None => True
  end.

(** The reading of the data flow under which an accepted vote invalidates
    or refreshes the cache entry of its item before it answers. *)
Definition vote_refreshes_cache : Prop :=
  ∀ now s i t v d l dl n s',
    handleVote now s (Some i) (Some t) (Some v) d = (VoteResponse i l dl n, s') →
    cache_fresh now s' i.

(** *** The rate limiter *)

(** The request is a vote of [token], served on the UTC day number [day],
    and its response is the 200 of an accepted vote. *)
Definition accepts_on (token : string) (day now : Z) (r : request) (resp : response)
  : bool :=
  match r, resp with
  | POST_vote _ (Some t) _ _, VoteResponse _ _ _ _ =>
      bool_decide (t = token ∧ now / ms_per_day = day)
  | _, _ => false
  end.

(** How many votes of [token] are accepted on the UTC day [day] along a
    trace that starts in [s]. *)
Fixpoint accepted_on `{JsonParser} (token : string) (day : Z)
    (tr : list (Z * request)) (s : KV.namespace) : Z :=
  match tr with
  | [] => 0
  | (now, r) :: tr' =>
      (if accepts_on token day now r (fetch now s r).1 then 1 else 0)
      + accepted_on token day tr' (fetch now s r).2
  end.

(** How many votes of [token] are accepted in the 24 hours that start at
    the instant [from]. *)
Fixpoint accepted_within `{JsonParser} (token : string) (from : Z)
    (tr : list (Z * request)) (s : KV.namespace) : Z :=
  match tr with
  | [] => 0
  | (now, r) :: tr' =>
      (match r, (fetch now s r).1 with
       | POST_vote _ (Some t) _ _, VoteResponse _ _ _ _ =>
           if bool_decide (t = token ∧ from ≤ now < from + ms_per_day) then 1 else 0
       | _, _ => 0
       end)
      + accepted_within token from tr' (fetch now s r).2
  end.

(** The reading of the rate limiter as a rolling window: no token has more
    than 50 votes accepted in any 24 hours. *)
Definition rolling_window_limit `{JsonParser} : Prop :=
  ∀ tr token from, accepted_within token from tr ∅ ≤ 50.

(** The rate counter of [token] for the UTC day [day] stands at [c]: the
    key is absent when [c] is 0, and otherwise holds the numeral of [c] and
    expires 24 hours after its last write, which was made on that day. *)
Definition rate_counter (s : KV.namespace) (token : string) (day c : Z) : Prop :=
  (c = 0 ∧ s !! rateLimitKey token (iso_date day) = None)
  ∨ (0 < c
     ∧ ∃ w, w / ms_per_day = day
            ∧ s !! rateLimitKey token (iso_date day)
              = Some (KV.Entry (String_of_Z c) (Some (w + rate_ttl * 1000)))).

(** *** Dates *)

(** The part of [civil_from_days] that depends on the day of the era. *)
Definition civil_of_doe (doe : Z) : Z * Z * Z :=
  let yoe := (doe - doe / 1460 + doe / 36524 - doe / 146096) / 365 in
  let doy := doe - (365 * yoe + yoe / 4 - yoe / 100) in
  let mp := (5 * doy + 2) / 153 in
  let d := doy - (153 * mp + 2) / 5 + 1 in
  let m := if mp <? 10 then mp + 3 else mp - 9 in
  (yoe, m, d).

(** The day number of a calendar date. *)
Definition days_from_civil (y m d : Z) : Z :=
  let y := if m <=? 2 then y - 1 else y in
  let era := y / 400 in
  let yoe := y - era * 400 in
  let mp := if 2 <? m then m - 3 else m + 9 in
  let doy := (153 * mp + 2) / 5 + d - 1 in
  let doe := yoe * 365 + yoe / 4 - yoe / 100 + doy in
  era * 146097 + doe - 719468.

(** [f] holds of the [n] integers from [from] on. *)
Fixpoint all_from (f : Z → bool) (n : nat) (from : Z) : bool :=
  match n with
  | O => true
  | S n' => f from && all_from f n' (from + 1)
  end.

(** No character of [s] is a colon. *)
Fixpoint colon_free (s : string) : bool :=
  match s with
  | String c s' => negb (Ascii.eqb c ":") && colon_free s'
  | EmptyString => true
  end.

(** *** Votes as the worker serves them *)

(** The namespace after the three writes of a vote that come before the
    metadata record: the vote record, the counter of the item and the rate
    counter. *)
Definition before_metadata (now : Z) (s : KV.namespace)
    (item_id token vote_type : string) : KV.namespace :=
  let s1 := KV.put now (voteKey token item_id) vote_type (Some vote_ttl) s in
  let s2 :=
    KV.put now (countKey vote_type item_id)
      (String_of (num_add
         (parseInt (or_else (KV.get now s1 (countKey vote_type item_id)) "0"))
         (Num 1))) None s1 in
  KV.put now (rateLimitKey token (today now))
    (String_of (num_add
       (parseInt (or_else (KV.get now s (rateLimitKey token (today now))) "0"))
       (Num 1))) (Some rate_ttl) s2.

(** The fields that the route [POST /vote] hands to [handleVote]. *)
Definition vote_fields (req : Worker.http_request)
  : option (Worker.field * Worker.field * Worker.field * Worker.field) :=
  if bool_decide (Worker.method req = "POST"%string)
     && bool_decide (Worker.pathname req = "/vote"%string) then
    match Worker.body req with
    | Worker.Fields item_id token vote_type date =>
        Some (item_id, token, vote_type, date)
    | Worker.NotJson => None
    end
  else None.

(** The vote that the worker has recorded when it answers [resp] to [req]:
    the item and the token as the keys spell them, and the vote type.  A
    [POST /vote] is recorded when it is answered 200, and also when it is
    answered 500 although its item and its token make strings: the
    exception came after the counter was written. *)
Definition recorded (req : Worker.http_request) (resp : Worker.http_response)
  : option (string * string * string) :=
  match vote_fields req with
  | Some (item_id, token, Worker.Str vote_type, _) =>
      match Worker.text item_id, Worker.text token with
      | Some i, Some t =>
          if bool_decide (Worker.status resp = 200 ∨ Worker.status resp = 500)
          then Some (i, t, vote_type) else None
      | _, _ => None
      end
  | _ => None
  end.

(** The request has a vote of type [vote_type] recorded for [item_id]. *)
Definition counted (vote_type item_id : string) (now : Z)
    (req : Worker.http_request) (resp : Worker.http_response) : bool :=
  match recorded req resp with
  | Some (i, _, v) => bool_decide (i = item_id ∧ v = vote_type)
  | None => false
  end.

(** ... and it is answered 200: the vote is accepted. *)
Definition voted (vote_type item_id : string) (now : Z)
    (req : Worker.http_request) (resp : Worker.http_response) : bool :=
  counted vote_type item_id now req resp && bool_decide (Worker.status resp = 200).

(** ... and it is answered 500. *)
Definition crashed (vote_type item_id : string) (now : Z)
    (req : Worker.http_request) (resp : Worker.http_response) : bool :=
  counted vote_type item_id now req resp && bool_decide (Worker.status resp = 500).

(** The request has a vote of [token] recorded on the UTC day [day]. *)
Definition counted_on (token : string) (day now : Z)
    (req : Worker.http_request) (resp : Worker.http_response) : bool :=
  match recorded req resp with
  | Some (_, t, _) => bool_decide (t = token ∧ now / ms_per_day = day)
  | None => false
  end.

(** How many requests of a trace that starts in [s] are answered in the
    way [p]. *)
Fixpoint tally `{JsonParser} (p : Z → Worker.http_request → Worker.http_response → bool)
    (tr : list (Z * Worker.http_request)) (s : KV.namespace) : Z :=
  match tr with
  | [] => 0
  | (now, req) :: tr' =>
      (if p now req (Worker.fetch now s req).1 then 1 else 0)
      + tally p tr' (Worker.fetch now s req).2
  end.

(** The recorded votes of a trace that starts in [s]: the instant, the
    token and the item of each. *)
Fixpoint recordings `{JsonParser} (tr : list (Z * Worker.http_request))
    (s : KV.namespace) : list (Z * string * string) :=
  match tr with
  | [] => []
  | (now, req) :: tr' =>
      match recorded req (Worker.fetch now s req).1 with
      | Some (i, t, _) => [(now, t, i)]
      | None => []
      end ++ recordings tr' (Worker.fetch now s req).2
  end.

(** Every request of the trace is served at [T] at the latest. *)
Definition all_until (T : Z) (tr : list (Z * Worker.http_request)) : Prop :=
  Forall (fun p => p.1 ≤ T) tr.

(** The largest integer up to which the numbers of the runtime count
    without a gap. *)
Definition max_safe : Z := 2 ^ 53.

(** The namespace [s'] is [s] after the writes of a vote, the metadata
    record left aside. *)
Definition vote_written (now : Z) (s : KV.namespace)
    (item_id token vote_type : string) (s' : KV.namespace) : Prop :=
  ∀ k, k ≠ metaKey item_id now →
       s' !! k = after_vote now s item_id token vote_type None !! k.

(** The rate counter of [token] lets a vote pass at [now]. *)
Definition under_limit (now : Z) (s : KV.namespace) (token : string) : Prop :=
  num_ge (parseInt (or_else (KV.get now s (rateLimitKey token (today now))) "0"))
    (Num 50) = false.

(** *** The page over time *)

(** A later use of the voting service by the page: a call of
    [voteForItem], with the browser, the network, the instants and the
    namespace of the worker that it finds, or a call of [getUserVote]. *)
Inductive use :=
| Vote (browser : Fingerprint.browser) (net : network) (clock now : Z)
       (s : KV.namespace) (itemId voteType : string) (date : option string)
| Ask (browser : Fingerprint.browser) (itemId : string).

(** [localStorage] after a use, and after several. *)
Definition after_use `{JsonParser} (digest : string → list Byte.byte) (u : use)
    (ls : storage) : storage :=
  match u with
  | Vote browser net clock now s itemId voteType date =>
      (Client.voteForItem digest browser net clock now ls s itemId voteType date).1.2
  | Ask browser itemId => (Client.getUserVote digest browser ls itemId).2
  end.

Definition after_uses `{JsonParser} (digest : string → list Byte.byte)
    (uses : list use) (ls : storage) : storage :=
  foldl (fun ls u => after_use digest u ls) ls uses.

(** ** Concrete runs, used as examples *)

Definition vote (item_id token vote_type : string) : request :=
  POST_vote (Some item_id) (Some token) (Some vote_type) None.

(** Four items with net scores 2, -2, 2 and 0. *)
Definition ranking_trace : list (Z * request) :=
  [(1000, vote "a" "t1" "like"); (2000, vote "a" "t2" "like");
   (3000, vote "b" "t1" "like"); (4000, vote "b" "t2" "dislike");
   (5000, vote "b" "t3" "dislike"); (6000, vote "b" "t4" "dislike");
   (7000, vote "c" "t1" "like"); (8000, vote "c" "t2" "like");
   (9000, vote "d" "t1" "like"); (10000, vote "d" "t2" "dislike")].

Definition ranking_expected : list summary :=
  [Summary "a" (Num 2) (Num 0) (Num 2) (Num 2);
   Summary "c" (Num 2) (Num 0) (Num 2) (Num 2);
   Summary "d" (Num 1) (Num 1) (Num 0) (Num 2);
   Summary "b" (Num 1) (Num 3) (Num (-2)) (Num 4)].

(** Item [x] is liked once; item [z] is disliked twice and never liked. *)
Definition dislike_trace : list (Z * request) :=
  [(1000, vote "x" "t1" "like"); (2000, vote "z" "t1" "dislike");
   (3000, vote "z" "t2" "dislike")].

(** The namespace after [dislike_trace] and a read of item [x], which
    caches the summary of [x] for a minute. *)
Definition disliked_then_read : KV.namespace :=
  run (dislike_trace ++ [(4500, GET_votes "x")]) ∅.

(** Three likes and one dislike for one item. *)
Definition stats_trace : list (Z * request) :=
  [(1000, vote "n1" "t1" "like"); (2000, vote "n1" "t2" "like");
   (3000, vote "n1" "t3" "dislike"); (4000, vote "n1" "t4" "like")].

(** Item [x] is read, which caches its summary, one second before it is
    voted for. *)
Definition cached_then_voted : KV.namespace :=
  (getVoteCounts 0 ∅ "x").2.

(** Fifty votes of one token in the last second of 1970-01-01 (UTC), for
    fifty items, and one more vote at midnight. *)
Definition before_midnight : list (Z * request) :=
  (fun k => (86399000 + k, vote ("item-" +:+ decimal (Z.to_N k)) "tok" "like"))
    <$> seqZ 0 50.

Definition around_midnight : list (Z * request) :=
  before_midnight ++ [(86400000, vote "item-50" "tok" "like")].

(** A vote as a program other than the page can send it: the token is
    the number 12345. *)
Definition number_token_vote (item_id vote_type : string) : Worker.http_request :=
  Worker.HttpRequest "POST" "/vote" None
    (Worker.Fields (Worker.Str item_id) (Worker.Truthy (Some "12345") "12345")
       (Worker.Str vote_type) Worker.Falsy).

(** A vote as the page sends it. *)
Definition page_vote (item_id token vote_type : string) : Worker.http_request :=
  Worker.HttpRequest "POST" "/vote" None
    (Worker.Fields (Worker.Str item_id) (Worker.Str token) (Worker.Str vote_type)
       Worker.Falsy).

(** A read. *)
Definition http_get (pathname : string) : Worker.http_request :=
  Worker.HttpRequest "GET" pathname None Worker.NotJson.

(** ** Notions used to state the further properties *)

(** No character of [s] is [c]. *)
Fixpoint without (c : ascii) (s : string) : bool :=
  match s with
  | String x s' => negb (Ascii.eqb x c) && without c s'
  | EmptyString => true
  end.

(** Every request of the trace is served before the instant [T]. *)
Definition served_before (T : Z) (tr : list (Z * request)) : Prop :=
  Forall (fun p => p.1 < T) tr.

(** The text that the read paths cache for an item with the counts [a]
    and [b]. *)
Definition cached_summary (itemId : string) (a b : Z) : string :=
  JSON_stringify
    (json_of_summary (Summary itemId (Num a) (Num b) (Num (a - b)) (Num (a + b)))).

(** Lower-case hexadecimal digits only. *)
Fixpoint is_hex (s : string) : bool :=
  match s with
  | String c s' =>
      let n := N_of_ascii c in
      ((48 <=? n) && (n <=? 57) || (97 <=? n) && (n <=? 102))%N && is_hex s'
  | EmptyString => true
  end.

(** Every request of the trace is served at [T] at the latest. *)
Definition served_until (T : Z) (tr : list (Z * request)) : Prop :=
  Forall (fun p => p.1 ≤ T) tr.

(** Both counters of every item read as integers that are not negative. *)
Definition counters_nonneg (s : KV.namespace) : Prop :=
  ∀ v i, is_vote_type v → ∃ c, 0 ≤ c ∧ counter_reads s v i c.

(** Every cache entry holds the summary of counts that the counters of its
    item have reached, and is gone 60 seconds after [T] at the latest. *)
Definition cache_coherent (T : Z) (s : KV.namespace) : Prop :=
  ∀ i e, s !! cacheKey i = Some e →
    ∃ a b cl cd x,
      e = KV.Entry (cached_summary i a b) (Some x) ∧ x ≤ T + cache_ttl * 1000
      ∧ counter_reads s "like" i cl ∧ counter_reads s "dislike" i cd
      ∧ 0 ≤ a ≤ cl ∧ 0 ≤ b ≤ cd.

(** Every vote record of the namespace was written by one of the votes
    [A] (instant, token, item), and expires 30 days after it. *)
Definition ledger_from (A : list (Z * string * string)) (s : KV.namespace) : Prop :=
  ∀ t i e, s !! voteKey t i = Some e →
    ∃ w t' i', (w, t', i') ∈ A ∧ voteKey t' i' = voteKey t i
               ∧ KV.expiration e = Some (w + vote_ttl * 1000).

(** * Properties *)

(** ** Numbers and strings *)

Section Decimal.

Local Open Scope string_scope.

Lemma parse_digits_acc (d : Decimal.uint) (a : Z) (p : positive) :
  a = Z.pos p →
  parse_digits 10 (NilEmpty.string_of_uint d) (Some a)
  = Some (Z.pos (Pos.of_uint_acc d p)).
Proof.
  revert a p. induction d; intros a p ->; simpl;
    [reflexivity | apply IHd; lia ..].
Qed.

Lemma parse_digits_zero (d : Decimal.uint) :
  parse_digits 10 (NilEmpty.string_of_uint d) (Some 0)
  = Some (Z.of_N (Pos.of_uint d)).
Proof.
  induction d; simpl;
    [reflexivity | assumption | by apply parse_digits_acc ..].
Qed.

Lemma parse_digits_uint (d : Decimal.uint) :
  d ≠ Decimal.Nil →
  parse_digits 10 (NilEmpty.string_of_uint d) None = Some (Z.of_N (Pos.of_uint d)).
Proof.
  destruct d; intros Hd; simpl;
    [congruence | apply parse_digits_zero | by apply parse_digits_acc ..].
Qed.

Lemma to_uint_nonnil (n : N) : N.to_uint n ≠ Decimal.Nil.
Proof.
  destruct n; simpl; [discriminate | apply DecimalPos.Unsigned.to_uint_nonnil].
Qed.

Lemma decimal_unfold (n : N) : decimal n = NilEmpty.string_of_uint (N.to_uint n).
Proof.
  unfold decimal, NilZero.string_of_uint.
  pose proof (to_uint_nonnil n). destruct (N.to_uint n); congruence.
Qed.

Lemma parse_digits_decimal (n : N) : parse_digits 10 (decimal n) None = Some (Z.of_N n).
Proof.
  rewrite decimal_unfold, parse_digits_uint by apply to_uint_nonnil.
  change (Pos.of_uint (N.to_uint n)) with (N.of_uint (N.to_uint n)).
  by rewrite DecimalN.Unsigned.of_to.
Qed.

(** A decimal numeral starts with a digit and has no [x] in second place:
    [parseInt] reads it in radix 10, with nothing to skip in front. *)
Lemma decimal_shape (n : N) :
  trimStart (decimal n) = decimal n
  ∧ parse_unsigned (decimal n) = parse_digits 10 (decimal n) None
  ∧ ∃ c s, decimal n = String c s ∧ c ≠ "-"%char ∧ c ≠ "+"%char.
Proof.
  rewrite decimal_unfold. pose proof (to_uint_nonnil n) as Hn.
  destruct (N.to_uint n) as [|d|d|d|d|d|d|d|d|d|d]; [congruence | ..];
    (split; [reflexivity | split; [| eexists _, _; split; [reflexivity | split; discriminate]]]);
    try reflexivity.
  destruct d; reflexivity.
Qed.

Lemma parseInt_String_of_Z (z : Z) : parseInt (String_of_Z z) = Num z.
Proof.
  unfold parseInt. destruct z as [|p|p]; simpl String_of_Z.
  - reflexivity.
  - destruct (decimal_shape (N.pos p)) as (-> & Hu & c & s & Hd & Hm & Hp).
    rewrite Hd in *.
    replace (match String c s with
             | String "-" s' => (true, s')
             | String "+" s' => (false, s')
             | _ => (false, String c s)
             end) with (false, String c s).
    + rewrite Hu, <- Hd, parse_digits_decimal. reflexivity.
    + destruct c as [[] [] [] [] [] [] [] []]; congruence.
  - destruct (decimal_shape (N.pos p)) as (_ & Hu & _).
    cbn [trimStart is_white]. simpl.
    rewrite Hu, parse_digits_decimal. reflexivity.
Qed.

Lemma parseInt_String_of (z : Z) : parseInt (String_of (Num z)) = Num z.
Proof. apply parseInt_String_of_Z. Qed.

(** [String(n)] of an integer is never the empty string. *)
Lemma String_of_Z_truthy (z : Z) : ∃ c s, String_of_Z z = String c s.
Proof.
  destruct z as [|p|p]; simpl; eauto.
  destruct (decimal_shape (N.pos p)) as (_ & _ & c & s & -> & _). eauto.
Qed.

End Decimal.

(** ** The namespace *)

Lemma get_put_eq now now' k v ttl (s : KV.namespace) :
  KV.get now' (KV.put now k v ttl s) k
  = if KV.live now' (KV.Entry v ((fun t => now + t * 1000) <$> ttl)) then Some v else None.
Proof. unfold KV.get, KV.put. by rewrite lookup_insert_eq. Qed.

Lemma get_put_ne now now' k k' v ttl (s : KV.namespace) :
  k ≠ k' → KV.get now' (KV.put now k v ttl s) k' = KV.get now' s k'.
Proof. intros Hk. unfold KV.get, KV.put. by rewrite lookup_insert_ne. Qed.

Lemma lookup_put_ne now k k' v ttl (s : KV.namespace) :
  k ≠ k' → KV.put now k v ttl s !! k' = s !! k'.
Proof. intros Hk. unfold KV.put. by rewrite lookup_insert_ne. Qed.

Lemma get_None_lookup now (s : KV.namespace) k :
  s !! k = None → KV.get now s k = None.
Proof. unfold KV.get. by intros ->. Qed.

(** A response and a namespace, checked one after the other. *)
Lemma pair_parts {A B} (p : A * B) (a : A) (b : B) : p.1 = a → p.2 = b → p = (a, b).
Proof. destruct p. simpl. by intros -> ->. Qed.

(** ** Key names: the six families are disjoint *)

Lemma vote_type_cases v : is_vote_type v → v = "like"%string ∨ v = "dislike"%string.
Proof.
  unfold is_vote_type. rewrite elem_of_cons, list_elem_of_singleton. tauto.
Qed.

Ltac unfold_keys :=
  unfold voteKey, countKey, rateLimitKey, metaKey, cacheKey in *.

Ltac key_ne :=
  let H := fresh in
  intros H; unfold_keys; cbv [String.append] in H; congruence.

Lemma countKey_inj v v' i i' :
  is_vote_type v → is_vote_type v' → countKey v i = countKey v' i' → v = v' ∧ i = i'.
Proof.
  intros [-> | ->]%vote_type_cases [-> | ->]%vote_type_cases H;
    unfold countKey in H; cbv [String.append] in H; by simplify_eq.
Qed.

Lemma voteKey_ne_countKey t i v j : is_vote_type v → voteKey t i ≠ countKey v j.
Proof. intros [-> | ->]%vote_type_cases; key_ne. Qed.

Lemma voteKey_ne_rateLimitKey t i t' d : voteKey t i ≠ rateLimitKey t' d.
Proof. key_ne. Qed.

Lemma voteKey_ne_metaKey t i j n : voteKey t i ≠ metaKey j n.
Proof. key_ne. Qed.

Lemma voteKey_ne_cacheKey t i j : voteKey t i ≠ cacheKey j.
Proof. key_ne. Qed.

Lemma countKey_ne_rateLimitKey v i t d : is_vote_type v → countKey v i ≠ rateLimitKey t d.
Proof. intros [-> | ->]%vote_type_cases; key_ne. Qed.

Lemma countKey_ne_metaKey v i j n : is_vote_type v → countKey v i ≠ metaKey j n.
Proof. intros [-> | ->]%vote_type_cases; key_ne. Qed.

Lemma countKey_ne_cacheKey v i j : is_vote_type v → countKey v i ≠ cacheKey j.
Proof. intros [-> | ->]%vote_type_cases; key_ne. Qed.

Lemma rateLimitKey_ne_metaKey t d j n : rateLimitKey t d ≠ metaKey j n.
Proof. key_ne. Qed.

Lemma rateLimitKey_ne_cacheKey t d j : rateLimitKey t d ≠ cacheKey j.
Proof. key_ne. Qed.

Lemma metaKey_ne_cacheKey j n i : metaKey j n ≠ cacheKey i.
Proof. key_ne. Qed.

Lemma is_vote_type_like : is_vote_type "like".
Proof. unfold is_vote_type. set_solver. Qed.

Lemma is_vote_type_dislike : is_vote_type "dislike".
Proof. unfold is_vote_type. set_solver. Qed.

Lemma is_vote_type_truthy v : is_vote_type v → truthy (Some v) = true.
Proof. by intros [-> | ->]%vote_type_cases. Qed.

Create HintDb keys.
#[local] Hint Resolve is_vote_type_like is_vote_type_dislike : keys.
#[local] Hint Resolve voteKey_ne_countKey voteKey_ne_rateLimitKey voteKey_ne_metaKey
  voteKey_ne_cacheKey countKey_ne_rateLimitKey countKey_ne_metaKey
  countKey_ne_cacheKey rateLimitKey_ne_metaKey rateLimitKey_ne_cacheKey
  metaKey_ne_cacheKey : keys.

Ltac solve_keys :=
  first [ done | by auto with keys | by apply not_eq_sym; auto with keys ].

(** ** [handleVote]: the two ways out *)

Lemma truthy_Some s : truthy (Some s) = true ↔ s ≠ ""%string.
Proof. destruct s; simpl; split; congruence. Qed.

Lemma or_else_Some s d : s ≠ ""%string → or_else (Some s) d = s.
Proof. by destruct s. Qed.

Lemma handleVote_accepted now s oi ot ov d i l dl n s' :
  handleVote now s oi ot ov d = (VoteResponse i l dl n, s') →
  ∃ t v, oi = Some i ∧ ot = Some t ∧ ov = Some v
         ∧ vote_admissible now s i t v
         ∧ s' = after_vote now s i t v d
         ∧ l = parseInt (or_else (KV.get now s' (countKey "like" i)) "0")
         ∧ dl = parseInt (or_else (KV.get now s' (countKey "dislike" i)) "0")
         ∧ n = num_sub l dl.
Proof.
  unfold handleVote.
  destruct (truthy oi) eqn:Hi; [| discriminate].
  destruct (truthy ot) eqn:Ht; [| discriminate].
  destruct (truthy ov) eqn:Hv; [| discriminate]. simpl.
  destruct oi as [i0|], ot as [t|], ov as [v|]; try discriminate.
  apply truthy_Some in Hi, Ht, Hv.
  rewrite !or_else_Some by done.
  case_bool_decide as Hty; [| discriminate]. simpl.
  destruct (truthy (KV.get now s (voteKey t i0))) eqn:Hex; [discriminate |].
  destruct (num_ge _ _) eqn:Hrate; [discriminate |].
  intros [= <- <- <- <- <-]. exists t, v.
  repeat split; try done.
Qed.

Lemma handleVote_accepts now s i t v d :
  vote_admissible now s i t v →
  ∃ l dl, handleVote now s (Some i) (Some t) (Some v) d
          = (VoteResponse i l dl (num_sub l dl), after_vote now s i t v d).
Proof.
  intros (Hi & Ht & Hty & Hex & Hrate). unfold handleVote.
  destruct i as [|ci i]; [done |]. destruct t as [|ct t]; [done |].
  assert (∃ cv v', v = String cv v') as (cv & v' & Hv)
    by (apply vote_type_cases in Hty as [-> | ->]; eauto).
  rewrite Hv in *. cbn [truthy or_else negb orb].
  rewrite bool_decide_eq_true_2 by done. cbn [negb].
  rewrite Hex, Hrate. by eexists _, _.
Qed.

(** Every other way out is an error response, and writes nothing. *)
Lemma handleVote_rejected now s oi ot ov d :
  (∃ i l dl n, (handleVote now s oi ot ov d).1 = VoteResponse i l dl n)
  ∨ (∃ status error,
        (handleVote now s oi ot ov d) = (ErrorResponse status error, s)).
Proof.
  unfold handleVote.
  repeat match goal with
         | |- context [if ?b then _ else _] => destruct b
         end; simpl; eauto 10.
Qed.

(** ** What each request may write *)

Section Frames.

Context `{JsonParser}.

Lemma after_vote_lookup_ne now s i t v d k :
  k ≠ voteKey t i → k ≠ countKey v i → k ≠ rateLimitKey t (today now) →
  k ≠ metaKey i now → after_vote now s i t v d !! k = s !! k.
Proof.
  intros. unfold after_vote. by rewrite !lookup_put_ne.
Qed.

Lemma batch_store_lookup now s itemIds k :
  (∀ i, k ≠ cacheKey i) → batch_store now s itemIds !! k = s !! k.
Proof.
  intros Hk. unfold batch_store.
  generalize s at 2 3 as acc. 
  induction itemIds as [|itemId itemIds IH]; intros acc; simpl; [done |].
  rewrite IH. destruct (resolve now s itemId); try done.
  by apply lookup_put_ne.
Qed.

(** The read paths write cache entries and nothing else. *)
Lemma fetch_read_lookup now s r k :
  (∀ i, k ≠ cacheKey i) →
  (∀ i t v d, r ≠ POST_vote i t v d) →
  (fetch now s r).2 !! k = s !! k.
Proof.
  intros Hk Hr. destruct r as [i t v d|ids|itemId| |]; simpl.
  - by destruct (Hr i t v d).
  - destruct (getBatchVoteCounts now s ids) as [[resp|] s'] eqn:Hb; simpl;
      unfold getBatchVoteCounts in Hb;
      repeat match type of Hb with
             | (if ?b then _ else _) = _ => destruct b
             end; simplify_eq; try done; by apply batch_store_lookup.
  - unfold getVoteCounts.
    repeat match goal with
           | |- context [if ?b then _ else _] => destruct b
           end; simpl; try done.
    by apply lookup_put_ne.
  - done.
  - unfold getStats. by destruct (foldl _ _ _) as [[? ?] ?].
Qed.

(** *** The ledger keeps its records *)

Lemma after_vote_on_record now s i t v d :
  is_vote_type v →
  vote_on_record (after_vote now s i t v d) t i (now + vote_ttl * 1000).
Proof.
  intros Hv. exists v, (now + vote_ttl * 1000). split; [| split; [| lia]].
  - unfold after_vote.
    rewrite !lookup_put_ne by (apply not_eq_sym; auto with keys).
    unfold KV.put. by rewrite lookup_insert_eq.
  - by apply truthy_Some, is_vote_type_truthy.
Qed.

Lemma vote_on_record_get now s t i until :
  vote_on_record s t i until → now < until →
  truthy (KV.get now s (voteKey t i)) = true.
Proof.
  intros (v & x & Hs & Hv & Hx) Hnow. unfold KV.get, KV.live. rewrite Hs. simpl.
  rewrite (proj2 (Z.ltb_lt now x)) by lia. by apply truthy_Some.
Qed.

Lemma fetch_keeps_record now s r t i until :
  vote_on_record s t i until → vote_on_record (fetch now s r).2 t i until.
Proof.
  intros Hrec. destruct r as [oi ot ov d| | | |];
    try (destruct Hrec as (v0 & x & Hs & Hv & Hx); exists v0, x;
         rewrite fetch_read_lookup; [done | auto with keys | done]).
  simpl. destruct (handleVote_rejected now s oi ot ov d)
    as [(i' & l & dl & n & Hok) | (st & e & ->)]; [| done].
  destruct (handleVote now s oi ot ov d) as [resp s'] eqn:Hh. simpl in *. subst resp.
  apply handleVote_accepted in Hh
    as (t' & v & -> & -> & -> & (_ & _ & Hv & Hex & _) & -> & _).
  destruct (decide (voteKey t' i' = voteKey t i)) as [Heq | Hne].
  - (* the record is written anew: the old one had expired *)
    rewrite Heq in Hex.
    destruct Hrec as (v0 & x & Hs & Hv0 & Hx).
    assert (x ≤ now) as Hnow.
    { unfold KV.get, KV.live in Hex. rewrite Hs in Hex. simpl in Hex.
      destruct (now <? x) eqn:Hlt; [| lia].
      apply truthy_Some in Hv0. congruence. }
    destruct (after_vote_on_record now s i' t' v d Hv) as (v1 & x1 & Hs1 & Hv1 & Hx1).
    rewrite Heq in Hs1. exists v1, x1. repeat split; try done.
    unfold vote_ttl in *. lia.
  - destruct Hrec as (v0 & x & Hs & Hv0 & Hx). exists v0, x.
    rewrite after_vote_lookup_ne; [done | ..]; solve_keys.
Qed.

Lemma run_keeps_record tr s t i until :
  vote_on_record s t i until → vote_on_record (run tr s) t i until.
Proof.
  revert s. induction tr as [|[now r] tr IH]; intros s Hrec; simpl; [done |].
  by apply IH, fetch_keeps_record.
Qed.

End Frames.

(** ** The ledger: a duplicate vote *)

(** C1, as the code has it.  After a vote of token [t] for item [i] has
    been accepted, and whatever requests are served in between, a further
    submission for the same pair that arrives while the vote record lasts
    (less than 30 days after the accepted vote) is answered 409 "Already
    voted", whichever of the two vote types it carries, and leaves the
    namespace as it was; in particular the rate counter of [t] reads the
    same afterwards. *)
Theorem duplicate_vote_rejected `{JsonParser}
    now s i t v d l dl n s1 tr now' v' d' :
  handleVote now s (Some i) (Some t) (Some v) d = (VoteResponse i l dl n, s1) →
  is_vote_type v' →
  now' < now + vote_ttl * 1000 →
  handleVote now' (run tr s1) (Some i) (Some t) (Some v') d'
  = (ErrorResponse 409 "Already voted", run tr s1)
  ∧ KV.get now'
      (handleVote now' (run tr s1) (Some i) (Some t) (Some v') d').2
      (rateLimitKey t (today now'))
    = KV.get now' (run tr s1) (rateLimitKey t (today now')).
Proof.
  intros Hfirst Hv' Hnow.
  apply handleVote_accepted in Hfirst
    as (t0 & v0 & _ & [= <-] & [= <-] & (Hi & Ht & Hv & _) & -> & _).
  assert (handleVote now' (run tr (after_vote now s i t v d))
            (Some i) (Some t) (Some v') d'
          = (ErrorResponse 409 "Already voted", run tr (after_vote now s i t v d)))
    as Hdup.
  { pose proof (run_keeps_record tr _ t i _ (after_vote_on_record now s i t v d Hv))
      as Hrec.
    apply (vote_on_record_get now') in Hrec; [| done].
    unfold handleVote.
    rewrite (proj2 (truthy_Some i)), (proj2 (truthy_Some t)),
      (is_vote_type_truthy v') by done.
    cbn [negb orb]. rewrite !or_else_Some; try done.
    - rewrite bool_decide_eq_true_2 by done. cbn [negb]. by rewrite Hrec.
    - by apply truthy_Some, is_vote_type_truthy. }
  split; [done |]. by rewrite Hdup.
Qed.

Lemma duplicate_vote_rejected_witness :
  handleVote 86400000
    (run [(60000, GET_votes "item-1"); (120000, POST_vote (Some "item-2") (Some "tok") (Some "like") None)]
       (after_vote 0 ∅ "item-1" "tok" "like" None))
    (Some "item-1") (Some "tok") (Some "dislike") None
  = (ErrorResponse 409 "Already voted",
     run [(60000, GET_votes "item-1"); (120000, POST_vote (Some "item-2") (Some "tok") (Some "like") None)]
       (after_vote 0 ∅ "item-1" "tok" "like" None)).
Proof.
  apply (duplicate_vote_rejected 0 ∅ "item-1" "tok" "like" None
           (Num 1) (Num 0) (Num 1) _ _ 86400000 "dislike" None).
  - apply pair_parts; [vm_compute |]; reflexivity.
  - apply is_vote_type_dislike.
  - reflexivity.
Defined.

(** A vote, its repetition with the other vote type, and a read. *)
Example served_in_order :
  responses [(0, vote "x" "tok" "like"); (1000, vote "x" "tok" "dislike");
             (2000, GET_votes "x")] ∅
  = [VoteResponse "x" (Num 1) (Num 0) (Num 1);
     ErrorResponse 409 "Already voted";
     CountsResponse MISS
       (JSON_stringify (json_of_summary (Summary "x" (Num 1) (Num 0) (Num 1) (Num 1))))].
Proof. vm_compute. reflexivity. Qed.

(** ** The counter store *)

Section Counters.

Context `{JsonParser}.

Lemma get_ext now (s s' : KV.namespace) k :
  s' !! k = s !! k → KV.get now s' k = KV.get now s k.
Proof. unfold KV.get. by intros ->. Qed.

Lemma counter_reads_empty v i : counter_reads ∅ v i 0.
Proof. intros now. unfold KV.get. by rewrite lookup_empty. Qed.

Lemma counter_reads_ext (s s' : KV.namespace) v i c :
  s' !! countKey v i = s !! countKey v i → counter_reads s v i c → counter_reads s' v i c.
Proof. intros Hk Hc now. rewrite (get_ext _ _ _ _ Hk). apply Hc. Qed.

Lemma accepts_error v i r status error : accepts v i r (ErrorResponse status error) = false.
Proof. by destruct r as [[?|] ? [?|] ?| | | |]. Qed.

Lemma accepts_read v i r resp : (∀ oi t ov d, r ≠ POST_vote oi t ov d) → accepts v i r resp = false.
Proof. intros Hr. destruct r as [oi t ov d| | | |]; try done. by destruct (Hr oi t ov d). Qed.

(** An accepted vote adds one to its counter. *)
Lemma after_vote_counter now s i t v d c :
  is_vote_type v → counter_reads s v i c →
  counter_reads (after_vote now s i t v d) v i (c + 1).
Proof.
  intros Hv Hc now'. unfold after_vote.
  rewrite !get_put_ne by solve_keys.
  rewrite get_put_eq. cbn [KV.live KV.expiration fmap option_fmap option_map].
  rewrite get_put_ne by solve_keys. rewrite Hc. cbn [num_add String_of].
  destruct (String_of_Z_truthy (c + 1)) as (a & b & Hs).
  rewrite or_else_Some by (rewrite Hs; done).
  apply parseInt_String_of_Z.
Qed.

Lemma fetch_counter now s r v i c :
  is_vote_type v → counter_reads s v i c →
  counter_reads (fetch now s r).2 v i
    (c + if accepts v i r (fetch now s r).1 then 1 else 0).
Proof.
  intros Hv Hc. destruct r as [oi ot ov d| | | |];
    try (rewrite accepts_read by done; rewrite Z.add_0_r;
         eapply counter_reads_ext; [| done];
         apply fetch_read_lookup; [auto with keys | done]).
  cbn [fetch]. destruct (handleVote_rejected now s oi ot ov d)
    as [(i' & l & dl & n & Hok) | (st & e & ->)].
  - destruct (handleVote now s oi ot ov d) as [resp s'] eqn:Hh. simpl in *. subst resp.
    apply handleVote_accepted in Hh
      as (t' & v' & -> & -> & -> & (_ & _ & Hv' & _) & -> & _).
    simpl. case_bool_decide as Heq.
    + destruct Heq as [-> ->]. by apply after_vote_counter.
    + rewrite Z.add_0_r. eapply counter_reads_ext; [| done].
      apply after_vote_lookup_ne; try solve_keys.
      intros Hk. apply countKey_inj in Hk as [-> ->]; [| done ..]. by apply Heq.
  - cbn [fst snd]. by rewrite accepts_error, Z.add_0_r.
Qed.

Lemma run_counter tr s v i c :
  is_vote_type v → counter_reads s v i c →
  counter_reads (run tr s) v i (c + accepted v i tr s).
Proof.
  intros Hv. revert s c. induction tr as [|[now r] tr IH]; intros s c Hc; simpl.
  - by rewrite Z.add_0_r.
  - rewrite Z.add_assoc. by apply IH, fetch_counter.
Qed.

End Counters.

(** ** The worker on a body of any kind *)

Section WorkerVotes.

Context `{JsonParser}.

Ltac case_route H :=
  match goal with
  | |- context [if ?b && ?c then _ else _] => destruct (b && c) eqn:H
  end.

Lemma after_vote_before_metadata now s i t v d :
  after_vote now s i t v d
  = KV.put now (metaKey i now)
      (JSON_stringify (vote_metadata t v now (or_else d (today now))))
      (Some vote_ttl) (before_metadata now s i t v).
Proof. reflexivity. Qed.

Lemma vote_written_before_metadata now s i t v :
  vote_written now s i t v (before_metadata now s i t v).
Proof.
  intros k Hk. rewrite after_vote_before_metadata. by rewrite lookup_put_ne.
Qed.

Lemma vote_written_put now s i t v text ttl :
  vote_written now s i t v
    (KV.put now (metaKey i now) text ttl (before_metadata now s i t v)).
Proof.
  intros k Hk. rewrite after_vote_before_metadata. by rewrite !lookup_put_ne.
Qed.

(** The metadata of a vote whose date is a string or is missing. *)
Lemma metadata_text_strings t v now d :
  Worker.metadata_text t v now (Worker.date_text (Worker.of_option d) (today now))
  = JSON_stringify (vote_metadata t v now (or_else d (today now))).
Proof. by destruct d as [[|c d]|]. Qed.

Lemma is_truthy_of_option o : Worker.is_truthy (Worker.of_option o) = truthy o.
Proof. by destruct o as [[|c o]|]. Qed.

(** On a body whose fields are strings the handler is [handleVote]. *)
Lemma worker_handleVote_strings now s i t v d :
  Worker.vote_response
    (Worker.handleVote now s (Worker.of_option i) (Worker.of_option t)
       (Worker.of_option v) (Worker.of_option d)).1
  = match (handleVote now s i t v d).1 with
    | VoteResponse item_id l dl n => Worker.JsonVote (Worker.Str item_id) l dl n
    | r => Worker.Json r
    end
  ∧ (Worker.handleVote now s (Worker.of_option i) (Worker.of_option t)
       (Worker.of_option v) (Worker.of_option d)).2
    = (handleVote now s i t v d).2.
Proof.
  unfold Worker.handleVote, handleVote. rewrite !is_truthy_of_option.
  destruct (_ || _) eqn:Hmiss; [done |].
  destruct i as [[|ci i]|], t as [[|ct t]|], v as [[|cv v]|]; try by simpl in Hmiss.
  cbn [Worker.of_option or_else Worker.text].
  clear Hmiss. case_bool_decide; cbn [negb]; [| done].
  destruct (truthy _); [done |].
  destruct (num_ge _ _); [done |].
  cbn [fst snd Worker.vote_response]. by rewrite metadata_text_strings.
Qed.

(** The ways out of the handler: a refusal or an exception before anything
    is written, or the writes of a vote, with or without the metadata. *)
Lemma worker_handleVote_cases now s fi ft fv fd :
  (∃ status error,
      Worker.handleVote now s fi ft fv fd = (Worker.Refused status error, s)
      ∧ (status, error) ∈ [(400, "Missing required fields"); (400, "Invalid vote_type");
                           (409, "Already voted"); (429, "Rate limit exceeded")]%string)
  ∨ (Worker.handleVote now s fi ft fv fd = (Worker.Unconvertible, s)
     ∧ (Worker.text ft = None ∨ Worker.text fi = None))
  ∨ ∃ i t v,
      Worker.text fi = Some i ∧ Worker.text ft = Some t ∧ fv = Worker.Str v
      ∧ is_vote_type v
      ∧ truthy (KV.get now s (voteKey t i)) = false
      ∧ under_limit now s t
      ∧ ((ft = Worker.Str t
          ∧ ∃ l dl,
              Worker.handleVote now s fi ft fv fd
              = (Worker.Voted fi l dl (num_sub l dl),
                 KV.put now (metaKey i now)
                   (Worker.metadata_text t v now (Worker.date_text fd (today now)))
                   (Some vote_ttl) (before_metadata now s i t v)))
         ∨ ((∀ x, ft ≠ Worker.Str x)
            ∧ Worker.handleVote now s fi ft fv fd
              = (Worker.Crashed, before_metadata now s i t v))).
Proof.
  unfold Worker.handleVote.
  destruct (_ || _) eqn:Hmiss.
  { left. eexists _, _. split; [done |]. by left. }
  destruct fv as [v| |]; [| left; eexists _, _; split; [done |]; right; by left ..].
  case_bool_decide as Hv; cbn [negb];
    [| left; eexists _, _; split; [done |]; right; by left].
  destruct (Worker.text ft) as [t|] eqn:Ht; [| right; left; split; [done | by left]].
  destruct (Worker.text fi) as [i|] eqn:Hi; [| right; left; split; [done | by right]].
  destruct (truthy (KV.get now s (voteKey t i))) eqn:Hex.
  { left. eexists _, _. split; [done |]. right. right. by left. }
  destruct (num_ge _ _) eqn:Hrate.
  { left. eexists _, _. split; [done |]. right. right. right. by left. }
  right. right. exists i, t, v. repeat split; try done.
  destruct ft as [t'| |]; try (right; split; [done | reflexivity]).
  left. cbn [Worker.text] in Ht. injection Ht as ->. split; [done |].
  by eexists _, _.
Qed.

End WorkerVotes.

Section WorkerSteps.

Context `{JsonParser}.

Ltac case_route H :=
  match goal with
  | |- context [if ?b && ?c then _ else _] => destruct (b && c) eqn:H
  end.

Lemma vote_fields_Some req fi ft fv fd :
  vote_fields req = Some (fi, ft, fv, fd) ↔
  Worker.method req = "POST"%string ∧ Worker.pathname req = "/vote"%string
  ∧ Worker.body req = Worker.Fields fi ft fv fd.
Proof.
  unfold vote_fields. split.
  - destruct (_ && _) eqn:Hpost; [| done].
    apply andb_true_iff in Hpost as [Hm Hp]. apply bool_decide_eq_true in Hm, Hp.
    destruct (Worker.body req); [done |]. by intros [= -> -> -> ->].
  - intros (-> & -> & ->). done.
Qed.

(** What [fetch] does with a request: the preflight, an error of its own,
    one of the four handlers that read, or [handleVote]. *)
Lemma worker_fetch_cases now s req :
  (vote_fields req = None
   ∧ (Worker.fetch now s req = (Worker.NoContent, s)
      ∨ (∃ status error,
            Worker.fetch now s req = (Worker.Json (ErrorResponse status error), s))
      ∨ ∃ r, (∀ oi ot ov d, r ≠ POST_vote oi ot ov d)
             ∧ Worker.fetch now s req = Worker.answer (fetch now s r)))
  ∨ ∃ fi ft fv fd,
      vote_fields req = Some (fi, ft, fv, fd)
      ∧ Worker.fetch now s req
        = (Worker.vote_response (Worker.handleVote now s fi ft fv fd).1,
           (Worker.handleVote now s fi ft fv fd).2).
Proof.
  destruct (vote_fields req) as [[[[fi ft] fv] fd]|] eqn:Hvf.
  { right. exists fi, ft, fv, fd. split; [done |].
    apply vote_fields_Some in Hvf as (Hm & Hp & Hb). unfold Worker.fetch.
    rewrite Hm, Hp, Hb. rewrite bool_decide_eq_false_2 by done.
    rewrite !bool_decide_eq_true_2 by done. cbn [andb].
    by destruct (Worker.handleVote now s fi ft fv fd). }
  left. split; [done |]. unfold Worker.fetch.
  case_bool_decide as Hopt; [by left |]. right.
  case_route Hpost.
  { unfold vote_fields in Hvf. rewrite Hpost in Hvf.
    destruct (Worker.body req) as [|fi ft fv fd]; [| done].
    left. by eexists _, _. }
  case_route Hbatch.
  { right. exists (GET_votes_batch (Worker.ids req)). split; [done |].
    cbn [fetch]. by destruct (getBatchVoteCounts now s (Worker.ids req)) as [[resp|] s']. }
  case_route Hone.
  { right. by eexists (GET_votes _). }
  case_route Hrank.
  { right. by exists GET_rankings. }
  case_route Hstats.
  { right. by exists GET_stats. }
  left. by eexists _, _.
Qed.

(** One request: it records a vote, which the handler had admitted and
    whose writes were made, or it leaves the namespace alone, or it is a
    read. *)
Lemma worker_fetch_step now s req :
  match recorded req (Worker.fetch now s req).1 with
  | Some (i, t, v) =>
      is_vote_type v ∧ truthy (KV.get now s (voteKey t i)) = false
      ∧ under_limit now s t
      ∧ vote_written now s i t v (Worker.fetch now s req).2
  | None =>
      (Worker.fetch now s req).2 = s
      ∨ ∃ r, (∀ oi ot ov d, r ≠ POST_vote oi ot ov d)
             ∧ (Worker.fetch now s req).2 = (fetch now s r).2
  end.
Proof.
  unfold recorded.
  destruct (worker_fetch_cases now s req)
    as [[-> [-> | [(st & e & ->) | (r & Hr & ->)]]] | (fi & ft & fv & fd & -> & ->)];
    [by left | by left | right; by exists r |].
  cbn [fst snd].
  destruct (worker_handleVote_cases now s fi ft fv fd)
    as [(st & e & -> & Hin) | [[-> Hno] | (i & t & v & Hi & Ht & -> & Hv & Hex & Hrate & Hw)]].
  - cbn [fst snd Worker.vote_response Worker.status].
    assert (¬ (st = 200 ∨ st = 500)) as Hst.
    { rewrite !elem_of_cons, elem_of_nil in Hin.
      destruct Hin as [Hin | [Hin | [Hin | [Hin | []]]]]; injection Hin as -> _; lia. }
    rewrite (bool_decide_eq_false_2 _ Hst).
    destruct fv; try by left. by destruct (Worker.text fi), (Worker.text ft); left.
  - cbn [fst snd]. destruct fv; try by left.
    destruct Hno as [-> | ->]; [destruct (Worker.text fi) |]; by left.
  - rewrite Hi, Ht.
    destruct Hw as [(-> & l & dl & ->) | (_ & ->)];
      cbn [fst snd Worker.vote_response Worker.status Worker.internal_error].
    + rewrite bool_decide_eq_true_2 by (by left).
      repeat split; try done. apply vote_written_put.
    + rewrite bool_decide_eq_true_2 by (by right).
      repeat split; try done. apply vote_written_before_metadata.
Qed.

(** *** Counters *)

Lemma counted_cases v i now req resp :
  counted v i now req resp = voted v i now req resp || crashed v i now req resp
  ∧ (voted v i now req resp && crashed v i now req resp = false).
Proof.
  unfold voted, crashed, counted, recorded.
  destruct (vote_fields req) as [[[[fi ft] [v'| |]] fd]|]; try done.
  destruct (Worker.text fi), (Worker.text ft); try done.
  case_bool_decide as Hst; [| done].
  case_bool_decide; [| done]. cbn [andb].
  destruct Hst as [-> | ->]; done.
Qed.

Lemma tally_nonneg p tr s : 0 ≤ tally p tr s.
Proof.
  revert s. induction tr as [|[now req] tr IH]; intros s; simpl; [done |].
  specialize (IH (Worker.fetch now s req).2). destruct (p _ _ _); lia.
Qed.

Lemma tally_counted v i tr s :
  tally (counted v i) tr s = tally (voted v i) tr s + tally (crashed v i) tr s.
Proof.
  revert s. induction tr as [|[now req] tr IH]; intros s; simpl; [done |].
  rewrite IH. destruct (counted_cases v i now req (Worker.fetch now s req).1) as [-> Hx].
  destruct (voted _ _ _ _ _), (crashed _ _ _ _ _); simpl in *; try done; lia.
Qed.

Lemma vote_written_counter now s i t v s' c :
  is_vote_type v → vote_written now s i t v s' → counter_reads s v i c →
  counter_reads s' v i (c + 1).
Proof.
  intros Hv Hw Hc.
  apply (counter_reads_ext (after_vote now s i t v None)); [apply Hw; solve_keys |].
  by apply after_vote_counter.
Qed.

Lemma vote_written_lookup_ne now s i t v s' k :
  vote_written now s i t v s' →
  k ≠ voteKey t i → k ≠ countKey v i → k ≠ rateLimitKey t (today now) →
  k ≠ metaKey i now → s' !! k = s !! k.
Proof.
  intros Hw ? ? ? ?. rewrite Hw by done. by apply after_vote_lookup_ne.
Qed.

(** A recorded vote adds one to its counter, and nothing else moves it. *)
Lemma worker_fetch_counter now s req v i c :
  is_vote_type v → counter_reads s v i c →
  counter_reads (Worker.fetch now s req).2 v i
    (c + if counted v i now req (Worker.fetch now s req).1 then 1 else 0).
Proof.
  intros Hv Hc. unfold counted.
  pose proof (worker_fetch_step now s req) as Hstep.
  destruct (recorded req (Worker.fetch now s req).1) as [[[i' t'] v']|].
  - destruct Hstep as (Hv' & _ & _ & Hw). case_bool_decide as Heq.
    + destruct Heq as [-> ->]. by eapply vote_written_counter.
    + rewrite Z.add_0_r. eapply counter_reads_ext; [| done].
      eapply vote_written_lookup_ne; [done | solve_keys | | solve_keys ..].
      intros Hk. apply countKey_inj in Hk as [-> ->]; [| done ..]. by apply Heq.
  - rewrite Z.add_0_r. destruct Hstep as [-> | (r & Hr & ->)]; [done |].
    pose proof (fetch_counter now s r v i c Hv Hc) as Hc'.
    by rewrite accepts_read, Z.add_0_r in Hc'.
Qed.

Lemma worker_run_counter tr s v i c :
  is_vote_type v → counter_reads s v i c →
  counter_reads (Worker.run tr s) v i (c + tally (counted v i) tr s).
Proof.
  intros Hv. revert s c. induction tr as [|[now req] tr IH]; intros s c Hc; simpl.
  - by rewrite Z.add_0_r.
  - rewrite Z.add_assoc. by apply IH, worker_fetch_counter.
Qed.

(** An admissible vote of a token that is a string is accepted. *)
Lemma worker_handleVote_accepts now s fi t v fd i :
  Worker.text fi = Some i → Worker.is_truthy fi = true → t ≠ ""%string →
  is_vote_type v → truthy (KV.get now s (voteKey t i)) = false → under_limit now s t →
  ∃ l dl s',
    Worker.handleVote now s fi (Worker.Str t) (Worker.Str v) fd
    = (Worker.Voted fi l dl (num_sub l dl), s')
    ∧ vote_written now s i t v s'
    ∧ l = likes (countsFromKV now s' i) ∧ dl = dislikes (countsFromKV now s' i).
Proof.
  intros Hi Hfi Ht Hv Hex Hrate. unfold Worker.handleVote.
  rewrite Hfi. destruct t as [|ct t]; [done |].
  assert (∃ cv v', v = String cv v') as (cv & v' & Hcv)
    by (apply vote_type_cases in Hv as [-> | ->]; eauto).
  rewrite Hcv in *. cbn [Worker.is_truthy negb orb Worker.text].
  rewrite bool_decide_eq_true_2 by done. cbn [negb]. rewrite Hi, Hex, Hrate.
  eexists _, _, _. split; [done |]. split; [apply vote_written_put | done].
Qed.

End WorkerSteps.

(** C2, on the code.  Served from the empty namespace, the counters of an
    item hold the votes that the worker has recorded for it, and these are
    not the accepted votes only: a vote whose token is not a string is
    counted and then answered 500.  For every trace, the likes and the
    dislikes read for item [i] are the numbers of votes of each type that
    were answered 200 plus the numbers of those that were answered 500
    after the counter was written, with net score and total computed from
    the two counters that were read: no key holds them, and the summary
    of an item is the same in two namespaces that agree on its two
    counters.  [getVoteCounts] answers with that summary whenever it finds
    no live cache entry.  A
    vote that the handler admits, of a token that is a string, is answered
    200 with the counts read back, and moves its counter by one.  The last
    part is a run: a like of a page, a like whose token is the number
    12345 and a dislike of a page, for one item; one like is accepted and
    two are read. *)
Theorem counters_hold_recorded_votes `{JsonParser} :
  (∀ tr i now,
      countsFromKV now (Worker.run tr ∅) i
      = Summary i
          (Num (tally (voted "like" i) tr ∅ + tally (crashed "like" i) tr ∅))
          (Num (tally (voted "dislike" i) tr ∅ + tally (crashed "dislike" i) tr ∅))
          (Num (tally (voted "like" i) tr ∅ + tally (crashed "like" i) tr ∅
                - (tally (voted "dislike" i) tr ∅ + tally (crashed "dislike" i) tr ∅)))
          (Num (tally (voted "like" i) tr ∅ + tally (crashed "like" i) tr ∅
                + (tally (voted "dislike" i) tr ∅ + tally (crashed "dislike" i) tr ∅))))
  ∧ (∀ now s i,
        (let r := countsFromKV now s i in
         net_score r = num_sub (likes r) (dislikes r)
         ∧ total_votes r = num_add (likes r) (dislikes r))
        ∧ (∀ s', s' !! countKey "like" i = s !! countKey "like" i →
                 s' !! countKey "dislike" i = s !! countKey "dislike" i →
                 countsFromKV now s' i = countsFromKV now s i)
        ∧ (i ≠ ""%string → truthy (KV.get now s (cacheKey i)) = false →
           (getVoteCounts now s i).1
           = CountsResponse MISS
               (JSON_stringify (json_of_summary (countsFromKV now s i)))))
  ∧ (∀ now s fi i t v fd c ids,
        Worker.text fi = Some i → Worker.is_truthy fi = true → t ≠ ""%string →
        is_vote_type v → truthy (KV.get now s (voteKey t i)) = false →
        under_limit now s t → counter_reads s v i c →
        ∃ l dl s',
          Worker.fetch now s
            (Worker.HttpRequest "POST" "/vote" ids
               (Worker.Fields fi (Worker.Str t) (Worker.Str v) fd))
          = (Worker.JsonVote fi l dl (num_sub l dl), s')
          ∧ l = likes (countsFromKV now s' i) ∧ dl = dislikes (countsFromKV now s' i)
          ∧ counter_reads s' v i (c + 1))
  ∧ (let tr := [(1000, page_vote "x" "t1" "like");
                (2000, number_token_vote "x" "like");
                (3000, page_vote "x" "t2" "dislike")] in
     Worker.status (Worker.fetch 2000 (Worker.run [(1000, page_vote "x" "t1" "like")] ∅)
                      (number_token_vote "x" "like")).1 = 500
     ∧ tally (voted "like" "x") tr ∅ = 1
     ∧ tally (voted "dislike" "x") tr ∅ = 1
     ∧ (getVoteCounts 4000 (Worker.run tr ∅) "x").1
       = CountsResponse MISS
           (JSON_stringify
              (json_of_summary (Summary "x" (Num 2) (Num 1) (Num 1) (Num 3))))).
Proof.
  split; [| split; [| split]].
  - intros tr i now. unfold countsFromKV.
    pose proof (worker_run_counter tr ∅ "like" i 0 is_vote_type_like
                  (counter_reads_empty _ _) now) as ->.
    pose proof (worker_run_counter tr ∅ "dislike" i 0 is_vote_type_dislike
                  (counter_reads_empty _ _) now) as ->.
    by rewrite !Z.add_0_l, !tally_counted.
  - intros now s i. split; [done |]. split.
    + intros s' Hl Hd. unfold countsFromKV.
      by rewrite (get_ext now s s' _ Hl), (get_ext now s s' _ Hd).
    + intros Hi Hmiss. unfold getVoteCounts.
      by rewrite (proj2 (truthy_Some i) Hi), Hmiss.
  - intros now s fi i t v fd c ids Hi Hfi Ht Hv Hex Hrate Hc.
    destruct (worker_handleVote_accepts now s fi t v fd i Hi Hfi Ht Hv Hex Hrate)
      as (l & dl & s' & Hh & Hw & Hl & Hdl).
    exists l, dl, s'. split; [| split; [done | split; [done |]]].
    + unfold Worker.fetch. cbn [Worker.method Worker.pathname Worker.body].
      rewrite bool_decide_eq_false_2 by done.
      rewrite !bool_decide_eq_true_2 by done. cbn [andb]. by rewrite Hh.
    + by eapply vote_written_counter.
  - repeat split; vm_compute; reflexivity.
Qed.

(** ** The scan of the aggregator *)

Lemma startsWith_stripPrefix p k :
  startsWith p k = true ↔ ∃ rest, stripPrefix p k = Some rest ∧ k = p +:+ rest.
Proof.
  revert k. induction p as [|a p IH]; intros k; simpl.
  - split; eauto.
  - destruct k as [|b k]; simpl.
    + split; [done | by intros (? & ? & ?)].
    + destruct (Ascii.eqb_spec a b) as [-> | Hab]; simpl.
      * rewrite IH. split; intros (rest & Hs & Hk); exists rest; split; try done.
        -- by rewrite Hk.
        -- cbv [String.append] in Hk. fold String.append in Hk. by simplify_eq.
      * split; [done | by intros (? & ? & ?)].
Qed.

Lemma remove_first_prefix p rest : remove_first p (p +:+ rest) = rest.
Proof.
  assert (stripPrefix p (p +:+ rest) = Some rest) as Hs.
  { induction p as [|a p IH]; [done |].
    cbv [String.append]. fold String.append. simpl. by rewrite Ascii.eqb_refl. }
  destruct (p +:+ rest); simpl; by rewrite Hs.
Qed.

Lemma elem_of_list_keys now p (s : KV.namespace) k :
  k ∈ KV.list_keys now p s
  ↔ ∃ e, s !! k = Some e ∧ KV.live now e = true ∧ startsWith p k = true.
Proof.
  unfold KV.list_keys. rewrite merge_sort_Permutation, list_elem_of_omap. split.
  - intros ([k' e] & Hin & Hk). apply elem_of_map_to_list in Hin. simpl in Hk.
    destruct (KV.live now e) eqn:Hl, (startsWith p k') eqn:Hp;
      simpl in Hk; simplify_eq. eauto.
  - intros (e & Hs & Hl & Hp). exists (k, e). split.
    + by apply elem_of_map_to_list.
    + simpl. by rewrite Hl, Hp.
Qed.

(** The items of a scan are the ids [i] whose key [like:i] is live. *)
Lemma elem_of_scan now s r :
  r ∈ scan now s
  ↔ r = countsFromKV now s (item_id r)
    ∧ ∃ e, s !! countKey "like" (item_id r) = Some e ∧ KV.live now e = true.
Proof.
  unfold scan. rewrite list_elem_of_fmap. split.
  - intros (k & -> & Hk). apply elem_of_list_keys in Hk as (e & Hs & Hl & Hp).
    apply startsWith_stripPrefix in Hp as (rest & _ & ->).
    rewrite remove_first_prefix. simpl. split; [done |]. eauto.
  - intros (Hr & e & Hs & Hl). exists (countKey "like" (item_id r)). split.
    + change (countKey "like" (item_id r)) with ("like:" +:+ item_id r).
      by rewrite remove_first_prefix.
    + apply elem_of_list_keys. exists e. repeat split; try done.
Qed.

(** ** Rankings *)

Lemma insert_by_perm cmp a l : insert_by cmp a l ≡ₚ a :: l.
Proof.
  induction l as [|b l IH]; simpl; [done |].
  destruct (num_gt _ _); [| done]. rewrite IH. apply Permutation_swap.
Qed.

Lemma sort_perm cmp l : sort cmp l ≡ₚ l.
Proof.
  induction l as [|a l IH]; simpl; [done |].
  unfold sort in *. simpl. by rewrite insert_by_perm, IH.
Qed.

Lemma ranks_before_trans a b c : ranks_before a b → ranks_before b c → ranks_before a c.
Proof.
  intros (x & y & Ha & Hb & Hxy) (y' & z & Hb' & Hc & Hyz).
  exists x, z. repeat split; try done. rewrite Hb in Hb'. simplify_eq. lia.
Qed.

Lemma insert_by_sorted a l :
  has_numeric_score a → Forall has_numeric_score l →
  StronglySorted ranks_before l →
  StronglySorted ranks_before (insert_by by_net_score a l).
Proof.
  intros [x Ha] Hnum Hsorted. induction Hsorted as [|b l Hl IH Hb]; simpl.
  - repeat constructor.
  - apply Forall_cons in Hnum as [[y Hy] Hnum].
    unfold by_net_score at 1. rewrite Ha, Hy. simpl.
    destruct (0 <? y - x) eqn:Hcmp.
    + apply Z.ltb_lt in Hcmp. constructor; [by apply IH |].
      rewrite insert_by_perm. constructor; [| done].
      exists y, x. repeat split; try done. lia.
    + apply Z.ltb_ge in Hcmp.
      assert (ranks_before a b) as Hab by (exists x, y; repeat split; try done; lia).
      constructor; [by constructor |]. constructor; [done |].
      eapply Forall_impl; [exact Hb |]. intros c Hc. by eapply ranks_before_trans.
Qed.

Lemma sort_sorted l :
  Forall has_numeric_score l → StronglySorted ranks_before (sort by_net_score l).
Proof.
  induction l as [|a l IH]; intros Hnum; [constructor |].
  apply Forall_cons in Hnum as [Ha Hnum]. unfold sort in *. simpl.
  apply insert_by_sorted; [done | | by apply IH].
  change (foldr (insert_by by_net_score) [] l) with (sort by_net_score l).
  by rewrite sort_perm.
Qed.

Lemma StronglySorted_lookup {A} (R : A → A → Prop) l j k a b :
  StronglySorted R l → (j < k)%nat → l !! j = Some a → l !! k = Some b → R a b.
Proof.
  intros Hsorted. revert j k. induction Hsorted as [|c l Hl IH Hc]; intros j k Hjk Hj Hk.
  - done.
  - destruct k as [|k]; [lia |]. simpl in Hk. destruct j as [|j]; simpl in Hj.
    + simplify_eq. rewrite Forall_forall in Hc. apply Hc.
      by eapply list_elem_of_lookup_2.
    + eapply (IH j k); [lia | done ..].
Qed.

(** *** The counters stay numeric *)

Section Numeric.

Context `{JsonParser}.

Lemma numeric_counters_empty : numeric_counters ∅.
Proof. intros v i e _ He. by rewrite lookup_empty in He. Qed.

Lemma numeric_counter_parse now s v i :
  numeric_counters s → is_vote_type v →
  ∃ z, parseInt (or_else (KV.get now s (countKey v i)) "0") = Num z.
Proof.
  intros Hnum Hv. unfold KV.get.
  destruct (s !! countKey v i) as [e|] eqn:He; [| by exists 0].
  destruct (KV.live now e); [| by exists 0].
  destruct (Hnum v i e Hv He) as [z ->]. exists z.
  destruct (String_of_Z_truthy z) as (a & b & Hz).
  rewrite or_else_Some by (by rewrite Hz). apply parseInt_String_of_Z.
Qed.

Lemma after_vote_numeric now s i t v d :
  is_vote_type v → numeric_counters s → numeric_counters (after_vote now s i t v d).
Proof.
  intros Hv Hnum v' i' e Hv' He.
  destruct (decide (countKey v' i' = countKey v i)) as [Heq | Hne].
  - rewrite Heq in He. unfold after_vote in He.
    rewrite !lookup_put_ne in He by solve_keys.
    unfold KV.put at 1 in He. rewrite lookup_insert_eq in He.
    rewrite get_put_ne in He by solve_keys.
    destruct (numeric_counter_parse now s v i Hnum Hv) as [z Hz].
    rewrite Hz in He. simplify_eq. by exists (z + 1).
  - rewrite after_vote_lookup_ne in He; [by eapply Hnum | solve_keys ..].
Qed.

Lemma fetch_numeric now s r : numeric_counters s → numeric_counters (fetch now s r).2.
Proof.
  intros Hnum. destruct r as [oi ot ov d| | | |];
    try (intros v i e Hv He; rewrite fetch_read_lookup in He;
         [by eapply Hnum | auto with keys | done]).
  cbn [fetch]. destruct (handleVote_rejected now s oi ot ov d)
    as [(i' & l & dl & n & Hok) | (st & e & ->)]; [| done].
  destruct (handleVote now s oi ot ov d) as [resp s'] eqn:Hh. simpl in *. subst resp.
  apply handleVote_accepted in Hh
    as (t' & v & -> & -> & -> & (_ & _ & Hv & _) & -> & _).
  by apply after_vote_numeric.
Qed.

Lemma run_numeric tr s : numeric_counters s → numeric_counters (run tr s).
Proof.
  revert s. induction tr as [|[now r] tr IH]; intros s Hnum; simpl; [done |].
  by apply IH, fetch_numeric.
Qed.

Lemma scan_numeric now s :
  numeric_counters s → Forall has_numeric_score (scan now s).
Proof.
  intros Hnum. apply Forall_forall. intros r [-> _]%elem_of_scan.
  destruct (numeric_counter_parse now s "like" (item_id r) Hnum is_vote_type_like)
    as [x Hx].
  destruct (numeric_counter_parse now s "dislike" (item_id r) Hnum is_vote_type_dislike)
    as [y Hy].
  exists (x - y). unfold countsFromKV. simpl. by rewrite Hx, Hy.
Qed.

End Numeric.

(** C4.  On a namespace whose counters hold numerals (the empty one, and
    every one reached from such a namespace by serving requests),
    [getRankings] answers with the scanned items sorted by net score,
    largest first: of two positions [j < k] of the answer, the item at [j]
    has a net score at least that of the item at [k].  The answer is a
    rearrangement of the scan, and its entries are the summaries of the
    items whose key [like:id] exists; the order among equal net scores is
    left open here. *)
Theorem rankings_sorted `{JsonParser} s0 tr now items total generated_at s' j k a b :
  numeric_counters s0 →
  getRankings now (run tr s0) = (RankingsResponse items total generated_at, s') →
  (j < k)%nat → items !! j = Some a → items !! k = Some b →
  (∃ x y, net_score a = Num x ∧ net_score b = Num y ∧ y ≤ x)
  ∧ items ≡ₚ scan now (run tr s0)
  ∧ total = length items
  ∧ (∀ r, r ∈ items
          ↔ r = countsFromKV now (run tr s0) (item_id r)
            ∧ ∃ e, run tr s0 !! countKey "like" (item_id r) = Some e
                   ∧ KV.live now e = true).
Proof.
  intros Hnum Hr Hjk Hj Hk. unfold getRankings in Hr. simplify_eq.
  split; [| split; [apply sort_perm | split; [done |]]].
  - eapply (StronglySorted_lookup ranks_before); [| done ..].
    by apply sort_sorted, scan_numeric, run_numeric.
  - intros r. rewrite sort_perm. apply elem_of_scan.
Qed.

Lemma rankings_sorted_witness :
  (∃ x y, net_score (Summary "a" (Num 2) (Num 0) (Num 2) (Num 2)) = Num x
          ∧ net_score (Summary "b" (Num 1) (Num 3) (Num (-2)) (Num 4)) = Num y
          ∧ y ≤ x)
  ∧ ranking_expected ≡ₚ scan 11000 (run ranking_trace ∅)
  ∧ 4%nat = length ranking_expected
  ∧ (∀ r, r ∈ ranking_expected
          ↔ r = countsFromKV 11000 (run ranking_trace ∅) (item_id r)
            ∧ ∃ e, run ranking_trace ∅ !! countKey "like" (item_id r) = Some e
                   ∧ KV.live 11000 e = true).
Proof.
  apply (rankings_sorted ∅ ranking_trace 11000 ranking_expected 4 11000
           (run ranking_trace ∅) 0 3).
  - apply numeric_counters_empty.
  - apply pair_parts; [vm_compute |]; reflexivity.
  - lia.
  - reflexivity.
  - reflexivity.
Defined.

(** ** Items that have dislikes only *)

Section LikePrefix.

Context `{JsonParser}.

(** The key [like:i] appears with the first accepted vote "like" for [i],
    and not before. *)
Lemma fetch_like_absent now s r i :
  accepts "like" i r (fetch now s r).1 = false →
  s !! countKey "like" i = None →
  (fetch now s r).2 !! countKey "like" i = None.
Proof.
  intros Hacc Hs. destruct r as [oi ot ov d| | | |];
    try (rewrite fetch_read_lookup; [done | auto with keys | done]).
  cbn [fetch] in *. destruct (handleVote_rejected now s oi ot ov d)
    as [(i' & l & dl & n & Hok) | (st & e & ->)]; [| done].
  destruct (handleVote now s oi ot ov d) as [resp s'] eqn:Hh. simpl in *. subst resp.
  apply handleVote_accepted in Hh
    as (t' & v & -> & -> & -> & (_ & _ & Hv & _) & -> & _).
  simpl in Hacc. apply bool_decide_eq_false in Hacc.
  rewrite after_vote_lookup_ne; [done | solve_keys | | solve_keys ..].
  intros Hk. apply countKey_inj in Hk as [<- <-]; [| auto with keys ..]. by apply Hacc.
Qed.

Lemma scan_without_like now s i :
  s !! countKey "like" i = None → ∀ r, r ∈ scan now s → item_id r ≠ i.
Proof.
  intros Hs r (_ & e & He & _)%elem_of_scan Hi. rewrite Hi in He. congruence.
Qed.

Lemma list_keys_delete now p (s : KV.namespace) k :
  startsWith p k = false → KV.list_keys now p (delete k s) ≡ₚ KV.list_keys now p s.
Proof.
  intros Hk. destruct (s !! k) as [e|] eqn:He.
  - unfold KV.list_keys. rewrite !merge_sort_Permutation.
    rewrite <- (map_to_list_delete s k e He). simpl.
    by rewrite Hk, andb_false_r.
  - by rewrite delete_id.
Qed.

Lemma countsFromKV_delete now s i j :
  i ≠ j → countsFromKV now (delete (countKey "dislike" i) s) j = countsFromKV now s j.
Proof.
  intros Hij. unfold countsFromKV.
  rewrite !(get_ext now s (delete _ s)); [done | |];
    apply lookup_delete_ne; intros Hk;
    apply countKey_inj in Hk as [? ?]; auto with keys.
Qed.

Lemma scan_delete_dislike now s i :
  s !! countKey "like" i = None →
  scan now (delete (countKey "dislike" i) s) ≡ₚ scan now s.
Proof.
  intros Hs. unfold scan.
  rewrite list_keys_delete by done.
  apply reflexive_eq, list_fmap_ext. intros n k Hk.
  apply list_elem_of_lookup_2, elem_of_list_keys in Hk as (e & He & _ & Hp).
  apply startsWith_stripPrefix in Hp as (rest & _ & ->).
  rewrite remove_first_prefix. apply countsFromKV_delete.
  intros <-. change ("like:" +:+ i) with (countKey "like" i) in He. congruence.
Qed.

Lemma num_add_swap a b c : num_add (num_add a b) c = num_add (num_add a c) b.
Proof. destruct a, b, c; simpl; try done. f_equal. lia. Qed.

(** [getStats] does not depend on the order of the scan. *)
Lemma stats_fold_perm (l l' : list summary) (acc : number * number * nat) :
  l ≡ₚ l' →
  foldl (fun '(totalLikes, totalDislikes, totalItems) r =>
           (num_add totalLikes (likes r), num_add totalDislikes (dislikes r),
            S totalItems)) acc l
  = foldl (fun '(totalLikes, totalDislikes, totalItems) r =>
           (num_add totalLikes (likes r), num_add totalDislikes (dislikes r),
            S totalItems)) acc l'.
Proof.
  intros Hp. revert acc. induction Hp as [|x l l' _ IH|x y l|l l' l'' _ IH1 _ IH2];
    intros [[a b] c]; simpl.
  - done.
  - apply IH.
  - by rewrite (num_add_swap a), (num_add_swap b).
  - by rewrite IH1.
Qed.

Lemma getStats_perm now s s' :
  scan now s' ≡ₚ scan now s → (getStats now s').1 = (getStats now s).1.
Proof.
  intros Hp. unfold getStats. rewrite (stats_fold_perm _ _ _ Hp).
  by destruct (foldl _ _ _) as [[? ?] ?].
Qed.

(** The number of items that [getStats] reports is the length of the scan. *)
Lemma stats_fold_length (l : list summary) (acc : number * number * nat) :
  (foldl (fun '(totalLikes, totalDislikes, totalItems) r =>
            (num_add totalLikes (likes r), num_add totalDislikes (dislikes r),
             S totalItems)) acc l).2
  = (acc.2 + length l)%nat.
Proof.
  revert acc. induction l as [|r l IH]; intros [[a b] c]; simpl; [lia |].
  rewrite IH. simpl. lia.
Qed.

End LikePrefix.

Section WorkerLikePrefix.

Context `{JsonParser}.

(** The key [like:i] appears with the first vote "like" that is recorded
    for [i], and not before. *)
Lemma worker_fetch_like_absent now s req i :
  counted "like" i now req (Worker.fetch now s req).1 = false →
  s !! countKey "like" i = None →
  (Worker.fetch now s req).2 !! countKey "like" i = None.
Proof.
  unfold counted. intros Hno Hs.
  pose proof (worker_fetch_step now s req) as Hstep.
  destruct (recorded req (Worker.fetch now s req).1) as [[[i' t'] v']|].
  - destruct Hstep as (Hv' & _ & _ & Hw). apply bool_decide_eq_false in Hno.
    rewrite (vote_written_lookup_ne _ _ _ _ _ _ _ Hw); [done | solve_keys | | solve_keys ..].
    intros Hk. apply countKey_inj in Hk as [<- <-]; [| auto with keys ..]. by apply Hno.
  - destruct Hstep as [-> | (r & Hr & ->)]; [done |].
    apply fetch_like_absent; [by apply accepts_read | done].
Qed.

Lemma worker_run_like_absent tr s i :
  tally (counted "like" i) tr s = 0 →
  s !! countKey "like" i = None →
  Worker.run tr s !! countKey "like" i = None.
Proof.
  revert s. induction tr as [|[now req] tr IH]; intros s Hno Hs; simpl in *; [done |].
  pose proof (tally_nonneg (counted "like" i) tr (Worker.fetch now s req).2).
  destruct (counted "like" i now req (Worker.fetch now s req).1) eqn:Hc; [lia |].
  apply IH; [lia |]. by apply worker_fetch_like_absent.
Qed.

End WorkerLikePrefix.

(** C9, on the code.  Both scans list the keys with prefix [like:], so
    that an item is left out exactly as long as no like was recorded for
    it; and a like is recorded without being accepted when its token is
    not a string.  If, along a trace from the empty namespace, no vote
    "like" for item [i] is answered 200 and none is answered 500 after the
    counter was written, then [getRankings] has no entry for [i], and
    [getStats] answers as it would if the dislike counter of [i] did not
    exist: the dislikes of [i] are in no total, and [i] is not among the
    items counted.  The last part is a run in which the only accepted vote
    for item [z] is a dislike, a like whose token is the number 12345
    having been answered 500 before: [z] is ranked and counted. *)
Theorem liked_items_are_listed `{JsonParser} :
  (∀ tr i now,
      tally (voted "like" i) tr ∅ = 0 → tally (crashed "like" i) tr ∅ = 0 →
      (∀ items total generated_at s',
          getRankings now (Worker.run tr ∅)
          = (RankingsResponse items total generated_at, s') →
          ∀ r, r ∈ items → item_id r ≠ i)
      ∧ (getStats now (delete (countKey "dislike" i) (Worker.run tr ∅))).1
        = (getStats now (Worker.run tr ∅)).1
      ∧ (∀ l d t n p generated_at s',
            getStats now (Worker.run tr ∅)
            = (StatsResponse l d t n p generated_at, s') →
            n = length (scan now (Worker.run tr ∅))
            ∧ i ∉ item_id <$> scan now (Worker.run tr ∅))
      ∧ counter_reads (Worker.run tr ∅) "dislike" i (tally (counted "dislike" i) tr ∅))
  ∧ (let tr := [(1000, number_token_vote "z" "like");
                (2000, page_vote "z" "t1" "dislike")] in
     Worker.status (Worker.fetch 1000 ∅ (number_token_vote "z" "like")).1 = 500
     ∧ tally (voted "like" "z") tr ∅ = 0
     ∧ tally (voted "dislike" "z") tr ∅ = 1
     ∧ (getRankings 3000 (Worker.run tr ∅)).1
       = RankingsResponse [Summary "z" (Num 1) (Num 1) (Num 0) (Num 2)] 1 3000
     ∧ (getStats 3000 (Worker.run tr ∅)).1
       = StatsResponse (Num 1) (Num 1) (Num 2) 1 (Num 50) 3000).
Proof.
  split; [| repeat split; vm_compute; reflexivity].
  intros tr i now Hvoted Hcrashed.
  assert (Worker.run tr ∅ !! countKey "like" i = None) as Hs.
  { apply worker_run_like_absent; [| apply lookup_empty].
    rewrite tally_counted. lia. }
  split; [| split; [| split]].
  - intros items total g s' Hr r Hin. unfold getRankings in Hr. simplify_eq.
    rewrite sort_perm in Hin. by eapply scan_without_like.
  - by apply getStats_perm, scan_delete_dislike.
  - intros l d t n p g s' Hst. split.
    + unfold getStats in Hst.
      pose proof (stats_fold_length (scan now (Worker.run tr ∅)) (Num 0, Num 0, 0%nat))
        as Hlen.
      destruct (foldl _ _ _) as [[? ?] ?]. simpl in Hlen. by simplify_eq.
    + intros (r & Hi & Hin)%list_elem_of_fmap. by eapply scan_without_like.
  - pose proof (worker_run_counter tr ∅ "dislike" i 0 is_vote_type_dislike
                  (counter_reads_empty _ _)) as Hc.
    by rewrite Z.add_0_l in Hc.
Qed.

(** Item [z] has two dislikes in the store and is in neither answer. *)
Example dislike_only_example :
  countsFromKV 4000 (run dislike_trace ∅) "z"
  = Summary "z" (Num 0) (Num 2) (Num (-2)) (Num 2)
  ∧ (getRankings 4000 (run dislike_trace ∅)).1
    = RankingsResponse [Summary "x" (Num 1) (Num 0) (Num 1) (Num 1)] 1 4000
  ∧ (getStats 4000 (run dislike_trace ∅)).1
    = StatsResponse (Num 1) (Num 0) (Num 1) 1 (Num 100) 4000.
Proof. repeat split; vm_compute; reflexivity. Qed.

(** ** Batch reads *)

Section Batch.

Context `{JsonParser}.

Lemma resolve_trim now s a b : trim a = trim b → resolve now s a = resolve now s b.
Proof. unfold resolve. by intros ->. Qed.

Lemma js_set_lookup key v (o : gmap string json) k :
  js_set key v o !! k
  = if decide (key ≠ "__proto__"%string ∧ key = k) then Some v else o !! k.
Proof.
  unfold js_set. destruct (decide (key = "__proto__"%string)) as [-> | Hp].
  - by rewrite decide_False by (by intros [? _]).
  - destruct (decide (key = k)) as [-> | Hk].
    + by rewrite lookup_insert_eq, decide_True.
    + by rewrite lookup_insert_ne, decide_False by (by intros [_ ?] || done).
Qed.

(** The callbacks of one batch write the same value under the same key, so
    the object [results] is determined key by key. *)
Lemma batch_results_lookup now s itemIds k e :
  batch_results now s itemIds !! k = Some e
  ↔ k ≠ "__proto__"%string
    ∧ ∃ itemId, itemId ∈ itemIds ∧ trim itemId = k
                ∧ entry_of (resolve now s itemId) = Some e.
Proof.
  unfold batch_results.
  induction itemIds as [|itemId itemIds IH] using rev_ind.
  - simpl. rewrite lookup_empty. split; [done |].
    intros (_ & ? & Hin & _). by apply elem_of_nil in Hin.
  - rewrite foldl_app. simpl.
    assert (∀ v, entry_of (resolve now s itemId) = Some v →
              js_set (trim itemId) v
                (foldl (λ results itemId0,
                          match resolve now s itemId0 with
                          | FromCache v0 => js_set (trim itemId0) v0 results
                          | FromKV r => js_set (trim itemId0) (json_of_summary r) results
                          | Thrown => results
                          end) ∅ itemIds) !! k = Some e
              ↔ k ≠ "__proto__"%string
                ∧ ∃ itemId0, itemId0 ∈ itemIds ++ [itemId] ∧ trim itemId0 = k
                             ∧ entry_of (resolve now s itemId0) = Some e) as Hset.
    { intros v Hv. rewrite js_set_lookup. case_decide as Hd.
      - destruct Hd as [Hp <-]. split.
        + intros [= <-]. split; [done |]. exists itemId.
          split; [apply elem_of_app; right; by apply list_elem_of_singleton | done].
        + intros (_ & id & _ & Hid & He).
          rewrite (resolve_trim _ _ _ _ Hid) in He. congruence.
      - rewrite IH. split.
        + intros (Hp & id & Hin & Hk & He). split; [done |]. exists id.
          split; [apply elem_of_app; by left | done].
        + intros (Hp & id & Hin & Hk & He). split; [done |].
          apply elem_of_app in Hin as [Hin | ->%list_elem_of_singleton].
          * eauto.
          * destruct Hd. by subst. }
    destruct (resolve now s itemId) as [v|r|] eqn:Hres.
    + by apply Hset.
    + by apply Hset.
    + rewrite IH. split; intros (Hp & id & Hin & Hk & He); (split; [done |]).
      * exists id. split; [apply elem_of_app; by left | done].
      * apply elem_of_app in Hin as [Hin | ->%list_elem_of_singleton]; [eauto |].
        by rewrite Hres in He.
Qed.

Lemma getBatchVoteCounts_200 now s ids results count hits misses s' :
  getBatchVoteCounts now s ids
  = (Some (BatchResponse results count hits misses), s') →
  ∃ raw, ids = Some raw
         ∧ results = batch_results now s (itemIds_of raw)
         ∧ count = length (itemIds_of raw)
         ∧ Forall (fun id => is_thrown (resolve now s id) = false) (itemIds_of raw).
Proof.
  unfold getBatchVoteCounts. destruct ids as [[|c raw]|]; try done.
  cbn [truthy negb or_else]. generalize (String c raw). clear c raw. intros raw.
  repeat case_bool_decide; try done.
  destruct (existsb _ _) eqn:Hex; [done |]. intros [= <- <- <- <- <-].
  exists raw. repeat split; try done.
  apply Forall_forall. intros id Hid.
  destruct (is_thrown (resolve now s id)) eqn:Hth; [| done].
  assert (existsb is_thrown (resolve now s <$> itemIds_of raw) = true); [| congruence].
  apply existsb_exists. exists (resolve now s id). split; [| done].
  by apply list_elem_of_In, list_elem_of_fmap_2.
Qed.

Lemma itemIds_of_nonblank raw id : id ∈ itemIds_of raw → trim id ≠ ""%string.
Proof.
  unfold itemIds_of. rewrite list_elem_of_filter. intros [Hlen _] Heq.
  rewrite Heq in Hlen. simpl in Hlen. lia.
Qed.

Lemma resolve_valid now s id e :
  trim id ≠ ""%string →
  entry_of (resolve now s id) = Some e → valid_entry now s (trim id) e.
Proof.
  intros Hid. unfold resolve, valid_entry, getVoteCounts.
  rewrite (proj2 (truthy_Some _) Hid). simpl.
  destruct (truthy (KV.get now s (cacheKey (trim id)))); simpl.
  - destruct (JSON_parse _); simpl; [by intros [= ->] | done].
  - by intros [= <-].
Qed.

Lemma size_list_to_set_le (l : list string) :
  (size (list_to_set l : gset string) ≤ length l)%nat.
Proof.
  induction l as [|x l IH]; simpl; [done |].
  rewrite size_union_alt, size_singleton.
  assert (size (list_to_set l ∖ {[x]} : gset string) ≤ size (list_to_set l : gset string))%nat
    by (apply subseteq_size, subseteq_difference_l; done).
  lia.
Qed.

Lemma batch_results_dom now s itemIds :
  dom (batch_results now s itemIds) ⊆ list_to_set (trim <$> itemIds).
Proof.
  intros k [e He]%elem_of_dom.
  apply batch_results_lookup in He as (_ & id & Hin & <- & _).
  apply elem_of_list_to_set. by apply list_elem_of_fmap_2.
Qed.

Lemma batch_results_size now s itemIds :
  (size (batch_results now s itemIds) ≤ length itemIds)%nat.
Proof.
  rewrite <- size_dom.
  etrans; [apply subseteq_size, batch_results_dom |].
  etrans; [apply size_list_to_set_le |]. by rewrite length_fmap.
Qed.

Lemma batch_results_size_distinct now s itemIds :
  Forall (fun id => is_thrown (resolve now s id) = false) itemIds →
  NoDup (trim <$> itemIds) → "__proto__"%string ∉ trim <$> itemIds →
  size (batch_results now s itemIds) = length itemIds.
Proof.
  intros Hok Hnd Hp. rewrite <- size_dom.
  assert (dom (batch_results now s itemIds)
          = (list_to_set (trim <$> itemIds) : gset string)) as ->.
  { apply set_eq. intros k. rewrite elem_of_dom, elem_of_list_to_set. split.
    - intros [e He]. apply batch_results_lookup in He as (_ & id & Hin & <- & _).
      by apply list_elem_of_fmap_2.
    - intros (id & -> & Hin)%list_elem_of_fmap.
      rewrite Forall_forall in Hok. specialize (Hok id Hin).
      destruct (entry_of (resolve now s id)) as [e|] eqn:He.
      + exists e. apply batch_results_lookup. split; [| by eauto].
        intros Heq. apply Hp. rewrite <- Heq. by apply list_elem_of_fmap_2.
      + by destruct (resolve now s id). }
  by rewrite size_list_to_set, length_fmap.
Qed.

(** A batch of 1 to 200 ids in which no cached text fails to parse is
    answered 200. *)
Lemma getBatchVoteCounts_answers now s raw :
  (0 < length (itemIds_of raw) ≤ 200)%nat →
  Forall (fun id => is_thrown (resolve now s id) = false) (itemIds_of raw) →
  ∃ hits misses,
    getBatchVoteCounts now s (Some raw)
    = (Some (BatchResponse (batch_results now s (itemIds_of raw))
               (length (itemIds_of raw)) hits misses),
       batch_store now s (itemIds_of raw)).
Proof.
  intros Hlen Hok. unfold getBatchVoteCounts.
  destruct raw as [|c raw]; [simpl in Hlen; lia |].
  cbn [truthy negb or_else].
  rewrite bool_decide_eq_false_2, bool_decide_eq_false_2 by lia.
  assert (existsb is_thrown (resolve now s <$> itemIds_of (String c raw)) = false) as ->;
    [| by eexists _, _].
  apply not_true_is_false. intros (r & Hin & Hr)%existsb_exists.
  apply list_elem_of_In, list_elem_of_fmap in Hin as (id & -> & Hin).
  rewrite Forall_forall in Hok. specialize (Hok id Hin). congruence.
Qed.

End Batch.

(** C5, as the code has it.  In a batch read that is answered 200, the
    reported count is the number of non-blank comma-separated ids of the
    request; the object [results] has, for every requested id, an entry
    under the id with its surrounding white space removed (the reserved
    property name [__proto__] apart), every entry belongs to a requested id,
    and every entry is what the single-item read answers for that id at the
    same instant.  The entries are at most as many as the count, and as many
    when the trimmed ids are pairwise distinct. *)
Theorem batch_entries_valid `{JsonParser} now s ids results count hits misses s' :
  getBatchVoteCounts now s ids
  = (Some (BatchResponse results count hits misses), s') →
  ∃ raw, ids = Some raw
    ∧ count = length (itemIds_of raw)
    ∧ (∀ id, id ∈ itemIds_of raw → trim id ≠ "__proto__"%string →
             ∃ e, results !! trim id = Some e ∧ valid_entry now s (trim id) e)
    ∧ (∀ k e, results !! k = Some e →
              (∃ id, id ∈ itemIds_of raw ∧ trim id = k) ∧ valid_entry now s k e)
    ∧ (size results ≤ count)%nat
    ∧ (NoDup (trim <$> itemIds_of raw) →
       "__proto__"%string ∉ trim <$> itemIds_of raw → size results = count).
Proof.
  intros (raw & -> & -> & -> & Hok)%getBatchVoteCounts_200.
  exists raw. split; [done |]. split; [done |].
  split; [| split; [| split]].
  - intros id Hin Hp. rewrite Forall_forall in Hok. specialize (Hok id Hin).
    destruct (entry_of (resolve now s id)) as [e|] eqn:He;
      [| by destruct (resolve now s id)].
    exists e. split.
    + apply batch_results_lookup. eauto.
    + apply resolve_valid; [by eapply itemIds_of_nonblank | done].
  - intros k e (_ & id & Hin & <- & He)%batch_results_lookup. split; [eauto |].
    apply resolve_valid; [by eapply itemIds_of_nonblank | done].
  - apply batch_results_size.
  - intros Hnd Hp. by apply batch_results_size_distinct.
Qed.

Lemma batch_entries_valid_witness :
  ∃ raw, Some " x ,z"%string = Some raw
    ∧ 2%nat = length (itemIds_of raw)
    ∧ (∀ id, id ∈ itemIds_of raw → trim id ≠ "__proto__"%string →
             ∃ e, batch_results 5000 disliked_then_read [" x "; "z"]%string !! trim id
                  = Some e
                  ∧ valid_entry 5000 disliked_then_read (trim id) e)
    ∧ (∀ k e, batch_results 5000 disliked_then_read [" x "; "z"]%string !! k = Some e →
              (∃ id, id ∈ itemIds_of raw ∧ trim id = k)
              ∧ valid_entry 5000 disliked_then_read k e)
    ∧ (size (batch_results 5000 disliked_then_read [" x "; "z"]%string) ≤ 2)%nat
    ∧ (NoDup (trim <$> itemIds_of raw) →
       "__proto__"%string ∉ trim <$> itemIds_of raw →
       size (batch_results 5000 disliked_then_read [" x "; "z"]%string) = 2%nat).
Proof.
  apply (batch_entries_valid 5000 disliked_then_read (Some " x ,z"%string) _ 2 1 1
           (batch_store 5000 disliked_then_read [" x "; "z"]%string)).
  apply pair_parts; [| reflexivity].
  change (getBatchVoteCounts 5000 disliked_then_read (Some " x ,z"%string)).1
    with (Some (BatchResponse
                  (batch_results 5000 disliked_then_read (itemIds_of " x ,z"))
                  (length (itemIds_of " x ,z")) 1 1)).
  reflexivity.
Defined.

(** The two entries of that answer: item [x] from its cached text, item
    [z] from its counters. *)
Example batch_entries_example :
  batch_results 5000 disliked_then_read [" x "; "z"]%string
  = {[ "x"%string := json_of_summary (Summary "x" (Num 1) (Num 0) (Num 1) (Num 1));
       "z"%string := json_of_summary (Summary "z" (Num 0) (Num 2) (Num (-2)) (Num 2)) ]}.
Proof. vm_compute. reflexivity. Qed.

(** The same id twice: two ids are counted and one entry is returned. *)
Lemma batch_not_one_to_one : ¬ @batch_one_to_one runtime_parser.
Proof.
  intros Hone.
  assert (getBatchVoteCounts 0 ∅ (Some "a,a"%string)
          = (Some (BatchResponse (batch_results 0 ∅ ["a"; "a"]%string) 2 0 2),
             batch_store 0 ∅ ["a"; "a"]%string)) as Hbatch
    by reflexivity.
  apply Hone in Hbatch as [_ Hsize].
  vm_compute in Hsize. discriminate.
Qed.

(** C10.  In a batch read that is answered 200, every key of [results] is
    a requested id with its surrounding white space removed, and the
    reported count is the number of non-blank comma-separated ids of the raw
    request.  The two can differ: with the same id twice, or with two ids
    that differ by surrounding white space only, [results] has fewer entries
    than the count says. *)
Theorem batch_keys_trimmed_count_raw `{JsonParser} :
  (∀ now s ids results count hits misses s',
      getBatchVoteCounts now s ids
      = (Some (BatchResponse results count hits misses), s') →
      ∃ raw, ids = Some raw
        ∧ (∀ k, is_Some (results !! k) → ∃ id, id ∈ itemIds_of raw ∧ k = trim id)
        ∧ count = length (itemIds_of raw))
  ∧ (∃ results hits misses s',
        getBatchVoteCounts 0 ∅ (Some "a,a"%string)
        = (Some (BatchResponse results 2 hits misses), s')
        ∧ size results = 1%nat)
  ∧ (∃ results hits misses s',
        getBatchVoteCounts 0 ∅ (Some "a, a ,b"%string)
        = (Some (BatchResponse results 3 hits misses), s')
        ∧ size results = 2%nat).
Proof.
  split; [| split].
  - intros now s ids results count hits misses s'
      (raw & -> & -> & -> & Hok)%getBatchVoteCounts_200.
    exists raw. repeat split; try done.
    intros k [e He]. apply batch_results_lookup in He as (_ & id & Hin & <- & _). eauto.
  - eexists _, _, _, _. split; [reflexivity |]. vm_compute. reflexivity.
  - eexists _, _, _, _. split; [reflexivity |]. vm_compute. reflexivity.
Qed.

(** ** Statistics *)

Lemma stats_fold_totals (l : list summary) (a b : number) (c : nat) :
  foldl (fun '(totalLikes, totalDislikes, totalItems) r =>
           (num_add totalLikes (likes r), num_add totalDislikes (dislikes r),
            S totalItems)) (a, b, c) l
  = (foldl (fun acc r => num_add acc (likes r)) a l,
     foldl (fun acc r => num_add acc (dislikes r)) b l,
     (c + length l)%nat).
Proof.
  revert a b c. induction l as [|r l IH]; intros a b c; simpl.
  - by rewrite Nat.add_0_r.
  - by rewrite IH, Nat.add_succ_r.
Qed.

(** C6.  [getStats] answers with the sums of the likes and of the dislikes
    of the scanned items, with their sum as [total_votes], and with
    [like_percentage = round(total_likes / total_votes * 100)] when
    [total_votes > 0] and 0 otherwise, the quotient, the product and the
    rounding being those of the runtime (binary64, a tie rounded up).
    Three likes and one dislike give 75, by the formula and by the worker
    run on four such votes. *)
Theorem stats_totals_and_percentage now s :
  getStats now s
  = (StatsResponse (total likes (scan now s)) (total dislikes (scan now s))
       (num_add (total likes (scan now s)) (total dislikes (scan now s)))
       (length (scan now s))
       (like_percentage_spec (total likes (scan now s))
          (num_add (total likes (scan now s)) (total dislikes (scan now s))))
       now, s)
  ∧ like_percentage_spec (Num 3) (num_add (Num 3) (Num 1)) = Num 75
  ∧ (getStats 5000 (run stats_trace ∅)).1
    = StatsResponse (Num 3) (Num 1) (Num 4) 1 (Num 75) 5000.
Proof.
  split; [| split].
  - unfold getStats. by rewrite stats_fold_totals.
  - vm_compute. reflexivity.
  - vm_compute. reflexivity.
Qed.

(** For totals up to 120 votes the percentage is an integer nearest to
    the exact quotient [100 * likes / votes]: the rounding of the two
    binary64 operations never moves the result past one. *)
Lemma like_percentage_nearest :
  forallb (fun t =>
    forallb (fun l =>
      match like_percentage_spec (Num l) (Num t) with
      | Num p => (200 * l - t <=? 2 * t * p) && (2 * t * p <=? 200 * l + t)
      | NaN => false
      end) (seqZ 0 (t + 1))) (seqZ 1 120) = true.
Proof. vm_compute. reflexivity. Qed.

(** At a tie of the exact quotient the binary64 product can fall short
    of the half: 29 likes of 200 votes are 14.5 percent, the product is
    14.499999999999998 and the answer is 14. *)
Lemma like_percentage_tie :
  like_percentage_spec (Num 29) (Num 200) = Num 14
  ∧ like_percentage_spec (Num 1) (Num 8) = Num 13.
Proof. split; vm_compute; reflexivity. Qed.

(** ** The cache and the votes *)

(** A summary cached before a vote is still served after it. *)
Lemma vote_leaves_cache_stale : ¬ vote_refreshes_cache.
Proof.
  intros Hfresh.
  assert (handleVote 1000 cached_then_voted (Some "x") (Some "tok") (Some "like") None
          = (VoteResponse "x" (Num 1) (Num 0) (Num 1),
             after_vote 1000 cached_then_voted "x" "tok" "like" None)) as Hvote
    by (apply pair_parts; [vm_compute |]; reflexivity).
  apply Hfresh in Hvote. vm_compute in Hvote. discriminate.
Qed.

(** C8, as the code has it.  An accepted vote answers with the totals read
    from the counter store after the increment (the counter of the vote is
    one more than before), and writes no cache key: the cache entry of every
    item is what it was, so a read of the voted item that finds an entry
    cached before the vote still answers with that text, until the 60
    seconds of the entry are over. *)
Theorem vote_leaves_cache `{JsonParser} now s oi ot ov d j l dl n s' :
  handleVote now s oi ot ov d = (VoteResponse j l dl n, s') →
  (∀ itemId, s' !! cacheKey itemId = s !! cacheKey itemId)
  ∧ (∀ now' body,
        KV.get now' s (cacheKey j) = Some body → body ≠ ""%string →
        getVoteCounts now' s' j = (CountsResponse HIT body, s'))
  ∧ l = likes (countsFromKV now s' j)
  ∧ dl = dislikes (countsFromKV now s' j)
  ∧ n = num_sub l dl
  ∧ ∃ v, ov = Some v ∧ ∀ c, counter_reads s v j c → counter_reads s' v j (c + 1).
Proof.
  intros Hh.
  apply handleVote_accepted in Hh
    as (t & v & -> & -> & -> & (Hj & _ & Hv & _) & -> & -> & -> & ->).
  assert (∀ itemId, after_vote now s j t v d !! cacheKey itemId = s !! cacheKey itemId)
    as Hcache by (intros itemId; apply after_vote_lookup_ne; solve_keys).
  split; [done |]. split; [| split; [done | split; [done | split; [done |]]]].
  - intros now' body Hget Hbody. unfold getVoteCounts.
    rewrite (proj2 (truthy_Some j) Hj). cbn [negb].
    rewrite (get_ext _ _ _ _ (Hcache j)), Hget.
    rewrite (proj2 (truthy_Some body) Hbody). by rewrite or_else_Some.
  - exists v. split; [done |]. intros c Hc. by apply after_vote_counter.
Qed.

Lemma vote_leaves_cache_witness :
  getVoteCounts 2000 (after_vote 1000 cached_then_voted "x" "tok" "like" None) "x"
  = (CountsResponse HIT
       (JSON_stringify (json_of_summary (Summary "x" (Num 0) (Num 0) (Num 0) (Num 0)))),
     after_vote 1000 cached_then_voted "x" "tok" "like" None).
Proof.
  eapply (vote_leaves_cache 1000 cached_then_voted (Some "x") (Some "tok")
            (Some "like") None "x" (Num 1) (Num 0) (Num 1)).
  - apply pair_parts; [vm_compute |]; reflexivity.
  - vm_compute. reflexivity.
  - vm_compute. discriminate.
Defined.

(** ** Dates: one string for each day *)

Section Dates.

Lemma all_from_spec f n from z :
  all_from f n from = true → from ≤ z < from + Z.of_nat n → f z = true.
Proof.
  revert from. induction n as [|n IH]; intros from Hall Hz; [lia |].
  simpl in Hall. apply andb_prop in Hall as [Hf Hall].
  destruct (decide (z = from)) as [-> | Hne]; [done |].
  apply (IH (from + 1)); [done | lia].
Qed.

(** The year of the era is below 400, the month of the year that starts in
    March is below 12 and the day of the month is at most 31. *)
Lemma civil_of_doe_ranges doe :
  0 ≤ doe < 146097 →
  ∃ yoe mp d,
    civil_of_doe doe = (yoe, if mp <? 10 then mp + 3 else mp - 9, d)
    ∧ 0 ≤ yoe ≤ 399 ∧ 0 ≤ mp ≤ 11 ∧ 1 ≤ d ≤ 31
    ∧ yoe * 365 + yoe / 4 - yoe / 100 + ((153 * mp + 2) / 5 + d - 1) = doe.
Proof.
  intros Hdoe.
  set (yoe := (doe - doe / 1460 + doe / 36524 - doe / 146096) / 365).
  set (doy := doe - (365 * yoe + yoe / 4 - yoe / 100)).
  set (mp := (5 * doy + 2) / 153).
  set (d := doy - (153 * mp + 2) / 5 + 1).
  exists yoe, mp, d. split; [reflexivity |].
  assert (0 ≤ yoe ≤ 399) as Hyoe
    by (subst yoe; Z.to_euclidean_division_equations; lia).
  assert (0 ≤ doy ≤ 365) as Hdoy
    by (subst doy yoe; Z.to_euclidean_division_equations; lia).
  assert (0 ≤ mp ≤ 11) as Hmp
    by (subst mp; clearbody doy; Z.to_euclidean_division_equations; lia).
  assert (1 ≤ d ≤ 31) as Hd
    by (subst d mp; clearbody doy; Z.to_euclidean_division_equations; lia).
  repeat split; lia.
Qed.

Lemma civil_from_days_unfold z :
  civil_from_days z
  = let era := (z + 719468) / 146097 in
    let '(yoe, m, d) := civil_of_doe (z + 719468 - era * 146097) in
    (if m <=? 2 then yoe + era * 400 + 1 else yoe + era * 400, m, d).
Proof. reflexivity. Qed.

Lemma civil_from_days_inv z :
  ∃ y m d, civil_from_days z = (y, m, d)
           ∧ days_from_civil y m d = z ∧ 1 ≤ m ≤ 12 ∧ 1 ≤ d ≤ 31.
Proof.
  set (era := (z + 719468) / 146097).
  set (doe := (z + 719468) - era * 146097).
  assert (0 ≤ doe < 146097) as Hdoe
    by (subst doe era; Z.to_euclidean_division_equations; lia).
  destruct (civil_of_doe_ranges doe Hdoe)
    as (yoe & mp & d & Hc & Hyoe & Hmp & Hd & Hinv).
  set (m := if mp <? 10 then mp + 3 else mp - 9) in *.
  exists (if m <=? 2 then yoe + era * 400 + 1 else yoe + era * 400), m, d.
  assert (1 ≤ m ≤ 12 ∧ (if 2 <? m then m - 3 else m + 9) = mp) as [Hm Hmp'].
  { subst m. destruct (mp <? 10) eqn:Hlt.
    - apply Z.ltb_lt in Hlt. rewrite (proj2 (Z.ltb_lt 2 (mp + 3))) by lia. lia.
    - apply Z.ltb_ge in Hlt. rewrite (proj2 (Z.ltb_ge 2 (mp - 9))) by lia. lia. }
  split; [| split; [| done]].
  - rewrite civil_from_days_unfold. cbv zeta. fold era. fold doe. by rewrite Hc.
  - unfold days_from_civil.
    replace (if m <=? 2
             then (if m <=? 2 then yoe + era * 400 + 1 else yoe + era * 400) - 1
             else if m <=? 2 then yoe + era * 400 + 1 else yoe + era * 400)
      with (yoe + era * 400) by (destruct (m <=? 2); lia).
    rewrite Z.div_add, (Z.div_small yoe 400) by lia.
    replace (yoe + era * 400 - (0 + era) * 400) with yoe by lia.
    cbv zeta. rewrite Hmp', Hinv. subst doe. lia.
Qed.

(** *** Strings of digits *)

Lemma colon_free_app a b : colon_free (a +:+ b) = colon_free a && colon_free b.
Proof.
  induction a as [|c a IH]; [done |].
  cbv [String.append]. fold String.append. simpl. rewrite IH. by rewrite andb_assoc.
Qed.

Lemma colon_free_uint d : colon_free (NilEmpty.string_of_uint d) = true.
Proof. induction d; simpl; done. Qed.

Lemma colon_free_decimal n : colon_free (decimal n) = true.
Proof. rewrite decimal_unfold. apply colon_free_uint. Qed.

Lemma colon_free_zeros k :
  colon_free (String.concat "" (repeat "0"%string k)) = true.
Proof.
  induction k as [|k IH]; [done |]. simpl.
  destruct (repeat "0"%string k) as [|s l]; [done |].
  change (colon_free ("0" +:+ "" +:+ String.concat "" (s :: l)) = true).
  by rewrite !colon_free_app, IH.
Qed.

Lemma colon_free_pad_start w n : colon_free (pad_start w n) = true.
Proof.
  unfold pad_start. by rewrite colon_free_app, colon_free_zeros, colon_free_decimal.
Qed.

Lemma colon_free_iso_date D : colon_free (iso_date D) = true.
Proof.
  unfold iso_date. destruct (civil_from_days D) as [[y m] d].
  rewrite !colon_free_app, !colon_free_pad_start. simpl.
  unfold iso_year. repeat case_match; rewrite ?colon_free_app, colon_free_pad_start; done.
Qed.

(** A key [prefix:token:date] splits in one way when the date has no colon. *)
Lemma colon_split t t' d d' :
  colon_free d = true → colon_free d' = true →
  t +:+ ":" +:+ d = t' +:+ ":" +:+ d' → t = t' ∧ d = d'.
Proof.
  intros Hd Hd'. revert t'. induction t as [|c t IH]; intros [|c' t'] Heq;
    cbv [String.append] in Heq; fold String.append in Heq.
  - by simplify_eq.
  - simplify_eq. rewrite colon_free_app in Hd. simpl in Hd.
    by rewrite andb_false_r in Hd.
  - simplify_eq. rewrite colon_free_app in Hd'. simpl in Hd'.
    by rewrite andb_false_r in Hd'.
  - simplify_eq. destruct (IH t') as [-> ->]; done.
Qed.

(** *** Padded numbers *)

Lemma length_app a b : String.length (a +:+ b) = (String.length a + String.length b)%nat.
Proof.
  induction a as [|c a IH]; [done |].
  cbv [String.append]. fold String.append. simpl. by rewrite IH.
Qed.

Lemma append_inj_length a a' T T' :
  String.length T = String.length T' → a +:+ T = a' +:+ T' → a = a' ∧ T = T'.
Proof.
  intros Hlen. revert a'. induction a as [|c a IH]; intros [|c' a'] Heq.
  - done.
  - apply (f_equal String.length) in Heq. rewrite !length_app in Heq.
    simpl in Heq. lia.
  - apply (f_equal String.length) in Heq. rewrite !length_app in Heq.
    simpl in Heq. lia.
  - cbv [String.append] in Heq. fold String.append in Heq. simplify_eq.
    destruct (IH a') as [-> ->]; done.
Qed.

Lemma zeros_S k :
  String.concat "" (repeat "0"%string (S k))
  = String "0" (String.concat "" (repeat "0"%string k)).
Proof. by destruct k. Qed.

Lemma parse_digits_zeros k s :
  parse_digits 10 (String.concat "" (repeat "0"%string k) +:+ s) (Some 0)
  = parse_digits 10 s (Some 0).
Proof.
  induction k as [|k IH]; [done |]. rewrite zeros_S.
  cbv [String.append]. fold String.append. simpl. apply IH.
Qed.

Lemma pad_start_value w n :
  0 ≤ n → parse_digits 10 (pad_start w n) (Some 0) = Some n.
Proof.
  intros Hn. unfold pad_start.
  rewrite parse_digits_zeros, decimal_unfold, parse_digits_zero.
  change (Pos.of_uint (N.to_uint (Z.to_N n))) with (N.of_uint (N.to_uint (Z.to_N n))).
  rewrite DecimalN.Unsigned.of_to. f_equal. lia.
Qed.

Lemma pad_start_inj w n n' :
  0 ≤ n → 0 ≤ n' → pad_start w n = pad_start w n' → n = n'.
Proof.
  intros Hn Hn' Heq. pose proof (pad_start_value w n Hn) as Hv.
  rewrite Heq, pad_start_value in Hv by done. by simplify_eq.
Qed.

Lemma pad_start_head w n :
  ∃ c s, pad_start w n = String c s ∧ c ≠ "-"%char ∧ c ≠ "+"%char.
Proof.
  unfold pad_start.
  destruct (w - String.length (decimal (Z.to_N n)))%nat as [|k].
  - destruct (decimal_shape (Z.to_N n)) as (_ & _ & c & s & -> & ? & ?). by exists c, s.
  - rewrite zeros_S. eexists _, _. split; [reflexivity |]. split; discriminate.
Qed.

Lemma pad_start_2_length n : 0 ≤ n ≤ 99 → String.length (pad_start 2 n) = 2%nat.
Proof.
  intros Hn.
  assert (all_from (fun n => bool_decide (String.length (pad_start 2 n) = 2%nat))
            100 0 = true) as Hall by (vm_compute; reflexivity).
  eapply bool_decide_eq_true_1, (all_from_spec _ _ _ n Hall). lia.
Qed.

Lemma iso_year_inj y y' : iso_year y = iso_year y' → y = y'.
Proof.
  unfold iso_year. intros Heq.
  destruct (pad_start_head 4 y) as (c1 & s1 & Hp1 & ? & ?).
  destruct (pad_start_head 4 y') as (c2 & s2 & Hp2 & ? & ?).
  destruct ((0 <=? y) && (y <=? 9999)) eqn:Hy,
           ((0 <=? y') && (y' <=? 9999)) eqn:Hy';
    repeat match goal with
           | Hb : (_ && _) = true |- _ => apply andb_prop in Hb as [? ?]
           | Hb : (_ <=? _) = true |- _ => apply Z.leb_le in Hb
           end.
  - by apply (pad_start_inj 4).
  - rewrite Hp1 in Heq. destruct (y' <? 0);
      cbv [String.append] in Heq; simplify_eq.
  - rewrite Hp2 in Heq. destruct (y <? 0);
      cbv [String.append] in Heq; simplify_eq.
  - destruct (y <? 0) eqn:Hn, (y' <? 0) eqn:Hn';
      cbv [String.append] in Heq; fold String.append in Heq;
      [| discriminate | discriminate |]; injection Heq as Heq.
    + apply Z.ltb_lt in Hn, Hn'.
      apply (pad_start_inj 6) in Heq; lia.
    + apply Z.ltb_ge in Hn, Hn'.
      apply (pad_start_inj 6) in Heq; lia.
Qed.

Lemma iso_date_inj D D' : iso_date D = iso_date D' → D = D'.
Proof.
  unfold iso_date.
  destruct (civil_from_days_inv D) as (y & m & d & -> & <- & Hm & Hd).
  destruct (civil_from_days_inv D') as (y' & m' & d' & -> & <- & Hm' & Hd').
  intros Heq.
  apply append_inj_length in Heq as [Hy Heq].
  2:{ rewrite !length_app, !pad_start_2_length by lia. done. }
  apply iso_year_inj in Hy as ->.
  cbv [String.append] in Heq. fold String.append in Heq. injection Heq as Heq.
  apply append_inj_length in Heq as [Hmm Heq].
  2:{ simpl. by rewrite !pad_start_2_length by lia. }
  injection Heq as Heq.
  apply (pad_start_inj 2) in Hmm, Heq; try lia. by subst.
Qed.

Lemma today_inj now now' : today now = today now' → now / ms_per_day = now' / ms_per_day.
Proof. apply iso_date_inj. Qed.

Lemma rateLimitKey_inj t t' now now' :
  rateLimitKey t (today now) = rateLimitKey t' (today now') →
  t = t' ∧ now / ms_per_day = now' / ms_per_day.
Proof.
  unfold rateLimitKey. intros Heq.
  cbv [String.append] in Heq. fold String.append in Heq. simplify_eq.
  apply colon_split in Heq as [-> Hd]; [| apply colon_free_iso_date ..].
  split; [done |]. by apply today_inj.
Qed.

End Dates.

(** ** The rate limiter *)

Section RateLimiter.

Context `{JsonParser}.

Lemma same_day_within now w : now / ms_per_day = w / ms_per_day → now < w + rate_ttl * 1000.
Proof.
  unfold ms_per_day, rate_ttl. intros Hday.
  pose proof (Z.div_mod now 86400000 ltac:(lia)).
  pose proof (Z.mod_pos_bound now 86400000 ltac:(lia)).
  pose proof (Z.div_mod w 86400000 ltac:(lia)).
  pose proof (Z.mod_pos_bound w 86400000 ltac:(lia)).
  lia.
Qed.

Lemma rate_counter_read now s t c :
  rate_counter s t (now / ms_per_day) c →
  parseInt (or_else (KV.get now s (rateLimitKey t (today now))) "0") = Num c.
Proof.
  unfold today, KV.get. intros [[-> ->] | (Hc & w & Hw & ->)]; [done |].
  unfold KV.live. simpl.
  rewrite (proj2 (Z.ltb_lt _ _)) by (by apply same_day_within).
  destruct (String_of_Z_truthy c) as (a & b & Hs).
  rewrite or_else_Some by (by rewrite Hs). apply parseInt_String_of_Z.
Qed.

Lemma accepts_on_error t day now r status error :
  accepts_on t day now r (ErrorResponse status error) = false.
Proof. by destruct r as [? [?|] ? ?| | | |]. Qed.

Lemma accepts_on_read t day now r resp :
  (∀ oi ot ov d, r ≠ POST_vote oi ot ov d) → accepts_on t day now r resp = false.
Proof. intros Hr. destruct r as [oi ot ov d| | | |]; try done. by destruct (Hr oi ot ov d). Qed.

Lemma rate_counter_ext (s s' : KV.namespace) t day c :
  s' !! rateLimitKey t (iso_date day) = s !! rateLimitKey t (iso_date day) →
  rate_counter s t day c → rate_counter s' t day c.
Proof. unfold rate_counter. by intros ->. Qed.

(** One step: the counter follows the accepted votes of its token and day,
    and stays within the limit. *)
Lemma fetch_rate_counter now s r t day c :
  rate_counter s t day c → c ≤ 50 →
  rate_counter (fetch now s r).2 t day
    (c + if accepts_on t day now r (fetch now s r).1 then 1 else 0)
  ∧ c + (if accepts_on t day now r (fetch now s r).1 then 1 else 0) ≤ 50.
Proof.
  intros Hc Hle. destruct r as [oi ot ov d| | | |];
    try (rewrite accepts_on_read by done; rewrite Z.add_0_r; split; [| done];
         eapply rate_counter_ext; [| done];
         apply fetch_read_lookup; [auto with keys | done]).
  cbn [fetch]. destruct (handleVote_rejected now s oi ot ov d)
    as [(i' & l & dl & n & Hok) | (st & e & ->)].
  - destruct (handleVote now s oi ot ov d) as [resp s'] eqn:Hh. simpl in Hok. subst resp.
    apply handleVote_accepted in Hh
      as (t' & v' & -> & -> & -> & (_ & _ & Hv' & _ & Hrate) & -> & _).
    cbn [fst snd accepts_on]. case_bool_decide as Heq.
    + destruct Heq as [-> <-].
      rewrite (rate_counter_read now s t c Hc) in Hrate.
      simpl in Hrate. apply Z.leb_gt in Hrate. split; [| lia].
      right. split; [destruct Hc as [[-> _] | [? _]]; lia |].
      exists now. split; [done |]. unfold after_vote.
      rewrite lookup_put_ne by solve_keys.
      unfold KV.put at 1. rewrite lookup_insert_eq.
      by rewrite (rate_counter_read now s t c Hc).
    + rewrite Z.add_0_r. split; [| done].
      eapply rate_counter_ext; [| done].
      apply after_vote_lookup_ne; try solve_keys.
      intros Hk.
      replace (iso_date day) with (today (day * ms_per_day)) in Hk
        by (unfold today, ms_per_day; by rewrite Z.div_mul).
      apply rateLimitKey_inj in Hk as [-> Hday].
      apply Heq. split; [done |].
      unfold ms_per_day in *. rewrite Z.div_mul in Hday by done. done.
  - cbn [fst snd]. rewrite accepts_on_error, Z.add_0_r. done.
Qed.

Lemma run_rate_counter tr s t day c :
  rate_counter s t day c → c ≤ 50 →
  rate_counter (run tr s) t day (c + accepted_on t day tr s)
  ∧ c + accepted_on t day tr s ≤ 50.
Proof.
  revert s c. induction tr as [|[now r] tr IH]; intros s c Hc Hle; simpl.
  - by rewrite Z.add_0_r.
  - rewrite Z.add_assoc.
    destruct (fetch_rate_counter now s r t day c Hc Hle) as [Hc' Hle'].
    by apply IH.
Qed.

Lemma rate_counter_empty t day : rate_counter ∅ t day 0.
Proof. left. split; [done |]. apply lookup_empty. Qed.

End RateLimiter.

(** C3.  A well-formed vote for an item on which the token has no live
    vote record, made while the rate counter of the token for the current
    day reads 50 or more, is answered 429 "Rate limit exceeded" and leaves
    the namespace as it was: no vote record, no counter increment, no write
    of the rate counter.  In particular, once 50 votes of a token have been
    accepted on a day, whatever else was served in between, its next vote on
    that day, the 51st, is rejected in this way. *)
Theorem rate_limit_exceeded `{JsonParser} :
  (∀ now s i t v d c,
      i ≠ ""%string → t ≠ ""%string → is_vote_type v →
      truthy (KV.get now s (voteKey t i)) = false →
      parseInt (or_else (KV.get now s (rateLimitKey t (today now))) "0") = Num c →
      50 ≤ c →
      handleVote now s (Some i) (Some t) (Some v) d
      = (ErrorResponse 429 "Rate limit exceeded", s))
  ∧ (∀ tr now i t v d,
        accepted_on t (now / ms_per_day) tr ∅ = 50 →
        i ≠ ""%string → t ≠ ""%string → is_vote_type v →
        truthy (KV.get now (run tr ∅) (voteKey t i)) = false →
        handleVote now (run tr ∅) (Some i) (Some t) (Some v) d
        = (ErrorResponse 429 "Rate limit exceeded", run tr ∅)).
Proof.
  assert (∀ now s i t v d c,
            i ≠ ""%string → t ≠ ""%string → is_vote_type v →
            truthy (KV.get now s (voteKey t i)) = false →
            parseInt (or_else (KV.get now s (rateLimitKey t (today now))) "0") = Num c →
            50 ≤ c →
            handleVote now s (Some i) (Some t) (Some v) d
            = (ErrorResponse 429 "Rate limit exceeded", s)) as Hstate.
  { intros now s i t v d c Hi Ht Hv Hex Hread Hc. unfold handleVote.
    rewrite (proj2 (truthy_Some i)), (proj2 (truthy_Some t)),
      (is_vote_type_truthy v) by done.
    cbn [negb orb]. rewrite !or_else_Some; try done.
    - rewrite bool_decide_eq_true_2 by done. cbn [negb].
      rewrite Hex, Hread. simpl. by rewrite (proj2 (Z.leb_le 50 c)).
    - by apply truthy_Some, is_vote_type_truthy. }
  split; [done |].
  intros tr now i t v d Hacc Hi Ht Hv Hex.
  destruct (run_rate_counter tr ∅ t (now / ms_per_day) 0
              (rate_counter_empty _ _) ltac:(lia)) as [Hc _].
  rewrite Z.add_0_l, Hacc in Hc.
  apply (Hstate now _ i t v d 50); try done. by apply rate_counter_read.
Qed.

(** The 51st vote of the day: fifty accepted, the next one answered 429. *)
Lemma rate_limit_exceeded_witness :
  handleVote 86399900 (run before_midnight ∅)
    (Some "item-50") (Some "tok") (Some "like") None
  = (ErrorResponse 429 "Rate limit exceeded", run before_midnight ∅).
Proof.
  apply (proj2 rate_limit_exceeded before_midnight 86399900 "item-50" "tok" "like" None).
  - vm_compute. reflexivity.
  - discriminate.
  - discriminate.
  - apply is_vote_type_like.
  - vm_compute. reflexivity.
Defined.

(** ** The window of the rate limiter *)

(** Fifty-one votes of one token are accepted within two seconds. *)
Lemma rate_window_not_rolling : ¬ @rolling_window_limit runtime_parser.
Proof.
  intros Hroll. specialize (Hroll around_midnight "tok"%string 86399000).
  vm_compute in Hroll. by apply Hroll.
Qed.

(** C7, as the code has it.  The rate counter is kept under a key made of
    the token and of the UTC calendar date of the request.  Each accepted
    vote writes it anew with an expiration 24 hours after that write; but the
    limit is per calendar date: of the votes of a token that fall on one UTC
    day at most 50 are accepted, and a well-formed vote for an item without
    a live vote record is accepted whenever fewer than 50 votes of its token
    were accepted on its own day, however many were accepted the day
    before.  The count starts again when the date changes. *)
Theorem rate_window_is_utc_day `{JsonParser} :
  (∀ now s oi ot ov d j l dl n s',
      handleVote now s oi ot ov d = (VoteResponse j l dl n, s') →
      ∃ t c, ot = Some t
             ∧ s' !! rateLimitKey t (today now)
               = Some (KV.Entry c (Some (now + 24 * 60 * 60 * 1000))))
  ∧ (∀ tr t day, accepted_on t day tr ∅ ≤ 50)
  ∧ (∀ tr now i t v d,
        accepted_on t (now / ms_per_day) tr ∅ < 50 →
        i ≠ ""%string → t ≠ ""%string → is_vote_type v →
        truthy (KV.get now (run tr ∅) (voteKey t i)) = false →
        ∃ l dl, handleVote now (run tr ∅) (Some i) (Some t) (Some v) d
                = (VoteResponse i l dl (num_sub l dl),
                   after_vote now (run tr ∅) i t v d)).
Proof.
  split; [| split].
  - intros now s oi ot ov d j l dl n s' Hh.
    apply handleVote_accepted in Hh as (t & v & _ & -> & _ & (_ & _ & Hv & _) & -> & _).
    eexists t, _. split; [done |]. unfold after_vote.
    rewrite lookup_put_ne by solve_keys.
    unfold KV.put at 1. by rewrite lookup_insert_eq.
  - intros tr t day.
    destruct (run_rate_counter tr ∅ t day 0 (rate_counter_empty _ _) ltac:(lia))
      as [_ Hle]. lia.
  - intros tr now i t v d Hacc Hi Ht Hv Hex.
    destruct (run_rate_counter tr ∅ t (now / ms_per_day) 0
                (rate_counter_empty _ _) ltac:(lia)) as [Hc _].
    rewrite Z.add_0_l in Hc. apply handleVote_accepts.
    repeat split; try done.
    rewrite (rate_counter_read now _ t _ Hc). simpl. by apply Z.leb_gt.
Qed.

(** ** The lifetime of a vote record *)

(** Thirty days after an accepted vote its record is gone, and the same
    token votes for the same item once more. *)
Lemma duplicate_accepted_after_expiry : ¬ duplicate_always_rejected.
Proof.
  intros Hdup.
  assert (handleVote 0 ∅ (Some "x") (Some "tok") (Some "like") None
          = (VoteResponse "x" (Num 1) (Num 0) (Num 1),
             after_vote 0 ∅ "x" "tok" "like" None)) as Hfirst
    by (apply pair_parts; [vm_compute |]; reflexivity).
  apply (Hdup _ _ _ _ _ _ _ _ _ _ 2592000000 "like"%string None) in Hfirst;
    [| apply is_vote_type_like | lia].
  apply (f_equal fst) in Hfirst. vm_compute in Hfirst. discriminate.
Qed.

(** At midnight the token of [before_midnight] votes again. *)
Lemma rate_window_is_utc_day_witness :
  ∃ l dl, handleVote 86400000 (run before_midnight ∅)
            (Some "item-50") (Some "tok") (Some "like") None
          = (VoteResponse "item-50" l dl (num_sub l dl),
             after_vote 86400000 (run before_midnight ∅) "item-50" "tok" "like" None).
Proof.
  apply (proj2 (proj2 rate_window_is_utc_day)
           before_midnight 86400000 "item-50" "tok" "like" None).
  - vm_compute. reflexivity.
  - discriminate.
  - discriminate.
  - apply is_vote_type_like.
  - vm_compute. reflexivity.
Defined.

(** * Further properties *)

(** ** Counters and the rate counter along a trace *)

(** X1.  No request lowers a counter.  Whatever the worker serves, from a
    namespace in which the counter of type [v] of item [i] reads [c], and
    as long as the counter stays within the integers that the numbers of
    the runtime count without a gap, the counter reads afterwards [c] plus
    the number of votes of that type that were recorded for the item
    (answered 200, or 500 after the counter was written): there is no way
    to retract a vote. *)
Theorem counters_only_grow `{JsonParser} tr s v i c :
  is_vote_type v → counter_reads s v i c →
  0 ≤ c → c + tally (counted v i) tr s ≤ max_safe →
  ∃ c', counter_reads (Worker.run tr s) v i c' ∧ c ≤ c'
        ∧ c' - c = tally (voted v i) tr s + tally (crashed v i) tr s.
Proof.
  intros Hv Hc _ _. exists (c + tally (counted v i) tr s).
  split; [by apply worker_run_counter |].
  pose proof (tally_nonneg (counted v i) tr s). rewrite <- tally_counted. lia.
Qed.

Lemma counters_only_grow_witness :
  ∃ c', counter_reads
          (Worker.run [(1000, page_vote "x" "t1" "like");
                       (2000, number_token_vote "x" "like")] ∅) "like" "x" c'
        ∧ 0 ≤ c'
        ∧ c' - 0
          = tally (voted "like" "x")
              [(1000, page_vote "x" "t1" "like"); (2000, number_token_vote "x" "like")] ∅
            + tally (crashed "like" "x")
                [(1000, page_vote "x" "t1" "like"); (2000, number_token_vote "x" "like")] ∅.
Proof.
  apply (counters_only_grow
           [(1000, page_vote "x" "t1" "like"); (2000, number_token_vote "x" "like")]
           ∅ "like" "x" 0).
  - apply is_vote_type_like.
  - intros now. reflexivity.
  - lia.
  - vm_compute. discriminate.
Defined.

Section WorkerRate.

Context `{JsonParser}.

Lemma after_vote_rate now s i t v d :
  is_vote_type v →
  after_vote now s i t v d !! rateLimitKey t (today now)
  = Some (KV.Entry
            (String_of (num_add
               (parseInt (or_else (KV.get now s (rateLimitKey t (today now))) "0"))
               (Num 1)))
            (Some (now + rate_ttl * 1000))).
Proof.
  intros Hv. unfold after_vote. rewrite lookup_put_ne by solve_keys.
  unfold KV.put at 1. by rewrite lookup_insert_eq.
Qed.

(** One step: the counter follows the recorded votes of its token and
    day, and stays within the limit. *)
Lemma worker_fetch_rate_counter now s req t day c :
  rate_counter s t day c → c ≤ 50 →
  rate_counter (Worker.fetch now s req).2 t day
    (c + if counted_on t day now req (Worker.fetch now s req).1 then 1 else 0)
  ∧ c + (if counted_on t day now req (Worker.fetch now s req).1 then 1 else 0) ≤ 50.
Proof.
  intros Hc Hle. unfold counted_on.
  pose proof (worker_fetch_step now s req) as Hstep.
  destruct (recorded req (Worker.fetch now s req).1) as [[[i' t'] v']|].
  - destruct Hstep as (Hv' & _ & Hrate & Hw). case_bool_decide as Heq.
    + destruct Heq as [-> <-]. unfold under_limit in Hrate.
      pose proof (rate_counter_read now s t c Hc) as Hread.
      rewrite Hread in Hrate. simpl in Hrate. apply Z.leb_gt in Hrate.
      split; [| lia]. right. split; [destruct Hc as [[-> _] | [? _]]; lia |].
      exists now. split; [done |].
      change (iso_date (now / ms_per_day)) with (today now).
      rewrite Hw by solve_keys. rewrite after_vote_rate by done. by rewrite Hread.
    + rewrite Z.add_0_r. split; [| done].
      eapply rate_counter_ext; [| done].
      eapply vote_written_lookup_ne; [done | solve_keys ..| | solve_keys].
      intros Hk.
      replace (iso_date day) with (today (day * ms_per_day)) in Hk
        by (unfold today, ms_per_day; by rewrite Z.div_mul).
      apply rateLimitKey_inj in Hk as [-> Hday].
      apply Heq. split; [done |].
      unfold ms_per_day in *. rewrite Z.div_mul in Hday by done. done.
  - rewrite Z.add_0_r. split; [| done].
    destruct Hstep as [-> | (r & Hr & ->)]; [done |].
    destruct (fetch_rate_counter now s r t day c Hc Hle) as [Hc' _].
    by rewrite accepts_on_read, Z.add_0_r in Hc'.
Qed.

Lemma worker_run_rate_counter tr s t day c :
  rate_counter s t day c → c ≤ 50 →
  rate_counter (Worker.run tr s) t day (c + tally (counted_on t day) tr s)
  ∧ c + tally (counted_on t day) tr s ≤ 50.
Proof.
  revert s c. induction tr as [|[now req] tr IH]; intros s c Hc Hle; simpl.
  - by rewrite Z.add_0_r.
  - rewrite Z.add_assoc.
    destruct (worker_fetch_rate_counter now s req t day c Hc Hle) as [Hc' Hle'].
    by apply IH.
Qed.

End WorkerRate.

(** X2.  What [handleVote] reads as the number of votes of a token today
    is, in every namespace reached from the empty one, the number of votes
    that the worker recorded under that token on that UTC day, those
    answered 200 and those answered 500 after the rate counter was written
    (a token that is not a string counts under the string that it makes);
    it never exceeds 50.  Refused submissions, reads, other tokens and
    other days leave it alone. *)
Theorem rate_counter_is_exact `{JsonParser} tr t now :
  parseInt (or_else (KV.get now (Worker.run tr ∅) (rateLimitKey t (today now))) "0")
  = Num (tally (counted_on t (now / ms_per_day)) tr ∅)
  ∧ tally (counted_on t (now / ms_per_day)) tr ∅ ≤ 50.
Proof.
  destruct (worker_run_rate_counter tr ∅ t (now / ms_per_day) 0
              (rate_counter_empty _ _) ltac:(lia)) as [Hc Hle].
  rewrite Z.add_0_l in Hc, Hle. split; [by apply rate_counter_read | done].
Qed.

(** ** What a vote writes *)

Lemma before_metadata_lookup_ne now s i t v k :
  k ≠ voteKey t i → k ≠ countKey v i → k ≠ rateLimitKey t (today now) →
  before_metadata now s i t v !! k = s !! k.
Proof. intros. unfold before_metadata. by rewrite !lookup_put_ne. Qed.

(** X3.  [handleVote] changes the namespace in two cases only.  When it
    answers 200: then under four keys, the vote record of the pair, the
    counter of the vote type for the item, the rate counter of the token
    for the day and the metadata record of the item at that instant.  And
    when the token is not a string (while the item and the token make
    strings and the vote passes the checks): then it throws after it has
    written the first three of these, and [fetch] answers 500.  Every
    other key, and every key when the vote is refused, is as it was. *)
Theorem vote_touches_four_keys now s fi ft fv fd k :
  (Worker.handleVote now s fi ft fv fd).2 !! k ≠ s !! k →
  ∃ i t v,
    Worker.text fi = Some i ∧ Worker.text ft = Some t ∧ fv = Worker.Str v
    ∧ ((∃ l dl n,
           (Worker.handleVote now s fi ft fv fd).1 = Worker.Voted fi l dl n
           ∧ ft = Worker.Str t
           ∧ k ∈ [voteKey t i; countKey v i; rateLimitKey t (today now); metaKey i now])
       ∨ ((Worker.handleVote now s fi ft fv fd).1 = Worker.Crashed
          ∧ (∀ x, ft ≠ Worker.Str x)
          ∧ k ∈ [voteKey t i; countKey v i; rateLimitKey t (today now)])).
Proof.
  intros Hk.
  destruct (worker_handleVote_cases now s fi ft fv fd)
    as [(st & e & Hno & _) | [[Hno _] | (i & t & v & Hi & Ht & -> & Hv & _ & _ & Hw)]];
    [by rewrite Hno in Hk | by rewrite Hno in Hk |].
  exists i, t, v. repeat split; try done.
  destruct (decide (k = voteKey t i)) as [-> | ?];
    [destruct Hw as [(? & ? & ? & ->) | [? ->]]; [left | right];
     repeat first [done | eexists | split]; rewrite !elem_of_cons; tauto |].
  destruct (decide (k = countKey v i)) as [-> | ?];
    [destruct Hw as [(? & ? & ? & ->) | [? ->]]; [left | right];
     repeat first [done | eexists | split]; rewrite !elem_of_cons; tauto |].
  destruct (decide (k = rateLimitKey t (today now))) as [-> | ?];
    [destruct Hw as [(? & ? & ? & ->) | [? ->]]; [left | right];
     repeat first [done | eexists | split]; rewrite !elem_of_cons; tauto |].
  destruct Hw as [(Hft & l & dl & Hh) | [Hft Hh]]; rewrite Hh in Hk; cbn [snd] in Hk.
  - left. exists l, dl, (num_sub l dl). rewrite Hh. repeat split; try done.
    destruct (decide (k = metaKey i now)) as [-> | ?];
      [rewrite !elem_of_cons; tauto |].
    destruct Hk. rewrite lookup_put_ne by done. by apply before_metadata_lookup_ne.
  - destruct Hk. by apply before_metadata_lookup_ne.
Qed.

Lemma vote_touches_four_keys_witness :
  ∃ i t v,
    Worker.text (Worker.Str "x") = Some i
    ∧ Worker.text (Worker.Truthy (Some "12345") "12345") = Some t
    ∧ Worker.Str "like" = Worker.Str v
    ∧ ((∃ l dl n,
           (Worker.handleVote 0 ∅ (Worker.Str "x") (Worker.Truthy (Some "12345") "12345")
              (Worker.Str "like") Worker.Falsy).1
           = Worker.Voted (Worker.Str "x") l dl n
           ∧ Worker.Truthy (Some "12345") "12345" = Worker.Str t
           ∧ "like:x"%string
             ∈ [voteKey t i; countKey v i; rateLimitKey t (today 0); metaKey i 0])
       ∨ ((Worker.handleVote 0 ∅ (Worker.Str "x") (Worker.Truthy (Some "12345") "12345")
             (Worker.Str "like") Worker.Falsy).1
          = Worker.Crashed
          ∧ (∀ x, Worker.Truthy (Some "12345") "12345" ≠ Worker.Str x)
          ∧ "like:x"%string ∈ [voteKey t i; countKey v i; rateLimitKey t (today 0)])).
Proof.
  apply (vote_touches_four_keys 0 ∅ (Worker.Str "x") (Worker.Truthy (Some "12345") "12345")
           (Worker.Str "like") Worker.Falsy "like:x").
  vm_compute. discriminate.
Defined.

(** ** Statistics and rankings of one namespace *)

Lemma total_perm (field : summary → number) (l l' : list summary) :
  l ≡ₚ l' → total field l = total field l'.
Proof.
  unfold total. generalize (Num 0).
  intros a Hp. revert a.
  induction Hp as [|r l l' _ IH|r r' l|l l' l'' _ IH _ IH']; intros a; simpl.
  - done.
  - apply IH.
  - by rewrite num_add_swap.
  - by rewrite IH.
Qed.

Lemma total_votes_split (l : list summary) (a b : number) :
  Forall (fun r => total_votes r = num_add (likes r) (dislikes r)) l →
  foldl (fun acc r => num_add acc (total_votes r)) (num_add a b) l
  = num_add (foldl (fun acc r => num_add acc (likes r)) a l)
      (foldl (fun acc r => num_add acc (dislikes r)) b l).
Proof.
  intros Hl. revert a b. induction Hl as [|r l Hr _ IH]; intros a b; simpl; [done |].
  rewrite <- IH. f_equal. rewrite Hr.
  destruct a, b, (likes r), (dislikes r); simpl; try done. f_equal. lia.
Qed.

(** X4.  At one instant on one namespace the two aggregations agree: the
    statistics count the items of the ranking, and their totals are the
    sums of the likes, of the dislikes and of the total votes over the
    items of the ranking; the percentage is that of these sums. *)
Theorem stats_agree_with_rankings now s :
  ∃ items,
    (getRankings now s).1 = RankingsResponse items (length items) now
    ∧ (getStats now s).1
      = StatsResponse (total likes items) (total dislikes items)
          (total total_votes items) (length items)
          (like_percentage_spec (total likes items) (total total_votes items)) now.
Proof.
  exists (sort by_net_score (scan now s)). split; [done |].
  pose proof (sort_perm by_net_score (scan now s)) as Hp.
  rewrite !(total_perm _ _ _ Hp), (Permutation_length Hp).
  assert (total total_votes (scan now s)
          = num_add (total likes (scan now s)) (total dislikes (scan now s))) as ->.
  { unfold total. change (Num 0) with (num_add (Num 0) (Num 0)) at 1.
    apply total_votes_split, Forall_forall. intros r Hr.
    apply elem_of_scan in Hr as [-> _]. done. }
  unfold getStats. by rewrite stats_fold_totals.
Qed.

(** ** The routes *)

Section Routes.

Context `{JsonParser}.

Lemma append_nil_r (a : string) : a +:+ "" = a.
Proof.
  induction a as [|c a IH]; [done |].
  cbv [String.append]; fold String.append. by rewrite IH.
Qed.

Lemma append_assoc (a b c : string) : (a +:+ b) +:+ c = a +:+ b +:+ c.
Proof.
  induction a as [|x a IH]; [done |].
  cbv [String.append]; fold String.append. by rewrite IH.
Qed.

Lemma without_append c a b : without c (a +:+ b) = without c a && without c b.
Proof.
  induction a as [|x a IH]; [done |].
  cbv [String.append]; fold String.append. simpl. rewrite IH. by rewrite andb_assoc.
Qed.

(** A piece without the separator is the first piece of the split. *)
Lemma split_piece c a b :
  without c a = true → split c (a +:+ String c b) = a :: split c b.
Proof.
  induction a as [|x a IH]; intros Ha.
  - cbv [String.append]. simpl. by rewrite Ascii.eqb_refl.
  - simpl in Ha. apply andb_true_iff in Ha as [Hx Ha].
    cbv [String.append]; fold String.append. simpl.
    apply negb_true_iff in Hx. rewrite Hx. by rewrite (IH Ha).
Qed.

Lemma split_whole c a : without c a = true → split c a = [a].
Proof.
  induction a as [|x a IH]; intros Ha; [done |].
  simpl in Ha. apply andb_true_iff in Ha as [Hx Ha].
  simpl. apply negb_true_iff in Hx. rewrite Hx. by rewrite (IH Ha).
Qed.

Lemma startsWith_append p s : startsWith p (p +:+ s) = true.
Proof.
  induction p as [|c p IH]; [done |].
  cbv [String.append]; fold String.append. simpl. by rewrite Ascii.eqb_refl.
Qed.

End Routes.

(** X5.  Of all the requests that [fetch] serves, only [POST /vote] writes
    anything but cache entries: after any other request, whatever its
    method, path, query and body, every key outside the family
    [cache:votes:] holds what it held.  No read, no preflight and no
    unknown route moves a counter, a vote record or a rate counter. *)
Theorem only_votes_write_beyond_the_cache `{JsonParser} now s req k :
  ¬ (Worker.method req = "POST"%string ∧ Worker.pathname req = "/vote"%string) →
  (∀ itemId, k ≠ cacheKey itemId) →
  (Worker.fetch now s req).2 !! k = s !! k.
Proof.
  intros Hreq Hk.
  destruct (worker_fetch_cases now s req)
    as [[_ [-> | [(st & e & ->) | (r & Hr & ->)]]] | (fi & ft & fv & fd & Hvf & _)];
    try done.
  - simpl. by apply fetch_read_lookup.
  - apply vote_fields_Some in Hvf as (Hm & Hp & _). by destruct Hreq.
Qed.

Lemma only_votes_write_beyond_the_cache_witness :
  (Worker.fetch 5000 (run dislike_trace ∅)
     (Worker.HttpRequest "GET" "/votes/x" None Worker.NotJson)).2 !! "like:x"%string
  = run dislike_trace ∅ !! "like:x"%string.
Proof.
  apply (only_votes_write_beyond_the_cache 5000 (run dislike_trace ∅)
           (Worker.HttpRequest "GET" "/votes/x" None Worker.NotJson) "like:x").
  - simpl. intros [Hm _]. discriminate Hm.
  - intros itemId. unfold cacheKey. cbv [String.append]. discriminate.
Defined.

(** X6.  [GET /votes/<id>] reads the item named by the third piece of the
    path.  For an id without a slash, the path [/votes/<id>] is answered by
    [getVoteCounts] on that id, unless the id is [batch], which is the
    batch route; and a path that goes on after the id, [/votes/<id>/...],
    is answered as [/votes/<id>]: what follows the id is ignored (so that
    [/votes/batch/] reads the item named [batch]). *)
Theorem votes_route_reads_third_piece `{JsonParser} now s itemId rest ids body :
  without "/" itemId = true →
  (rest = ""%string ∧ itemId ≠ "batch"%string) ∨ (∃ more, rest = String "/" more) →
  Worker.fetch now s
    (Worker.HttpRequest "GET" ("/votes/" +:+ itemId +:+ rest) ids body)
  = Worker.answer (getVoteCounts now s itemId).
Proof.
  intros Hid Hrest. unfold Worker.fetch. cbn [Worker.method Worker.pathname].
  rewrite (bool_decide_eq_false_2 ("GET"%string = "OPTIONS"%string)) by done.
  rewrite (bool_decide_eq_false_2 ("GET"%string = "POST"%string)) by done.
  rewrite (bool_decide_eq_true_2 ("GET"%string = "GET"%string)) by done.
  cbn [andb].
  rewrite bool_decide_eq_false_2; cycle 1.
  { intros Heq. cbv [String.append] in Heq; fold String.append in Heq.
    injection Heq as Heq.
    destruct Hrest as [[-> Hne] | [more ->]].
    - by rewrite append_nil_r in Heq. 
    - apply (f_equal (without "/")) in Heq.
      rewrite without_append, Hid in Heq. by simpl in Heq. }
  rewrite startsWith_append.
  assert (split "/" ("/votes/" +:+ itemId +:+ rest) !! 2%nat = Some itemId) as ->;
    [| done].
  change ("/votes/" +:+ itemId +:+ rest)%string
    with (("" +:+ String "/" ("votes" +:+ String "/" (itemId +:+ rest)))%string).
  rewrite !split_piece by done. simpl.
  destruct Hrest as [[-> _] | [more ->]].
  - by rewrite append_nil_r, split_whole.
  - by rewrite split_piece.
Qed.

Lemma votes_route_reads_third_piece_witness :
  Worker.fetch 5000 (run dislike_trace ∅)
    (Worker.HttpRequest "GET" ("/votes/" +:+ "batch" +:+ "/") None Worker.NotJson)
  = Worker.answer (getVoteCounts 5000 (run dislike_trace ∅) "batch").
Proof.
  apply (votes_route_reads_third_piece 5000 (run dislike_trace ∅) "batch" "/").
  - reflexivity.
  - right. by exists ""%string.
Defined.

(** ** The cache *)

Section Cache.

Context `{JsonParser}.

Lemma cacheKey_inj i j : cacheKey i = cacheKey j → i = j.
Proof. unfold cacheKey. cbv [String.append]. congruence. Qed.

Lemma stringify_summary_nonempty r : JSON_stringify (json_of_summary r) ≠ ""%string.
Proof. done. Qed.

(** The entry of [i] after the loop of a batch read that started from [acc]. *)
Lemma batch_store_fold now s itemIds acc i :
  foldl (fun s' itemId =>
           match resolve now s itemId with
           | FromKV r =>
               KV.put now (cacheKey (trim itemId))
                 (JSON_stringify (json_of_summary r)) (Some cache_ttl) s'
           | _ => s'
           end) acc itemIds !! cacheKey i
  = if negb (truthy (KV.get now s (cacheKey i))) && bool_decide (i ∈ trim <$> itemIds)
    then Some (KV.Entry (JSON_stringify (json_of_summary (countsFromKV now s i)))
                 (Some (now + cache_ttl * 1000)))
    else acc !! cacheKey i.
Proof.
  revert acc. induction itemIds as [|id itemIds IH]; intros acc.
  - cbn [foldl]. rewrite fmap_nil, bool_decide_eq_false_2 by apply not_elem_of_nil.
    by rewrite andb_false_r.
  - cbn [foldl]. rewrite IH, fmap_cons. clear IH.
    destruct (negb (truthy (KV.get now s (cacheKey i)))) eqn:Hmiss; cbn [andb].
    + case_bool_decide as Hin.
      * rewrite bool_decide_eq_true_2; [done | by right].
      * destruct (decide (i = trim id)) as [-> | Hne].
        -- rewrite bool_decide_eq_true_2 by left.
           unfold resolve. apply negb_true_iff in Hmiss. rewrite Hmiss.
           unfold KV.put. by rewrite lookup_insert_eq.
        -- rewrite bool_decide_eq_false_2
             by (rewrite elem_of_cons; intros [? | ?]; done).
           destruct (resolve now s id); try done.
           apply lookup_put_ne. intros Heq%cacheKey_inj. done.
    + destruct (resolve now s id) eqn:Hres; try done.
      apply lookup_put_ne. intros Heq%cacheKey_inj.
      unfold resolve in Hres. rewrite Heq in Hres.
      apply negb_false_iff in Hmiss. rewrite Hmiss in Hres.
      by destruct (JSON_parse _).
Qed.

Lemma batch_store_cache now s itemIds i :
  batch_store now s itemIds !! cacheKey i
  = if negb (truthy (KV.get now s (cacheKey i))) && bool_decide (i ∈ trim <$> itemIds)
    then Some (KV.Entry (JSON_stringify (json_of_summary (countsFromKV now s i)))
                 (Some (now + cache_ttl * 1000)))
    else s !! cacheKey i.
Proof. apply batch_store_fold. Qed.

(** What a request can do to the cache entry of an item: leave it, or,
    when it is not live, replace it by the summary of the counters for 60
    seconds. *)
Lemma fetch_cache_lookup now s r i :
  (fetch now s r).2 !! cacheKey i = s !! cacheKey i
  ∨ (truthy (KV.get now s (cacheKey i)) = false
     ∧ (fetch now s r).2 !! cacheKey i
       = Some (KV.Entry (JSON_stringify (json_of_summary (countsFromKV now s i)))
                 (Some (now + cache_ttl * 1000)))).
Proof.
  destruct r as [oi ot ov d|ids|itemId| |]; cbn [fetch].
  - left. destruct (handleVote_rejected now s oi ot ov d)
      as [(j & l & dl & n & Hok) | (st & e & ->)]; [| done].
    destruct (handleVote now s oi ot ov d) as [resp s'] eqn:Hh. simpl in *. subst resp.
    apply handleVote_accepted in Hh as (t & v & _ & _ & _ & (_ & _ & Hv & _) & -> & _).
    apply after_vote_lookup_ne; solve_keys.
  - assert ((getBatchVoteCounts now s ids).2 = s
            ∨ ∃ itemIds, (getBatchVoteCounts now s ids).2 = batch_store now s itemIds)
      as [Hs | [itemIds Hs]].
    { unfold getBatchVoteCounts.
      repeat match goal with
             | |- context [if ?b then _ else _] => destruct b
             end; simpl; eauto. }
    + left. destruct (getBatchVoteCounts now s ids) as [[resp|] s']; simpl in *; by subst.
    + assert ((let (o, s') := getBatchVoteCounts now s ids in
               match o with
               | Some resp => (resp, s')
               | None => (ErrorResponse 500 "Internal server error", s')
               end).2 = batch_store now s itemIds) as ->
        by (destruct (getBatchVoteCounts now s ids) as [[resp|] s']; simpl in *; by subst).
      rewrite batch_store_cache.
      destruct (truthy (KV.get now s (cacheKey i))); simpl; [by left |].
      case_bool_decide; [by right | by left].
  - unfold getVoteCounts.
    destruct (negb (truthy (Some itemId))); [by left |].
    destruct (truthy (KV.get now s (cacheKey itemId))) eqn:Hc; [by left |].
    cbn [snd]. destruct (decide (itemId = i)) as [-> | Hne].
    + right. split; [done |]. unfold KV.put. by rewrite lookup_insert_eq.
    + left. apply lookup_put_ne. by intros Heq%cacheKey_inj.
  - by left.
  - left. unfold getStats. by destruct (foldl _ _ _) as [[? ?] ?].
Qed.

Lemma run_keeps_live_cache T tr s i e :
  served_before T tr →
  s !! cacheKey i = Some e → KV.expiration e = Some T → KV.value e ≠ ""%string →
  run tr s !! cacheKey i = Some e.
Proof.
  intros Htr. revert s. induction Htr as [|[now r] tr Hnow _ IH]; intros s Hs Hx Hv;
    simpl; [done |].
  apply IH; try done.
  destruct (fetch_cache_lookup now s r i) as [-> | [Hmiss _]]; [done |].
  unfold KV.get, KV.live in Hmiss. rewrite Hs, Hx in Hmiss. simpl in Hnow.
  rewrite (proj2 (Z.ltb_lt now T) Hnow) in Hmiss.
  by apply not_true_iff_false in Hmiss; destruct Hmiss; apply truthy_Some.
Qed.

End Cache.

(** X7.  A summary that [getVoteCounts] has computed is served for a
    minute.  After a read of an item that missed the cache at the instant
    [now], whatever requests the worker serves before [now] + 60 s, votes
    for the item included, every read of the item before [now] + 60 s is a
    cache hit that answers with the text of that first read and writes
    nothing. *)
Theorem cached_summary_served_for_a_minute `{JsonParser}
    now s itemId body s1 tr now' :
  getVoteCounts now s itemId = (CountsResponse MISS body, s1) →
  served_before (now + 60000) tr → now' < now + 60000 →
  getVoteCounts now' (run tr s1) itemId = (CountsResponse HIT body, run tr s1).
Proof.
  intros Hfirst Htr Hnow'. unfold getVoteCounts in Hfirst.
  destruct (negb (truthy (Some itemId))) eqn:Hid; [done |].
  destruct (truthy (KV.get now s (cacheKey itemId))); [done |].
  injection Hfirst as Hbody Hs1.
  assert (body ≠ ""%string) as Hne by by rewrite <- Hbody.
  assert (s1 !! cacheKey itemId = Some (KV.Entry body (Some (now + 60000)))) as Hs.
  { rewrite <- Hs1, Hbody. unfold KV.put. by rewrite lookup_insert_eq. }
  apply (run_keeps_live_cache (now + 60000) tr) in Hs; try done.
  assert (KV.get now' (run tr s1) (cacheKey itemId) = Some body) as Hget.
  { unfold KV.get. rewrite Hs. unfold KV.live. simpl.
    by rewrite (proj2 (Z.ltb_lt _ _) Hnow'). }
  unfold getVoteCounts. rewrite Hid, Hget.
  by rewrite (proj2 (truthy_Some body) Hne), or_else_Some.
Qed.

Lemma cached_summary_served_for_a_minute_witness :
  getVoteCounts 59999 (run [(1000, vote "x" "tok" "like")] cached_then_voted) "x"
  = (CountsResponse HIT (cached_summary "x" 0 0),
     run [(1000, vote "x" "tok" "like")] cached_then_voted).
Proof.
  apply (cached_summary_served_for_a_minute 0 ∅ "x" (cached_summary "x" 0 0)
           cached_then_voted [(1000, vote "x" "tok" "like")] 59999).
  - apply pair_parts; [vm_compute |]; reflexivity.
  - repeat constructor.
  - reflexivity.
Defined.
Section CacheInvariant.

Context `{JsonParser}.

Lemma counter_reads_fun s v i c c' :
  counter_reads s v i c → counter_reads s v i c' → c = c'.
Proof. intros Hc Hc'. specialize (Hc 0). rewrite (Hc' 0) in Hc. congruence. Qed.

Lemma countsFromKV_reads now s i cl cd :
  counter_reads s "like" i cl → counter_reads s "dislike" i cd →
  countsFromKV now s i = Summary i (Num cl) (Num cd) (Num (cl - cd)) (Num (cl + cd)).
Proof. intros Hl Hd. unfold countsFromKV. by rewrite (Hl now), (Hd now). Qed.

Lemma counters_nonneg_empty : counters_nonneg ∅.
Proof. intros v i _. exists 0. split; [done |]. apply counter_reads_empty. Qed.

Lemma fetch_counters_nonneg now s r :
  counters_nonneg s → counters_nonneg (fetch now s r).2.
Proof.
  intros Hs v i Hv. destruct (Hs v i Hv) as (c & Hc0 & Hc).
  eexists. split; [| by apply fetch_counter].
  destruct (accepts v i r _); lia.
Qed.

Lemma cache_coherent_empty T : cache_coherent T ∅.
Proof. intros i e He. by rewrite lookup_empty in He. Qed.

Lemma fetch_cache_coherent T now s r :
  now ≤ T → counters_nonneg s → cache_coherent T s →
  cache_coherent T (fetch now s r).2.
Proof.
  intros Hnow Hnn Hco i e He.
  destruct (Hnn "like"%string i is_vote_type_like) as (cl & Hcl0 & Hcl).
  destruct (Hnn "dislike"%string i is_vote_type_dislike) as (cd & Hcd0 & Hcd).
  pose proof (fetch_counter now s r "like" i cl is_vote_type_like Hcl) as Hcl'.
  pose proof (fetch_counter now s r "dislike" i cd is_vote_type_dislike Hcd) as Hcd'.
  set (dl := if accepts "like" i r (fetch now s r).1 then 1 else 0) in *.
  set (dd := if accepts "dislike" i r (fetch now s r).1 then 1 else 0) in *.
  assert (0 ≤ dl) by (subst dl; case_match; lia).
  assert (0 ≤ dd) by (subst dd; case_match; lia).
  destruct (fetch_cache_lookup now s r i) as [Heq | [_ Heq]]; rewrite Heq in He.
  - destruct (Hco i e He) as (a & b & cl0 & cd0 & x & -> & Hx & Hl0 & Hd0 & Ha & Hb).
    rewrite (counter_reads_fun _ _ _ _ _ Hl0 Hcl) in Ha.
    rewrite (counter_reads_fun _ _ _ _ _ Hd0 Hcd) in Hb.
    exists a, b, (cl + dl), (cd + dd), x. repeat split; try done; lia.
  - rewrite (countsFromKV_reads now s i cl cd) in He by done.
    assert (e = KV.Entry (cached_summary i cl cd) (Some (now + cache_ttl * 1000)))
      as -> by (unfold cached_summary; congruence).
    exists cl, cd, (cl + dl), (cd + dd), (now + cache_ttl * 1000).
    repeat split; try done; lia.
Qed.

Lemma run_cache_coherent T tr s :
  served_until T tr → counters_nonneg s → cache_coherent T s →
  cache_coherent T (run tr s).
Proof.
  intros Htr. revert s. induction Htr as [|[now r] tr Hnow _ IH]; intros s Hnn Hco;
    simpl; [done |].
  apply IH; [by apply fetch_counters_nonneg | by apply fetch_cache_coherent].
Qed.

Lemma served_until_exists (tr : list (Z * request)) : ∃ T, served_until T tr.
Proof.
  induction tr as [|[now r] tr [T IH]]; [exists 0; constructor |].
  exists (Z.max now T). constructor; [simpl; lia |].
  eapply Forall_impl; [done |]. simpl. intros. lia.
Qed.

(** The text of a live cache entry parses when the parser reads the
    summary texts of the counts that the item can have reached. *)
Lemma run_cache_parses tr now itemId body :
  (∀ a b, 0 ≤ a ≤ accepted "like" itemId tr ∅ →
          0 ≤ b ≤ accepted "dislike" itemId tr ∅ →
          JSON_parse (cached_summary itemId a b) ≠ None) →
  KV.get now (run tr ∅) (cacheKey itemId) = Some body →
  JSON_parse body ≠ None.
Proof.
  intros Hparse Hget. destruct (served_until_exists tr) as [T Htr].
  pose proof (run_cache_coherent T tr ∅ Htr counters_nonneg_empty
                (cache_coherent_empty T)) as Hco.
  unfold KV.get in Hget.
  destruct (run tr ∅ !! cacheKey itemId) as [e|] eqn:He; [| done].
  destruct (Hco itemId e He) as (a & b & cl & cd & x & -> & _ & Hl & Hd & Ha & Hb).
  destruct (KV.live now _); [| done]. injection Hget as <-.
  pose proof (run_counter tr ∅ "like" itemId 0 is_vote_type_like
                (counter_reads_empty _ _)) as Hl'.
  pose proof (run_counter tr ∅ "dislike" itemId 0 is_vote_type_dislike
                (counter_reads_empty _ _)) as Hd'.
  rewrite (counter_reads_fun _ _ _ _ _ Hl Hl') in Ha.
  rewrite (counter_reads_fun _ _ _ _ _ Hd Hd') in Hb.
  apply Hparse; lia.
Qed.

End CacheInvariant.

Section WorkerCache.

Context `{JsonParser}.

(** What a request can do to the cache entry of an item: leave it, or,
    when it is not live, replace it by the summary of the counters for 60
    seconds. *)
Lemma worker_fetch_cache_lookup now s req i :
  (Worker.fetch now s req).2 !! cacheKey i = s !! cacheKey i
  ∨ (truthy (KV.get now s (cacheKey i)) = false
     ∧ (Worker.fetch now s req).2 !! cacheKey i
       = Some (KV.Entry (JSON_stringify (json_of_summary (countsFromKV now s i)))
                 (Some (now + cache_ttl * 1000)))).
Proof.
  pose proof (worker_fetch_step now s req) as Hstep.
  destruct (recorded req (Worker.fetch now s req).1) as [[[i' t'] v']|].
  - left. destruct Hstep as (Hv' & _ & _ & Hw).
    eapply vote_written_lookup_ne; [done | solve_keys ..].
  - destruct Hstep as [-> | (r & Hr & ->)]; [by left |]. apply fetch_cache_lookup.
Qed.

Lemma worker_fetch_counters_nonneg now s req :
  counters_nonneg s → counters_nonneg (Worker.fetch now s req).2.
Proof.
  intros Hs v i Hv. destruct (Hs v i Hv) as (c & Hc0 & Hc).
  eexists. split; [| by apply worker_fetch_counter].
  destruct (counted v i now req _); lia.
Qed.

Lemma worker_fetch_cache_coherent T now s req :
  now ≤ T → counters_nonneg s → cache_coherent T s →
  cache_coherent T (Worker.fetch now s req).2.
Proof.
  intros Hnow Hnn Hco i e He.
  destruct (Hnn "like"%string i is_vote_type_like) as (cl & Hcl0 & Hcl).
  destruct (Hnn "dislike"%string i is_vote_type_dislike) as (cd & Hcd0 & Hcd).
  pose proof (worker_fetch_counter now s req "like" i cl is_vote_type_like Hcl) as Hcl'.
  pose proof (worker_fetch_counter now s req "dislike" i cd is_vote_type_dislike Hcd)
    as Hcd'.
  set (dl := if counted "like" i now req (Worker.fetch now s req).1 then 1 else 0) in *.
  set (dd := if counted "dislike" i now req (Worker.fetch now s req).1 then 1 else 0) in *.
  assert (0 ≤ dl) by (subst dl; case_match; lia).
  assert (0 ≤ dd) by (subst dd; case_match; lia).
  destruct (worker_fetch_cache_lookup now s req i) as [Heq | [_ Heq]]; rewrite Heq in He.
  - destruct (Hco i e He) as (a & b & cl0 & cd0 & x & -> & Hx & Hl0 & Hd0 & Ha & Hb).
    rewrite (counter_reads_fun _ _ _ _ _ Hl0 Hcl) in Ha.
    rewrite (counter_reads_fun _ _ _ _ _ Hd0 Hcd) in Hb.
    exists a, b, (cl + dl), (cd + dd), x. repeat split; try done; lia.
  - rewrite (countsFromKV_reads now s i cl cd) in He by done.
    assert (e = KV.Entry (cached_summary i cl cd) (Some (now + cache_ttl * 1000)))
      as -> by (unfold cached_summary; congruence).
    exists cl, cd, (cl + dl), (cd + dd), (now + cache_ttl * 1000).
    repeat split; try done; lia.
Qed.

Lemma worker_run_cache_coherent T tr s :
  all_until T tr → counters_nonneg s → cache_coherent T s →
  cache_coherent T (Worker.run tr s).
Proof.
  intros Htr. revert s. induction Htr as [|[now req] tr Hnow _ IH]; intros s Hnn Hco;
    simpl; [done |].
  apply IH; [by apply worker_fetch_counters_nonneg | by apply worker_fetch_cache_coherent].
Qed.

Lemma all_until_exists (tr : list (Z * Worker.http_request)) : ∃ T, all_until T tr.
Proof.
  induction tr as [|[now req] tr [T IH]]; [exists 0; constructor |].
  exists (Z.max now T). constructor; [simpl; lia |].
  eapply Forall_impl; [done |]. simpl. intros. lia.
Qed.

End WorkerCache.

(** X8.  The cache is never ahead of the counters, and a cached summary is
    consistent.  In every namespace reached from the empty one, a live
    cache entry of an item is the summary text of some counts [a] and [b]
    (with net score [a - b] and total [a + b]) that are not negative and not
    larger than what the two counters of the item hold: a hit can show
    fewer votes than the counters, never more.  (The counters hold the
    votes recorded for the item.) *)
Theorem cache_never_ahead `{JsonParser} tr now itemId body :
  KV.get now (Worker.run tr ∅) (cacheKey itemId) = Some body →
  ∃ a b cl cd,
    body = cached_summary itemId a b
    ∧ countsFromKV now (Worker.run tr ∅) itemId
      = Summary itemId (Num cl) (Num cd) (Num (cl - cd)) (Num (cl + cd))
    ∧ 0 ≤ a ≤ cl ∧ 0 ≤ b ≤ cd
    ∧ cl = tally (counted "like" itemId) tr ∅
    ∧ cd = tally (counted "dislike" itemId) tr ∅.
Proof.
  intros Hget. destruct (all_until_exists tr) as [T Htr].
  pose proof (worker_run_cache_coherent T tr ∅ Htr counters_nonneg_empty
                (cache_coherent_empty T)) as Hco.
  unfold KV.get in Hget.
  destruct (Worker.run tr ∅ !! cacheKey itemId) as [e|] eqn:He; [| done].
  destruct (Hco itemId e He) as (a & b & cl & cd & x & -> & _ & Hl & Hd & Ha & Hb).
  destruct (KV.live now _); [| done]. injection Hget as <-.
  pose proof (worker_run_counter tr ∅ "like" itemId 0 is_vote_type_like
                (counter_reads_empty _ _)) as Hl'.
  pose proof (worker_run_counter tr ∅ "dislike" itemId 0 is_vote_type_dislike
                (counter_reads_empty _ _)) as Hd'.
  rewrite Z.add_0_l in Hl', Hd'.
  rewrite (counter_reads_fun _ _ _ _ _ Hl Hl') in Ha.
  rewrite (counter_reads_fun _ _ _ _ _ Hd Hd') in Hb.
  eexists a, b, _, _. split; [done |]. split; [by apply countsFromKV_reads |].
  repeat split; try done; lia.
Qed.

Lemma cache_never_ahead_witness :
  ∃ a b cl cd,
    cached_summary "x" 1 0 = cached_summary "x" a b
    ∧ countsFromKV 5000
        (Worker.run [(1000, page_vote "x" "t1" "like"); (2000, http_get "/votes/x");
                     (3000, number_token_vote "x" "like")] ∅) "x"
      = Summary "x" (Num cl) (Num cd) (Num (cl - cd)) (Num (cl + cd))
    ∧ 0 ≤ a ≤ cl ∧ 0 ≤ b ≤ cd
    ∧ cl = tally (counted "like" "x")
             [(1000, page_vote "x" "t1" "like"); (2000, http_get "/votes/x");
              (3000, number_token_vote "x" "like")] ∅
    ∧ cd = tally (counted "dislike" "x")
             [(1000, page_vote "x" "t1" "like"); (2000, http_get "/votes/x");
              (3000, number_token_vote "x" "like")] ∅.
Proof.
  apply (cache_never_ahead
           [(1000, page_vote "x" "t1" "like"); (2000, http_get "/votes/x");
            (3000, number_token_vote "x" "like")] 5000 "x").
  vm_compute. reflexivity.
Defined.

(** X9.  A read after a quiet minute is fresh.  If the worker has served
    requests, from the empty namespace, up to the instant [T], then every
    cache entry is gone at [T] + 60 s: a read of an item at or after that
    instant misses the cache and answers with what the two counters of the
    item hold, the numbers of likes and dislikes recorded for it, which it
    caches anew. *)
Theorem read_after_a_quiet_minute_is_fresh `{JsonParser} tr T now itemId :
  all_until T tr → T + 60000 ≤ now → itemId ≠ ""%string →
  getVoteCounts now (Worker.run tr ∅) itemId
  = (CountsResponse MISS
       (JSON_stringify (json_of_summary (countsFromKV now (Worker.run tr ∅) itemId))),
     KV.put now (cacheKey itemId)
       (JSON_stringify (json_of_summary (countsFromKV now (Worker.run tr ∅) itemId)))
       (Some cache_ttl) (Worker.run tr ∅))
  ∧ countsFromKV now (Worker.run tr ∅) itemId
    = Summary itemId
        (Num (tally (counted "like" itemId) tr ∅))
        (Num (tally (counted "dislike" itemId) tr ∅))
        (Num (tally (counted "like" itemId) tr ∅ - tally (counted "dislike" itemId) tr ∅))
        (Num (tally (counted "like" itemId) tr ∅ + tally (counted "dislike" itemId) tr ∅)).
Proof.
  intros Htr Hnow Hid.
  pose proof (worker_run_cache_coherent T tr ∅ Htr counters_nonneg_empty
                (cache_coherent_empty T)) as Hco.
  assert (KV.get now (Worker.run tr ∅) (cacheKey itemId) = None) as Hget.
  { unfold KV.get.
    destruct (Worker.run tr ∅ !! cacheKey itemId) as [e|] eqn:He; [| done].
    destruct (Hco itemId e He) as (a & b & cl & cd & x & -> & Hx & _).
    unfold KV.live. simpl. unfold cache_ttl in Hx.
    by rewrite (proj2 (Z.ltb_ge now x)) by lia. }
  split.
  - unfold getVoteCounts.
    by rewrite (proj2 (truthy_Some itemId) Hid), Hget.
  - pose proof (worker_run_counter tr ∅ "like" itemId 0 is_vote_type_like
                  (counter_reads_empty _ _)) as Hl.
    pose proof (worker_run_counter tr ∅ "dislike" itemId 0 is_vote_type_dislike
                  (counter_reads_empty _ _)) as Hd.
    rewrite !Z.add_0_l in *. by apply countsFromKV_reads.
Qed.

Lemma read_after_a_quiet_minute_is_fresh_witness :
  getVoteCounts 64500
    (Worker.run [(1000, page_vote "x" "t1" "like"); (4500, http_get "/votes/x")] ∅) "x"
  = (CountsResponse MISS
       (JSON_stringify
          (json_of_summary
             (countsFromKV 64500
                (Worker.run [(1000, page_vote "x" "t1" "like"); (4500, http_get "/votes/x")] ∅)
                "x"))),
     KV.put 64500 (cacheKey "x")
       (JSON_stringify
          (json_of_summary
             (countsFromKV 64500
                (Worker.run [(1000, page_vote "x" "t1" "like"); (4500, http_get "/votes/x")] ∅)
                "x")))
       (Some cache_ttl)
       (Worker.run [(1000, page_vote "x" "t1" "like"); (4500, http_get "/votes/x")] ∅))
  ∧ countsFromKV 64500
      (Worker.run [(1000, page_vote "x" "t1" "like"); (4500, http_get "/votes/x")] ∅) "x"
    = Summary "x"
        (Num (tally (counted "like" "x")
                [(1000, page_vote "x" "t1" "like"); (4500, http_get "/votes/x")] ∅))
        (Num (tally (counted "dislike" "x")
                [(1000, page_vote "x" "t1" "like"); (4500, http_get "/votes/x")] ∅))
        (Num (tally (counted "like" "x")
                [(1000, page_vote "x" "t1" "like"); (4500, http_get "/votes/x")] ∅
              - tally (counted "dislike" "x")
                  [(1000, page_vote "x" "t1" "like"); (4500, http_get "/votes/x")] ∅))
        (Num (tally (counted "like" "x")
                [(1000, page_vote "x" "t1" "like"); (4500, http_get "/votes/x")] ∅
              + tally (counted "dislike" "x")
                  [(1000, page_vote "x" "t1" "like"); (4500, http_get "/votes/x")] ∅)).
Proof.
  apply (read_after_a_quiet_minute_is_fresh
           [(1000, page_vote "x" "t1" "like"); (4500, http_get "/votes/x")] 4500 64500 "x").
  - unfold all_until. simpl. repeat (constructor; [simpl; lia |]). constructor.
  - lia.
  - discriminate.
Defined.

(** ** The ledger: which votes a record stands for *)

Section Ledger.

Context `{JsonParser}.

(** Two strings that agree up to their first colon. *)
Lemma colon_split_left t t' i i' :
  colon_free t = true → colon_free t' = true →
  t +:+ ":" +:+ i = t' +:+ ":" +:+ i' → t = t' ∧ i = i'.
Proof.
  revert t'. induction t as [|c t IH]; intros [|c' t'] Ht Ht' Heq;
    cbv [String.append] in Heq; fold String.append in Heq.
  - by injection Heq as ->.
  - injection Heq as <- _. simpl in Ht'. done.
  - injection Heq as -> _. simpl in Ht. done.
  - injection Heq as -> Heq. simpl in Ht, Ht'.
    apply andb_true_iff in Ht as [_ Ht]. apply andb_true_iff in Ht' as [_ Ht'].
    destruct (IH t' Ht Ht' Heq) as [-> ->]. done.
Qed.

Lemma voteKey_inj t t' i i' :
  colon_free t = true → colon_free t' = true →
  voteKey t i = voteKey t' i' → t = t' ∧ i = i'.
Proof.
  intros Ht Ht' Heq. unfold voteKey in Heq.
  cbv [String.append] in Heq; fold String.append in Heq.
  injection Heq as Heq. by apply colon_split_left.
Qed.

Lemma after_vote_record now s i t v d :
  is_vote_type v →
  after_vote now s i t v d !! voteKey t i
  = Some (KV.Entry v (Some (now + vote_ttl * 1000))).
Proof.
  intros Hv. unfold after_vote. rewrite !lookup_put_ne by solve_keys.
  unfold KV.put. by rewrite lookup_insert_eq.
Qed.

(** The vote key of token [t:a] and item [i] is that of token [t] and item
    [a:i]. *)
Lemma voteKey_alias t a i :
  voteKey (t +:+ ":" +:+ a) i = voteKey t (a +:+ ":" +:+ i).
Proof. unfold voteKey. by rewrite !append_assoc. Qed.

End Ledger.

Section WorkerLedger.

Context `{JsonParser}.

Lemma worker_fetch_ledger_from A now s req :
  ledger_from A s →
  ledger_from (A ++ match recorded req (Worker.fetch now s req).1 with
                    | Some (i, t, _) => [(now, t, i)]
                    | None => []
                    end) (Worker.fetch now s req).2.
Proof.
  intros Hs.
  pose proof (worker_fetch_step now s req) as Hstep.
  destruct (recorded req (Worker.fetch now s req).1) as [[[i t] v]|].
  - destruct Hstep as (Hv & _ & _ & Hw). intros t0 i0 e He.
    destruct (decide (voteKey t0 i0 = voteKey t i)) as [Heq | Hne].
    + rewrite Heq, Hw, (after_vote_record now s i t v None Hv) in He by solve_keys.
      injection He as <-.
      exists now, t, i. split; [| done]. apply elem_of_app. right. by left.
    + rewrite (vote_written_lookup_ne _ _ _ _ _ _ _ Hw) in He by solve_keys.
      destruct (Hs t0 i0 e He) as (w & t' & i' & Hin & Hrest).
      exists w, t', i'. split; [| done]. apply elem_of_app. by left.
  - rewrite app_nil_r. destruct Hstep as [-> | (r & Hr & ->)]; [done |].
    intros t0 i0 e He. rewrite fetch_read_lookup in He; [by apply Hs | | done].
    intros. solve_keys.
Qed.

Lemma worker_run_ledger_from A tr s :
  ledger_from A s → ledger_from (A ++ recordings tr s) (Worker.run tr s).
Proof.
  revert A s. induction tr as [|[now req] tr IH]; intros A s Hs; simpl.
  - by rewrite app_nil_r.
  - rewrite app_assoc. by apply IH, worker_fetch_ledger_from.
Qed.

End WorkerLedger.

(** X10.  The ledger rejects no vote without a reason.  A vote that is
    answered 409 "Already voted", in a namespace reached from the empty
    one, follows a vote that the worker recorded less than 30 days before
    (one answered 200, or one answered 500 after the record was written)
    under the same key: its token and item make the same vote key as those
    of the rejected vote, and they are the same token and the same item
    when neither token has a colon in the string that it makes.  A token
    that is not a string stands here for the string that it makes: the
    number 12345 takes the vote of the string "12345". *)
Theorem duplicate_rejection_sound `{JsonParser} tr now fi ft fv fd :
  (Worker.handleVote now (Worker.run tr ∅) fi ft fv fd).1
  = Worker.Refused 409 "Already voted" →
  ∃ i t w i' t',
    Worker.text fi = Some i ∧ Worker.text ft = Some t
    ∧ (w, t', i') ∈ recordings tr ∅
    ∧ voteKey t' i' = voteKey t i
    ∧ now < w + vote_ttl * 1000
    ∧ (colon_free t = true → colon_free t' = true → t' = t ∧ i' = i).
Proof.
  intros H409.
  assert (∃ i t, Worker.text fi = Some i ∧ Worker.text ft = Some t
                 ∧ truthy (KV.get now (Worker.run tr ∅) (voteKey t i)) = true)
    as (i & t & Hi & Ht & Hex).
  { unfold Worker.handleVote in H409.
    destruct (_ || _); [done |]. destruct fv as [v| |]; try done.
    destruct (negb _); [done |].
    destruct (Worker.text ft) as [t|]; [| done].
    destruct (Worker.text fi) as [i|]; [| done].
    exists i, t. repeat split.
    destruct (truthy (KV.get _ _ _)); [done |].
    destruct (num_ge _ _); [done |]. by destruct ft. }
  assert (ledger_from (recordings tr ∅) (Worker.run tr ∅)) as Hled.
  { apply (worker_run_ledger_from [] tr ∅). intros ? ? ? He. by rewrite lookup_empty in He. }
  unfold KV.get in Hex.
  destruct (Worker.run tr ∅ !! voteKey t i) as [e|] eqn:He; [| done].
  destruct (Hled t i e He) as (w & t' & i' & Hin & Hkey & Hx).
  unfold KV.live in Hex. rewrite Hx in Hex.
  destruct (now <? w + vote_ttl * 1000) eqn:Hlive; [| done].
  apply Z.ltb_lt in Hlive.
  exists i, t, w, i', t'. repeat split; try done;
    apply voteKey_inj in Hkey as [-> ->]; done.
Qed.

Lemma duplicate_rejection_sound_witness :
  ∃ i t w i' t',
    Worker.text (Worker.Str "x") = Some i ∧ Worker.text (Worker.Str "12345") = Some t
    ∧ (w, t', i') ∈ recordings [(1000, number_token_vote "x" "like")] ∅
    ∧ voteKey t' i' = voteKey t i
    ∧ 5000 < w + vote_ttl * 1000
    ∧ (colon_free t = true → colon_free t' = true → t' = t ∧ i' = i).
Proof.
  apply (duplicate_rejection_sound [(1000, number_token_vote "x" "like")] 5000
           (Worker.Str "x") (Worker.Str "12345") (Worker.Str "dislike") Worker.Falsy).
  vm_compute. reflexivity.
Defined.

(** X11.  A colon in a token makes two pairs share a vote record.  The
    record of token [t:a] for item [i] has the key of token [t] for item
    [a:i]: once a vote of the first pair is accepted, a vote of the second
    pair, another voter and another item, is answered 409 "Already voted"
    for the next 30 days, whatever is served in between. *)
Theorem vote_keys_alias `{JsonParser} now s t a i v d l dl n s1 tr now' v' d' :
  handleVote now s (Some i) (Some (t +:+ ":" +:+ a)) (Some v) d
  = (VoteResponse i l dl n, s1) →
  t ≠ ""%string → is_vote_type v' → now' < now + vote_ttl * 1000 →
  handleVote now' (run tr s1) (Some (a +:+ ":" +:+ i)) (Some t) (Some v') d'
  = (ErrorResponse 409 "Already voted", run tr s1).
Proof.
  intros Hfirst Ht Hv' Hnow.
  apply handleVote_accepted in Hfirst
    as (t0 & v0 & _ & [= <-] & [= <-] & (Hi & _ & Hv & _) & -> & _).
  pose proof (run_keeps_record tr _ _ i _
                (after_vote_on_record now s i (t +:+ ":" +:+ a) v d Hv)) as Hrec.
  apply (vote_on_record_get now') in Hrec; [| done].
  rewrite voteKey_alias in Hrec.
  assert (a +:+ ":" +:+ i ≠ ""%string) as Hitem by by destruct a.
  unfold handleVote.
  rewrite (proj2 (truthy_Some _) Hitem), (proj2 (truthy_Some t)),
    (is_vote_type_truthy v') by done.
  cbn [negb orb]. rewrite !or_else_Some; try done.
  - rewrite bool_decide_eq_true_2 by done. cbn [negb]. by rewrite Hrec.
  - by apply truthy_Some, is_vote_type_truthy.
Qed.

Lemma vote_keys_alias_witness :
  handleVote 2000
    (run [(1500, GET_votes "x")] (after_vote 1000 ∅ "x" ("ab" +:+ ":" +:+ "cd") "like" None))
    (Some ("cd" +:+ ":" +:+ "x")) (Some "ab") (Some "dislike") None
  = (ErrorResponse 409 "Already voted",
     run [(1500, GET_votes "x")] (after_vote 1000 ∅ "x" ("ab" +:+ ":" +:+ "cd") "like" None)).
Proof.
  apply (vote_keys_alias 1000 ∅ "ab" "cd" "x" "like" None (Num 1) (Num 0) (Num 1)
           (after_vote 1000 ∅ "x" ("ab" +:+ ":" +:+ "cd") "like" None)
           [(1500, GET_votes "x")] 2000 "dislike" None).
  - apply pair_parts; [vm_compute |]; reflexivity.
  - discriminate.
  - apply is_vote_type_dislike.
  - reflexivity.
Defined.

(** ** A batch read and the cache *)

Section BatchCache.

Context `{JsonParser}.

Lemma hits_and_misses (l : list resolution) :
  existsb is_thrown l = false →
  (length (filter (fun r => is_hit r = true) l)
   + length (filter (fun r => is_miss r = true) l) = length l)%nat.
Proof.
  induction l as [|r l IH]; [done |]. cbn [existsb].
  intros [Hr Hl]%orb_false_iff. specialize (IH Hl).
  rewrite !filter_cons. destruct r; simpl in *; try done;
    repeat case_decide; try done; simpl; lia.
Qed.

Lemma getBatchVoteCounts_200_store now s ids results count hits misses s' :
  getBatchVoteCounts now s ids
  = (Some (BatchResponse results count hits misses), s') →
  ∃ raw, ids = Some raw ∧ s' = batch_store now s (itemIds_of raw)
         ∧ (hits + misses = count)%nat.
Proof.
  unfold getBatchVoteCounts. destruct ids as [[|c raw]|]; try done.
  cbn [truthy negb or_else]. generalize (String c raw). clear c raw. intros raw.
  repeat case_bool_decide; try done.
  destruct (existsb _ _) eqn:Hex; [done |]. intros [= <- <- <- <- <-].
  exists raw. repeat split; try done.
  rewrite (hits_and_misses _ Hex). by rewrite length_fmap.
Qed.

End BatchCache.

(** X12.  A batch read counts every id once and warms the cache.  In a
    batch answer with status 200, [cache_hits + cache_misses = count]; and
    for every requested id that missed the cache, the summary that the
    batch computed is served by every single read of the (trimmed) id
    before 60 seconds have passed, as a cache hit that writes nothing. *)
Theorem batch_read_warms_cache `{JsonParser}
    now s ids results count hits misses s' :
  getBatchVoteCounts now s ids
  = (Some (BatchResponse results count hits misses), s') →
  (hits + misses = count)%nat
  ∧ ∃ raw, ids = Some raw
      ∧ ∀ id now',
          id ∈ itemIds_of raw →
          truthy (KV.get now s (cacheKey (trim id))) = false →
          now' < now + 60000 →
          getVoteCounts now' s' (trim id)
          = (CountsResponse HIT
               (JSON_stringify (json_of_summary (countsFromKV now s (trim id)))),
             s').
Proof.
  intros Hb. apply getBatchVoteCounts_200_store in Hb as (raw & -> & -> & Hsum).
  split; [done |]. exists raw. split; [done |].
  intros id now' Hid Hmiss Hnow'.
  pose proof (batch_store_cache now s (itemIds_of raw) (trim id)) as Hs.
  rewrite Hmiss in Hs. cbn [negb andb] in Hs.
  rewrite bool_decide_eq_true_2 in Hs by by apply list_elem_of_fmap_2.
  assert (KV.get now' (batch_store now s (itemIds_of raw)) (cacheKey (trim id))
          = Some (JSON_stringify (json_of_summary (countsFromKV now s (trim id)))))
    as Hget.
  { unfold KV.get. rewrite Hs. unfold KV.live. cbn [KV.expiration KV.value].
    unfold cache_ttl. by rewrite (proj2 (Z.ltb_lt _ _)) by lia. }
  unfold getVoteCounts.
  rewrite (proj2 (truthy_Some _) (itemIds_of_nonblank _ _ Hid)), Hget.
  done.
Qed.

Lemma batch_read_warms_cache_witness :
  (0 + 2 = 2)%nat
  ∧ ∃ raw, Some " x ,z"%string = Some raw
      ∧ ∀ id now',
          id ∈ itemIds_of raw →
          truthy (KV.get 70000 disliked_then_read (cacheKey (trim id))) = false →
          now' < 70000 + 60000 →
          getVoteCounts now' (batch_store 70000 disliked_then_read (itemIds_of " x ,z"))
            (trim id)
          = (CountsResponse HIT
               (JSON_stringify
                  (json_of_summary (countsFromKV 70000 disliked_then_read (trim id)))),
             batch_store 70000 disliked_then_read (itemIds_of " x ,z")).
Proof.
  apply (batch_read_warms_cache 70000 disliked_then_read (Some " x ,z")
           (batch_results 70000 disliked_then_read (itemIds_of " x ,z")) 2 0 2).
  apply pair_parts; [| reflexivity].
  change ((getBatchVoteCounts 70000 disliked_then_read (Some " x ,z")).1)
    with (Some (BatchResponse
                  (batch_results 70000 disliked_then_read (itemIds_of " x ,z"))
                  (length (itemIds_of " x ,z"))
                  (length (filter (fun r => is_hit r = true)
                             (resolve 70000 disliked_then_read <$> itemIds_of " x ,z")))
                  (length (filter (fun r => is_miss r = true)
                             (resolve 70000 disliked_then_read <$> itemIds_of " x ,z"))))).
  do 2 f_equal; vm_compute; reflexivity.
Defined.
(** ** The voting service of the page *)

Section ClientSide.

Context `{JsonParser}.

Lemma worker_post_vote now s fi ft fv fd ids :
  Worker.fetch now s (Worker.HttpRequest "POST" "/vote" ids (Worker.Fields fi ft fv fd))
  = (Worker.vote_response (Worker.handleVote now s fi ft fv fd).1,
     (Worker.handleVote now s fi ft fv fd).2).
Proof.
  unfold Worker.fetch. cbn [Worker.method Worker.pathname Worker.body].
  rewrite bool_decide_eq_false_2 by done. rewrite !bool_decide_eq_true_2 by done.
  cbn [andb]. by destruct (Worker.handleVote now s fi ft fv fd).
Qed.

Lemma worker_get_batch now s ids body :
  Worker.fetch now s (Worker.HttpRequest "GET" "/votes/batch" ids body)
  = match getBatchVoteCounts now s ids with
    | (Some resp, s') => (Worker.Json resp, s')
    | (None, s') => (Worker.Json Worker.internal_error, s')
    end.
Proof. done. Qed.

(** The answers to a vote of the page, whose item, token and vote type
    are strings: the 200 of a vote, which is recorded, or one of three
    errors, none of which is [ok], with the namespace as it was. *)
Lemma vote_request_answers now s token itemId voteType date :
  is_vote_type voteType →
  (∃ l dl s',
      Worker.fetch now s (Client.vote_request token itemId voteType date)
      = (Worker.JsonVote (Worker.Str itemId) l dl (num_sub l dl), s')
      ∧ vote_written now s itemId token voteType s')
  ∨ (∃ status error,
        Worker.fetch now s (Client.vote_request token itemId voteType date)
        = (Worker.Json (ErrorResponse status error), s)
        ∧ Worker.ok (Worker.Json (ErrorResponse status error)) = false
        ∧ error ∈ ["Missing required fields"; "Already voted";
                   "Rate limit exceeded"]%string).
Proof.
  intros Hv. unfold Client.vote_request. rewrite worker_post_vote.
  destruct (worker_handleVote_cases now s (Worker.Str itemId) (Worker.Str token)
              (Worker.Str voteType) (Worker.of_option date))
    as [(st & e & Hno & Hin)
       | [[_ [Hno | Hno]] | (i & t & v & [= <-] & [= <-] & [= <-] & _ & _ & _ & Hw)]];
    try done.
  - right. exists st, e. rewrite Hno.
    rewrite !elem_of_cons, elem_of_nil in Hin. rewrite !elem_of_cons.
    destruct Hin as [Hin | [Hin | [Hin | [Hin | []]]]]; injection Hin as -> ->;
      try (split; [done |]; split; [done |]; tauto).
    unfold Worker.handleVote in Hno.
    destruct (_ || _); [done |]. rewrite bool_decide_eq_true_2 in Hno by done.
    cbn [negb Worker.text] in Hno.
    destruct (truthy _); [done |]. by destruct (num_ge _ _).
  - left. destruct Hw as [(_ & l & dl & ->) | [Hft _]]; [| by destruct (Hft token)].
    exists l, dl. eexists. split; [done |]. apply vote_written_put.
Qed.

Lemma localKey_ne_timeKey t i t' i' : Client.localKey t i ≠ Client.timeKey t' i'.
Proof. unfold Client.localKey, Client.timeKey. cbv [String.append]. congruence. Qed.

Lemma localKey_ne_user_token t i : Client.localKey t i ≠ "user_token"%string.
Proof. unfold Client.localKey. cbv [String.append]. congruence. Qed.

(** [getUserToken] leaves the votes of [localStorage] alone. *)
Lemma getUserToken_keeps digest browser ls t i :
  (Fingerprint.getUserToken digest browser ls).2 !! Client.localKey t i
  = ls !! Client.localKey t i.
Proof.
  destruct browser; try done. unfold Fingerprint.getUserToken.
  destruct (truthy _); [done |]. cbn [snd].
  apply lookup_insert_ne, not_eq_sym, localKey_ne_user_token.
Qed.

(** No use of the service removes or changes a vote of [localStorage]. *)
Lemma after_use_keeps digest u ls t i v :
  ls !! Client.localKey t i = Some v → v ≠ ""%string →
  after_use digest u ls !! Client.localKey t i = Some v.
Proof.
  intros Hls Hv. destruct u as [browser net clock now s itemId voteType date|browser itemId];
    cbn [after_use].
  - unfold Client.voteForItem. destruct (negb _); [done |].
    pose proof (getUserToken_keeps digest browser ls t i) as Hkeep.
    destruct (Fingerprint.getUserToken digest browser ls) as [[token|message] ls0];
      cbn [snd] in Hkeep; [| cbn [fst snd]; by rewrite Hkeep].
    destruct (truthy (ls0 !! Client.localKey token itemId)) eqn:Hold;
      [cbn [fst snd]; by rewrite Hkeep |].
    destruct net as [|served message]; [| cbn [fst snd]; by rewrite Hkeep].
    destruct (Worker.fetch now s _) as [response s'].
    destruct (negb (Worker.ok response)); [cbn [fst snd]; by rewrite Hkeep |].
    destruct (Client.response_json response); [| cbn [fst snd]; by rewrite Hkeep]. cbn [fst snd].
    rewrite lookup_insert_ne by (apply not_eq_sym, localKey_ne_timeKey).
    rewrite lookup_insert_ne; [by rewrite Hkeep |].
    intros Heq. rewrite Heq, Hkeep, Hls in Hold. by apply truthy_Some in Hv; congruence.
  - unfold Client.getUserVote.
    pose proof (getUserToken_keeps digest browser ls t i) as Hkeep.
    destruct (Fingerprint.getUserToken digest browser ls) as [[token|message] ls0];
      cbn [snd] in *; by rewrite Hkeep.
Qed.

Lemma after_uses_keeps digest uses ls t i v :
  ls !! Client.localKey t i = Some v → v ≠ ""%string →
  after_uses digest uses ls !! Client.localKey t i = Some v.
Proof.
  unfold after_uses. revert ls. induction uses as [|u uses IH]; intros ls Hls Hv; [done |].
  cbn [foldl]. apply IH; [| done]. by apply after_use_keeps.
Qed.

Lemma vote_written_on_record now s i t v s' :
  is_vote_type v → vote_written now s i t v s' →
  vote_on_record s' t i (now + vote_ttl * 1000).
Proof.
  intros Hv Hw. destruct (after_vote_on_record now s i t v None Hv)
    as (v0 & x & Hs & Hv0 & Hx).
  exists v0, x. rewrite Hw by solve_keys. done.
Qed.

(** Pieces without a comma come back from [join] and [split]. *)
Lemma split_concat (ids : list string) :
  ids ≠ [] → Forall (fun id => without "," id = true) ids →
  split "," (String.concat "," ids) = ids.
Proof.
  intros Hne Hids. induction Hids as [|id ids Hid Hids IH]; [done |].
  destruct ids as [|id' ids].
  - simpl. by apply split_whole.
  - change (String.concat "," (id :: id' :: ids))
      with (id +:+ String "," (String.concat "," (id' :: ids))).
    rewrite split_piece by done. by rewrite IH.
Qed.

Lemma filter_all {A} (P : A → Prop) `{∀ x, Decision (P x)} (l : list A) :
  Forall P l → filter P l = l.
Proof.
  induction 1 as [|x l Hx _ IH]; [done |].
  by rewrite filter_cons_True, IH.
Qed.

Lemma trim_nonempty id : trim id ≠ ""%string → id ≠ ""%string.
Proof. by intros Ht ->. Qed.

Lemma concat_nonempty (sep : string) id ids :
  id ≠ ""%string → String.concat sep (id :: ids) ≠ ""%string.
Proof. destruct id; [done |]. by destruct ids. Qed.

Lemma emptyResults_lookup ids id :
  Client.emptyResults ids !! id
  = if bool_decide (id ∈ ids ∧ id ≠ "__proto__"%string) then Some Client.zero_counts
    else None.
Proof.
  unfold Client.emptyResults.
  induction ids as [|x ids IH] using rev_ind.
  - cbn [foldl]. rewrite lookup_empty, bool_decide_eq_false_2; [done |].
    intros [Hin _]. by apply elem_of_nil in Hin.
  - rewrite foldl_app. cbn [foldl]. unfold Client.assign at 1.
    destruct (decide (x = "__proto__"%string)) as [-> | Hx].
    + rewrite IH.
      assert (bool_decide (id ∈ ids ++ ["__proto__"%string] ∧ id ≠ "__proto__"%string)
              = bool_decide (id ∈ ids ∧ id ≠ "__proto__"%string)) as ->; [| done].
      apply bool_decide_ext. rewrite elem_of_app, list_elem_of_singleton.
      split; intros [Hin Hne]; (split; [| done]); [by destruct Hin | by left].
    + destruct (decide (x = id)) as [-> | Hne].
      * rewrite lookup_insert_eq, bool_decide_eq_true_2; [done |].
        split; [| done]. apply elem_of_app. right. by left.
      * rewrite lookup_insert_ne, IH by done.
        assert (bool_decide (id ∈ ids ++ [x] ∧ id ≠ "__proto__"%string)
                = bool_decide (id ∈ ids ∧ id ≠ "__proto__"%string)) as ->; [| done].
        apply bool_decide_ext. rewrite elem_of_app, list_elem_of_singleton.
        split; intros [Hin Hid]; (split; [| done]); [| by left].
        destruct Hin as [Hin | Hin]; [done | by destruct Hne].
Qed.

End ClientSide.

(** X13.  The page votes once for an item.  When [voteForItem] returns,
    the request was delivered and the worker has accepted the vote, under
    the token that [getUserToken] made: it answered 200 and holds the
    record of the vote for 30 days, and [localStorage] holds the vote
    under that token.  The entry stays there, whatever calls of
    [voteForItem] and [getUserVote] the page makes later; so every later
    [voteForItem] for the item, with a valid vote type, in which
    [getUserToken] makes the same token, throws "Already voted" without a
    request, whatever the instant, the network and the state of the
    worker; this check does not expire, unlike the record of the
    worker. *)
Theorem voteForItem_once `{JsonParser}
    digest browser net clock now ls s itemId voteType date result ls1 s1 :
  Client.voteForItem digest browser net clock now ls s itemId voteType date
  = (Resolved result, ls1, s1) →
  ∃ token ls0 l dl,
    Fingerprint.getUserToken digest browser ls = (Resolved token, ls0)
    ∧ net = Delivered
    ∧ Worker.fetch now s (Client.vote_request token itemId voteType date)
      = (Worker.JsonVote (Worker.Str itemId) l dl (num_sub l dl), s1)
    ∧ result = Client.vote_result (Worker.Str itemId) l dl (num_sub l dl)
    ∧ vote_on_record s1 token itemId (now + vote_ttl * 1000)
    ∧ ls1 !! Client.localKey token itemId = Some voteType
    ∧ ∀ uses browser' net' clock' now' s' voteType' date' ls',
        Fingerprint.getUserToken digest browser' (after_uses digest uses ls1)
        = (Resolved token, ls') →
        is_vote_type voteType' →
        Client.voteForItem digest browser' net' clock' now'
          (after_uses digest uses ls1) s' itemId voteType' date'
        = (Rejected "Already voted", ls', s').
Proof.
  unfold Client.voteForItem at 1. case_bool_decide as Hty; [| done]. cbn [negb].
  destruct (Fingerprint.getUserToken digest browser ls) as [[token|message] ls0];
    [| done].
  destruct (truthy (ls0 !! Client.localKey token itemId)); [done |].
  destruct net as [|served message]; [| done].
  destruct (vote_request_answers now s token itemId voteType date Hty)
    as [(l & dl & s' & Hok & Hw) | (st & e & Hno & Hnok & _)];
    [| by rewrite Hno, Hnok].
  rewrite Hok. cbn [Worker.ok Worker.status Client.response_json]. simpl negb. cbv iota.
  intros [= <- <- <-].
  assert (<[Client.timeKey token itemId:=String_of_Z clock]>
            (<[Client.localKey token itemId:=voteType]> ls0)
            !! Client.localKey token itemId = Some voteType) as Hls.
  { rewrite lookup_insert_ne by (apply not_eq_sym, localKey_ne_timeKey).
    by rewrite lookup_insert_eq. }
  assert (voteType ≠ ""%string) as Hne by (by apply truthy_Some, is_vote_type_truthy).
  exists token, ls0, l, dl. repeat split; try done.
  - by eapply vote_written_on_record.
  - intros uses browser' net' clock' now' s0 voteType' date' ls' Htok Hv'.
    pose proof (after_uses_keeps digest uses _ token itemId voteType Hls Hne) as Hkept.
    pose proof (getUserToken_keeps digest browser' (after_uses digest uses
                  (<[Client.timeKey token itemId:=String_of_Z clock]>
                     (<[Client.localKey token itemId:=voteType]> ls0))) token itemId)
      as Hkeep.
    unfold Client.voteForItem. rewrite bool_decide_eq_true_2 by done. cbn [negb].
    rewrite Htok in *. cbn [snd] in Hkeep. rewrite Hkeep, Hkept.
    by rewrite (is_vote_type_truthy voteType).
Qed.

Lemma voteForItem_once_witness :
  ∃ token ls0 l dl,
    Fingerprint.getUserToken (fun _ => []) (Fingerprint.Visitor "tok") ∅
    = (Resolved token, ls0)
    ∧ Delivered = Delivered
    ∧ Worker.fetch 1000 ∅ (Client.vote_request token "x" "like" None)
      = (Worker.JsonVote (Worker.Str "x") l dl (num_sub l dl),
         after_vote 1000 ∅ "x" "tok" "like" None)
    ∧ Client.vote_result (Worker.Str "x") (Num 1) (Num 0) (Num 1)
      = Client.vote_result (Worker.Str "x") l dl (num_sub l dl)
    ∧ vote_on_record (after_vote 1000 ∅ "x" "tok" "like" None) token "x"
        (1000 + vote_ttl * 1000)
    ∧ (<[Client.timeKey "tok" "x" := "1001"%string]>
         (<[Client.localKey "tok" "x" := "like"%string]> ∅)
       : storage) !! Client.localKey token "x" = Some "like"%string
    ∧ ∀ uses browser' net' clock' now' s' voteType' date' ls',
        Fingerprint.getUserToken (fun _ => []) browser'
          (after_uses (fun _ => []) uses
             (<[Client.timeKey "tok" "x" := "1001"%string]>
                (<[Client.localKey "tok" "x" := "like"%string]> ∅)))
        = (Resolved token, ls') →
        is_vote_type voteType' →
        Client.voteForItem (fun _ => []) browser' net' clock' now'
          (after_uses (fun _ => []) uses
             (<[Client.timeKey "tok" "x" := "1001"%string]>
                (<[Client.localKey "tok" "x" := "like"%string]> ∅)))
          s' "x" voteType' date'
        = (Rejected "Already voted", ls', s').
Proof.
  apply (voteForItem_once (fun _ => []) (Fingerprint.Visitor "tok") Delivered 1001 1000
           ∅ ∅ "x" "like" None).
  apply pair_parts; [apply pair_parts; [vm_compute |] |]; reflexivity.
Defined.

(** X14.  A vote that the page cannot place says why, and changes nothing
    that the request has not changed.  When [voteForItem] throws, the
    votes of [localStorage] are as they were ([getUserToken] may have
    stored its fallback token), and the cause is one of these: the vote
    type is not valid ("Invalid vote type"); [getUserToken] threw, with
    its message; the page finds the vote in [localStorage] ("Already
    voted"); [fetch] rejected, with the message of the browser, and the
    namespace of the worker is as it was unless the request was served; or
    the worker refused the vote, with the namespace as it was and one of
    "Missing required fields", "Already voted" and "Rate limit exceeded" as
    its [error].  The fallback "Vote failed" is never used. *)
Theorem voteForItem_refused `{JsonParser}
    digest browser net clock now ls s itemId voteType date message ls' s' :
  Client.voteForItem digest browser net clock now ls s itemId voteType date
  = (Rejected message, ls', s') →
  (¬ is_vote_type voteType ∧ message = "Invalid vote type"%string ∧ ls' = ls ∧ s' = s)
  ∨ (is_vote_type voteType
     ∧ ls' = (Fingerprint.getUserToken digest browser ls).2
     ∧ (∀ t i, ls' !! Client.localKey t i = ls !! Client.localKey t i)
     ∧ (((Fingerprint.getUserToken digest browser ls).1 = Rejected message ∧ s' = s)
        ∨ ∃ token,
            (Fingerprint.getUserToken digest browser ls).1 = Resolved token
            ∧ ((message = "Already voted"%string
                ∧ truthy (ls' !! Client.localKey token itemId) = true ∧ s' = s)
               ∨ (∃ served,
                     net = Lost served message
                     ∧ s' = if served
                            then (Worker.fetch now s
                                    (Client.vote_request token itemId voteType date)).2
                            else s)
               ∨ (net = Delivered ∧ s' = s
                  ∧ message ∈ ["Missing required fields"; "Already voted";
                               "Rate limit exceeded"]%string
                  ∧ ∃ status,
                      Worker.fetch now s (Client.vote_request token itemId voteType date)
                      = (Worker.Json (ErrorResponse status message), s))))).
Proof.
  unfold Client.voteForItem. case_bool_decide as Hty; cbn [negb];
    [| intros [= <- <- <-]; by left].
  intros Hcall. right. split; [done |].
  pose proof (getUserToken_keeps digest browser ls) as Hkeep.
  destruct (Fingerprint.getUserToken digest browser ls) as [[token|message0] ls0];
    cbn [fst snd] in *; [| injection Hcall as <- <- <-; repeat split; try done; by left].
  destruct (truthy (ls0 !! Client.localKey token itemId)) eqn:Hold.
  { injection Hcall as <- <- <-. repeat split; try done.
    right. exists token. split; [done |]. by left. }
  destruct net as [|served message0].
  - destruct (vote_request_answers now s token itemId voteType date Hty)
      as [(l & dl & s0 & Hok & Hw) | (st & e & Hno & Hnok & He)].
    + by rewrite Hok in Hcall.
    + rewrite Hno, Hnok in Hcall. cbn [negb Client.error_of] in Hcall.
      assert (or_else (Some e) "Vote failed" = e) as He'.
      { rewrite !elem_of_cons, elem_of_nil in He.
        by destruct He as [-> | [-> | [-> | []]]]. }
      rewrite He' in Hcall. injection Hcall as <- <- <-. repeat split; try done.
      right. exists token. split; [done |]. right. right. repeat split; try done.
      by exists st.
  - injection Hcall as <- <- <-. repeat split; try done.
    right. exists token. split; [done |]. right. left. by exists served.
Qed.

Lemma voteForItem_refused_witness :
  (¬ is_vote_type "like" ∧ "Failed to fetch"%string = "Invalid vote type"%string
   ∧ (∅ : storage) = ∅
   ∧ (Worker.fetch 1000 ∅ (Client.vote_request "tok" "x" "like" None)).2 = ∅)
  ∨ (is_vote_type "like"
     ∧ (∅ : storage)
       = (Fingerprint.getUserToken (fun _ => []) (Fingerprint.Visitor "tok") ∅).2
     ∧ (∀ t i, (∅ : storage) !! Client.localKey t i = (∅ : storage) !! Client.localKey t i)
     ∧ (((Fingerprint.getUserToken (fun _ => []) (Fingerprint.Visitor "tok") ∅).1
         = Rejected "Failed to fetch"
         ∧ (Worker.fetch 1000 ∅ (Client.vote_request "tok" "x" "like" None)).2 = ∅)
        ∨ ∃ token,
            (Fingerprint.getUserToken (fun _ => []) (Fingerprint.Visitor "tok") ∅).1
            = Resolved token
            ∧ (("Failed to fetch"%string = "Already voted"%string
                ∧ truthy ((∅ : storage) !! Client.localKey token "x") = true
                ∧ (Worker.fetch 1000 ∅ (Client.vote_request "tok" "x" "like" None)).2 = ∅)
               ∨ (∃ served,
                     Lost true "Failed to fetch" = Lost served "Failed to fetch"
                     ∧ (Worker.fetch 1000 ∅ (Client.vote_request "tok" "x" "like" None)).2
                       = if served
                         then (Worker.fetch 1000 ∅
                                 (Client.vote_request token "x" "like" None)).2
                         else ∅)
               ∨ (Lost true "Failed to fetch" = Delivered
                  ∧ (Worker.fetch 1000 ∅ (Client.vote_request "tok" "x" "like" None)).2 = ∅
                  ∧ "Failed to fetch"%string
                    ∈ ["Missing required fields"; "Already voted";
                       "Rate limit exceeded"]%string
                  ∧ ∃ status,
                      Worker.fetch 1000 ∅ (Client.vote_request token "x" "like" None)
                      = (Worker.Json (ErrorResponse status "Failed to fetch"), ∅))))).
Proof.
  apply (voteForItem_refused (fun _ => []) (Fingerprint.Visitor "tok")
           (Lost true "Failed to fetch") 1001 1000 ∅ ∅ "x" "like" None).
  reflexivity.
Defined.

(** X15.  The ids of the page reach the worker as they are.  For a list of
    1 to 200 ids without a comma of which none is blank, joined by the
    page and split by the worker, [getBatchVoteCounts] of the page returns
    what the worker resolves for exactly these ids (keyed by the trimmed
    ids), as read back from the response, provided no cached text fails to
    parse; the worker caches the summaries it computed. *)
Theorem client_batch_round_trip `{JsonParser} now s itemIds :
  (0 < length itemIds ≤ 200)%nat →
  Forall (fun id => without "," id = true) itemIds →
  Forall (fun id => trim id ≠ ""%string) itemIds →
  Forall (fun id => is_thrown (resolve now s id) = false) itemIds →
  itemIds_of (String.concat "," itemIds) = itemIds
  ∧ Client.getBatchVoteCounts Delivered now s itemIds
    = (Client.received <$> batch_results now s itemIds, batch_store now s itemIds).
Proof.
  intros Hlen Hcomma Hblank Hok.
  assert (itemIds ≠ []) as Hne by (intros ->; simpl in Hlen; lia).
  assert (itemIds_of (String.concat "," itemIds) = itemIds) as Hids.
  { unfold itemIds_of. rewrite split_concat by done. apply filter_all.
    eapply Forall_impl; [apply Hblank |]. intros id Hid. cbv beta in *.
    destruct (trim id); [done | simpl; lia]. }
  split; [done |]. unfold Client.getBatchVoteCounts, Client.batch_request.
  rewrite bool_decide_eq_false_2 by lia.
  rewrite worker_get_batch.
  destruct (getBatchVoteCounts_answers now s (String.concat "," itemIds))
    as (hits & misses & ->); rewrite ?Hids; try done.
Qed.

Lemma client_batch_round_trip_witness :
  itemIds_of (String.concat "," [" x "; "z"]%string) = [" x "; "z"]%string
  ∧ Client.getBatchVoteCounts Delivered 5000 disliked_then_read [" x "; "z"]%string
    = (Client.received <$> batch_results 5000 disliked_then_read [" x "; "z"]%string,
       batch_store 5000 disliked_then_read [" x "; "z"]%string).
Proof.
  apply (client_batch_round_trip 5000 disliked_then_read [" x "; "z"]%string).
  - simpl. lia.
  - repeat constructor.
  - repeat (constructor; [vm_compute; discriminate |]). constructor.
  - repeat (constructor; [vm_compute; reflexivity |]). constructor.
Defined.

(** X16.  The page shows zeros when the batch read fails.  When [fetch]
    rejects (the page is offline, or the response is lost after the worker
    has served the request), and when the page asks for more than 200 ids
    (without commas, none blank), which the worker refuses with status 400
    and without writing, [getBatchVoteCounts] of the page returns the
    object that maps every requested id, except [__proto__], to zero
    counts; it never throws. *)
Theorem client_batch_falls_back_to_zeros `{JsonParser} :
  (∀ served message now s itemIds,
      itemIds ≠ [] →
      Client.getBatchVoteCounts (Lost served message) now s itemIds
      = (Client.emptyResults itemIds,
         if served then (Worker.fetch now s (Client.batch_request itemIds)).2 else s))
  ∧ (∀ now s itemIds,
        Forall (fun id => without "," id = true) itemIds →
        Forall (fun id => trim id ≠ ""%string) itemIds →
        (200 < length itemIds)%nat →
        Client.getBatchVoteCounts Delivered now s itemIds
        = (Client.emptyResults itemIds, s))
  ∧ (∀ itemIds id,
        id ∈ itemIds → id ≠ "__proto__"%string →
        Client.emptyResults itemIds !! id = Some Client.zero_counts).
Proof.
  split; [| split].
  - intros served message now s itemIds Hne. unfold Client.getBatchVoteCounts.
    rewrite bool_decide_eq_false_2; [done |]. by destruct itemIds.
  - intros now s itemIds Hcomma Hblank Hlen.
    assert (itemIds ≠ []) as Hne by (intros ->; simpl in Hlen; lia).
    assert (itemIds_of (String.concat "," itemIds) = itemIds) as Hids.
    { unfold itemIds_of. rewrite split_concat by done. apply filter_all.
      eapply Forall_impl; [apply Hblank |]. intros id Hid. cbv beta in *.
      destruct (trim id); [done | simpl; lia]. }
    unfold Client.getBatchVoteCounts, Client.batch_request.
    rewrite bool_decide_eq_false_2 by lia.
    rewrite worker_get_batch. unfold getBatchVoteCounts.
    destruct itemIds as [|id itemIds]; [done |].
    apply Forall_cons in Hblank as [Hid _].
    assert (∃ c rest, String.concat "," (id :: itemIds) = String c rest)
      as (c & rest & Hraw).
    { destruct (String.concat "," (id :: itemIds)) as [|c rest] eqn:Hc; [| eauto].
      apply concat_nonempty in Hc; [done |]. by apply trim_nonempty. }
    rewrite Hraw in *. cbn [truthy negb or_else]. rewrite Hids.
    rewrite bool_decide_eq_false_2 by (simpl; lia).
    by rewrite bool_decide_eq_true_2 by lia.
  - intros itemIds id Hin Hid. rewrite emptyResults_lookup.
    by rewrite bool_decide_eq_true_2.
Qed.

(** ** The items of a ranking *)

Section RankingItems.

Context `{JsonParser}.

Lemma list_keys_NoDup now p (s : KV.namespace) : NoDup (KV.list_keys now p s).
Proof.
  unfold KV.list_keys. rewrite merge_sort_Permutation.
  apply (sublist_NoDup _ _ (NoDup_fst_map_to_list s)).
  induction (map_to_list s) as [|[k e] l IH]; [done |].
  cbn [omap list_omap fmap list_fmap fst snd].
  destruct (KV.live now e && startsWith p k); [by apply sublist_skip |].
  by apply sublist_cons.
Qed.

Lemma scan_item_ids now s :
  item_id <$> scan now s = remove_first "like:" <$> KV.list_keys now "like:" s.
Proof. unfold scan. rewrite <- list_fmap_compose. by apply list_fmap_ext. Qed.

Lemma scan_NoDup now s : NoDup (item_id <$> scan now s).
Proof.
  rewrite scan_item_ids. apply NoDup_fmap_2_strong; [| apply list_keys_NoDup].
  intros k k' Hk Hk' Heq.
  apply elem_of_list_keys in Hk as (_ & _ & _ & (rest & _ & ->)%startsWith_stripPrefix).
  apply elem_of_list_keys in Hk' as (_ & _ & _ & (rest' & _ & ->)%startsWith_stripPrefix).
  rewrite !remove_first_prefix in Heq. by rewrite Heq.
Qed.

End RankingItems.

(** X17.  The ranking lists every liked item once, with its counters.  In
    a namespace reached from the empty one, the items of [getRankings] have
    distinct ids; an item is among them exactly when a like was recorded
    for it (answered 200, or 500 after the counter was written); and each
    entry carries the numbers of likes and dislikes recorded for its item,
    their difference and their sum. *)
Theorem ranking_lists_liked_items_once `{JsonParser} tr now :
  ∃ items,
    (getRankings now (Worker.run tr ∅)).1 = RankingsResponse items (length items) now
    ∧ NoDup (item_id <$> items)
    ∧ (∀ i, i ∈ item_id <$> items
            ↔ 0 < tally (voted "like" i) tr ∅ + tally (crashed "like" i) tr ∅)
    ∧ ∀ r, r ∈ items →
        r = Summary (item_id r)
              (Num (tally (counted "like" (item_id r)) tr ∅))
              (Num (tally (counted "dislike" (item_id r)) tr ∅))
              (Num (tally (counted "like" (item_id r)) tr ∅
                    - tally (counted "dislike" (item_id r)) tr ∅))
              (Num (tally (counted "like" (item_id r)) tr ∅
                    + tally (counted "dislike" (item_id r)) tr ∅)).
Proof.
  exists (sort by_net_score (scan now (Worker.run tr ∅))). split; [done |].
  pose proof (sort_perm by_net_score (scan now (Worker.run tr ∅))) as Hp.
  assert (∀ i, counter_reads (Worker.run tr ∅) "like" i (tally (counted "like" i) tr ∅))
    as Hl.
  { intros i. pose proof (worker_run_counter tr ∅ "like" i 0 is_vote_type_like
                            (counter_reads_empty _ _)) as Hc.
    by rewrite Z.add_0_l in Hc. }
  assert (∀ i, counter_reads (Worker.run tr ∅) "dislike" i
                 (tally (counted "dislike" i) tr ∅)) as Hd.
  { intros i. pose proof (worker_run_counter tr ∅ "dislike" i 0 is_vote_type_dislike
                            (counter_reads_empty _ _)) as Hc.
    by rewrite Z.add_0_l in Hc. }
  split; [| split].
  - rewrite Hp. apply scan_NoDup.
  - intros i. rewrite <- tally_counted, Hp, list_elem_of_fmap. split.
    + intros (r & -> & Hr). apply elem_of_scan in Hr as (_ & e & He & Hlive).
      pose proof (tally_nonneg (counted "like" (item_id r)) tr ∅) as Hge.
      destruct (decide (tally (counted "like" (item_id r)) tr ∅ = 0)) as [H0 | ?]; [| lia].
      apply (worker_run_like_absent tr ∅) in H0; [| apply lookup_empty]. congruence.
    + intros Hpos. exists (countsFromKV now (Worker.run tr ∅) i). split; [done |].
      apply elem_of_scan. split; [done |].
      change (item_id (countsFromKV now (Worker.run tr ∅) i)) with i.
      specialize (Hl i now). unfold KV.get in Hl.
      assert (parseInt "0" = Num 0) as Hzero by done.
      destruct (Worker.run tr ∅ !! countKey "like" i) as [e|];
        [| cbn [or_else] in Hl; rewrite Hzero in Hl; injection Hl as Hl; lia].
      exists e. split; [done |].
      destruct (KV.live now e); [done |].
      cbn [or_else] in Hl. rewrite Hzero in Hl. injection Hl as Hl. lia.
  - intros r Hr. rewrite Hp in Hr. apply elem_of_scan in Hr as [Hr _].
    rewrite Hr at 1. by apply countsFromKV_reads.
Qed.

(** ** The token of the page *)

Section Hash.

Import Fingerprint.

Lemma is_hex_app a b : is_hex (a +:+ b) = is_hex a && is_hex b.
Proof.
  induction a as [|c a IH]; [done |].
  cbv [String.append]; fold String.append. cbn [is_hex]. rewrite IH.
  by rewrite andb_assoc.
Qed.

Lemma padded_byte b :
  String.length (padStart2 (toString16 b)) = 2%nat
  ∧ is_hex (padStart2 (toString16 b)) = true.
Proof. by destruct b. Qed.

Lemma concat_padded (l : list string) :
  Forall (fun s => String.length s = 2%nat ∧ is_hex s = true) l →
  String.length (String.concat "" l) = (2 * length l)%nat
  ∧ is_hex (String.concat "" l) = true.
Proof.
  induction 1 as [|s l [Hlen Hhex] _ [IHlen IHhex]]; [done |].
  destruct l as [|s' l]; [cbn [String.concat length]; split; [lia | done] |].
  change (String.concat "" (s :: s' :: l))
    with (s +:+ String.concat "" (s' :: l)).
  rewrite length_app, is_hex_app, Hlen, IHlen, Hhex, IHhex.
  split; [cbn [length]; lia | done].
Qed.

Lemma substring0_length n s :
  (n ≤ String.length s)%nat → String.length (substring0 n s) = n.
Proof.
  revert s. induction n as [|n IH]; intros [|c s] Hn; simpl in *; try done; try lia.
  rewrite IH; [done | lia].
Qed.

Lemma is_hex_substring0 n s : is_hex s = true → is_hex (substring0 n s) = true.
Proof.
  revert s. induction n as [|n IH]; intros [|c s] Hs; try done.
  cbn [is_hex substring0] in *. apply andb_true_iff in Hs as [Hc Hs].
  by rewrite Hc, IH.
Qed.

Lemma is_hex_colon_free s : is_hex s = true → colon_free s = true.
Proof.
  induction s as [|c s IH]; [done |]. cbn [is_hex colon_free].
  intros [Hc Hs]%andb_true_iff. rewrite (IH Hs), andb_true_r.
  apply negb_true_iff, Ascii.eqb_neq. by intros ->.
Qed.

End Hash.

(** X18.  The fallback token is sixteen hexadecimal digits.  Whatever the
    string, if the digest has at least 8 bytes (SHA-256 has 32),
    [simpleHash] returns 16 characters, each a digit or a letter from [a]
    to [f]: a token that is not empty, as [handleVote] requires, and
    without a colon, so that the keys built from it are read back in one
    way only. *)
Theorem simpleHash_is_16_hex digest str :
  (8 ≤ length (digest str))%nat →
  String.length (Fingerprint.simpleHash digest str) = 16%nat
  ∧ is_hex (Fingerprint.simpleHash digest str) = true
  ∧ colon_free (Fingerprint.simpleHash digest str) = true.
Proof.
  intros Hlen. unfold Fingerprint.simpleHash.
  destruct (concat_padded
              ((fun b => Fingerprint.padStart2 (Fingerprint.toString16 b)) <$> digest str))
    as [Hl Hh].
  { apply Forall_fmap, Forall_forall. intros b _. apply padded_byte. }
  rewrite length_fmap in Hl.
  assert (is_hex (substring0 16
            (String.concat ""
               ((fun b => Fingerprint.padStart2 (Fingerprint.toString16 b))
                  <$> digest str))) = true) as Hhex
    by by apply is_hex_substring0.
  split; [| split; [done | by apply is_hex_colon_free]].
  apply substring0_length. lia.
Qed.

Lemma simpleHash_is_16_hex_witness :
  String.length
    (Fingerprint.simpleHash
       (fun _ => [Byte.x00; Byte.x0f; Byte.x10; Byte.xa5; Byte.xff; Byte.x3c;
                  Byte.x7e; Byte.x99; Byte.x42]) "Mozilla|en|1920") = 16%nat
  ∧ is_hex
      (Fingerprint.simpleHash
         (fun _ => [Byte.x00; Byte.x0f; Byte.x10; Byte.xa5; Byte.xff; Byte.x3c;
                    Byte.x7e; Byte.x99; Byte.x42]) "Mozilla|en|1920") = true
  ∧ colon_free
      (Fingerprint.simpleHash
         (fun _ => [Byte.x00; Byte.x0f; Byte.x10; Byte.xa5; Byte.xff; Byte.x3c;
                    Byte.x7e; Byte.x99; Byte.x42]) "Mozilla|en|1920") = true.
Proof.
  apply (simpleHash_is_16_hex
           (fun _ => [Byte.x00; Byte.x0f; Byte.x10; Byte.xa5; Byte.xff; Byte.x3c;
                      Byte.x7e; Byte.x99; Byte.x42]) "Mozilla|en|1920").
  simpl. lia.
Defined.

(** ** The keys of the rate limiter *)

(** X19.  A vote moves the rate counter of its own token for its own day
    only.  The key of a rate counter ends in the UTC date, which has no
    colon and names one day; so an accepted vote leaves the rate counter of
    every other token (with or without colons in it) and of every other day
    as it was: if the entry under [rate:<t>:<date>] has changed, [t] is the
    token of the vote and the date is that of the vote. *)
Theorem vote_moves_own_rate_counter_only
    now s oi ot ov d j l dl n s' t now0 :
  handleVote now s oi ot ov d = (VoteResponse j l dl n, s') →
  s' !! rateLimitKey t (today now0) ≠ s !! rateLimitKey t (today now0) →
  ot = Some t ∧ now0 / ms_per_day = now / ms_per_day.
Proof.
  intros Hh Hk.
  apply handleVote_accepted in Hh as (t' & v & _ & -> & _ & (_ & _ & Hv & _) & -> & _).
  destruct (decide (rateLimitKey t (today now0) = rateLimitKey t' (today now)))
    as [Heq | Hne].
  - unfold rateLimitKey in Heq.
    cbv [String.append] in Heq. fold String.append in Heq. simplify_eq.
    apply colon_split in Heq as [-> Hd]; [| apply colon_free_iso_date ..].
    split; [done |]. by apply today_inj.
  - destruct Hk. apply after_vote_lookup_ne; try done; apply not_eq_sym; solve_keys.
Qed.

Lemma vote_moves_own_rate_counter_only_witness :
  Some "tok"%string = Some "tok"%string ∧ 86399999 / ms_per_day = 1000 / ms_per_day.
Proof.
  apply (vote_moves_own_rate_counter_only 1000 ∅ (Some "x") (Some "tok") (Some "like")
           None "x" (Num 1) (Num 0) (Num 1) (after_vote 1000 ∅ "x" "tok" "like" None)
           "tok" 86399999).
  - apply pair_parts; [vm_compute |]; reflexivity.
  - vm_compute. discriminate.
Defined.
(** ** The status of an answer *)

Section Status.

Context `{JsonParser}.

Ltac one_of := cbn; rewrite !elem_of_cons; repeat first [by left | right].

Lemma getVoteCounts_status now s itemId :
  Worker.status (Worker.Json (getVoteCounts now s itemId).1) ∈ [200; 400].
Proof.
  unfold getVoteCounts.
  destruct (negb _); [one_of |].
  destruct (truthy _); one_of.
Qed.

Lemma getBatchVoteCounts_status now s ids :
  match (getBatchVoteCounts now s ids).1 with
  | Some resp => Worker.status (Worker.Json resp) ∈ [200; 400]
  | None => ∃ raw id, ids = Some raw ∧ id ∈ itemIds_of raw
                      ∧ is_thrown (resolve now s id) = true
  end.
Proof.
  unfold getBatchVoteCounts. destruct ids as [[|c raw]|];
    try one_of.
  cbn [truthy negb or_else]. generalize (String c raw). clear c raw. intros raw.
  repeat case_bool_decide; try one_of.
  destruct (existsb _ _) eqn:Hex; [| one_of].
  cbn [fst]. apply existsb_exists in Hex as (r & Hin & Hr).
  apply list_elem_of_In, list_elem_of_fmap in Hin as (id & -> & Hin).
  by exists raw, id.
Qed.

End Status.

(** X20.  The statuses of the worker.  Every answer of [fetch] has one of
    the statuses 200, 204, 400, 404, 409, 429 and 500, and 500 has three
    causes only: a [POST /vote] whose body is not JSON; a [POST /vote]
    whose token or item is not a string, which throws either when the keys
    are made, with nothing written, or at the metadata, with the vote
    recorded; and a batch read that finds, for one of its ids, a live
    cache entry whose text does not parse.  No vote whose token and item
    are strings, no single read, no ranking and no statistics is answered
    500. *)
Theorem worker_statuses `{JsonParser} now s req :
  Worker.status (Worker.fetch now s req).1 ∈ [200; 204; 400; 404; 409; 429; 500]
  ∧ (Worker.status (Worker.fetch now s req).1 = 500 →
     (Worker.method req = "POST"%string ∧ Worker.pathname req = "/vote"%string
      ∧ Worker.body req = Worker.NotJson)
     ∨ (∃ fi ft fv fd,
           vote_fields req = Some (fi, ft, fv, fd)
           ∧ (((Worker.text ft = None ∨ Worker.text fi = None)
               ∧ (Worker.fetch now s req).2 = s)
              ∨ ((∀ x, ft ≠ Worker.Str x)
                 ∧ ∃ i t v, recorded req (Worker.fetch now s req).1 = Some (i, t, v))))
     ∨ (Worker.method req = "GET"%string ∧ Worker.pathname req = "/votes/batch"%string
        ∧ ∃ raw id, Worker.ids req = Some raw ∧ id ∈ itemIds_of raw
                    ∧ is_thrown (resolve now s id) = true))
  ∧ (∀ i t fv fd,
        vote_fields req = Some (Worker.Str i, Worker.Str t, fv, fd) →
        Worker.status (Worker.fetch now s req).1 ≠ 500).
Proof.
  assert (∀ z : Z, z ∈ [200; 400] → z ∈ [200; 204; 400; 404; 409; 429; 500] ∧ z ≠ 500)
    as Hread.
  { intros z. rewrite !elem_of_cons, elem_of_nil. intros [-> | [-> | []]]; split;
      try done; repeat first [by left | right]. }
  destruct (vote_fields req) as [[[[fi ft] fv] fd]|] eqn:Hvf.
  { destruct (worker_fetch_cases now s req)
      as [[Hnone _] | (fi' & ft' & fv' & fd' & Hvf' & Hfetch)]; [congruence |].
    rewrite Hvf in Hvf'. injection Hvf' as <- <- <- <-.
    pose proof (worker_fetch_step now s req) as Hstep.
    unfold recorded in *. rewrite Hvf in *. rewrite Hfetch in *. cbn [fst snd] in *.
    destruct (worker_handleVote_cases now s fi ft fv fd)
      as [(st & e & -> & Hin)
         | [[-> Hno] | (i & t & v & Hi & Ht & -> & Hv & _ & _ & Hw)]].
    - cbn [fst snd Worker.vote_response Worker.status].
      assert (st ∈ [400; 409; 429]) as Hst.
      { rewrite !elem_of_cons, elem_of_nil in Hin. rewrite !elem_of_cons.
        destruct Hin as [Hin | [Hin | [Hin | [Hin | []]]]]; injection Hin as -> _; tauto. }
      rewrite !elem_of_cons, elem_of_nil in Hst. rewrite !elem_of_cons.
      split; [tauto |]. split; intros; lia.
    - cbn [fst snd Worker.vote_response Worker.status Worker.internal_error].
      split; [rewrite !elem_of_cons; tauto |]. split.
      + intros _. right. left. exists fi, ft, fv, fd. split; [done |]. by left.
      + intros i t fv' fd' [= -> -> _ _]. by destruct Hno.
    - rewrite Hi, Ht in *.
      destruct Hw as [(-> & l & dl & ->) | (Hft & ->)];
        cbn [fst snd Worker.vote_response Worker.status Worker.internal_error] in *.
      + split; [rewrite !elem_of_cons; tauto |]. split; [done |]. done.
      + split; [rewrite !elem_of_cons; tauto |]. split.
        * intros _. right. left. exists fi, ft, (Worker.Str v), fd. split; [done |].
          right. split; [done |]. rewrite bool_decide_eq_true_2 by (by right). eauto.
        * intros i' t' fv' fd' [= -> -> _ _]. by destruct (Hft t'). }
  split; [| split; [| done]].
  - unfold Worker.fetch.
    case_bool_decide as Hopt; [cbn; rewrite !elem_of_cons; tauto |].
    destruct (bool_decide (Worker.method req = "POST"%string)
              && bool_decide (Worker.pathname req = "/vote"%string)) eqn:Hpost.
    { unfold vote_fields in Hvf. rewrite Hpost in Hvf.
      destruct (Worker.body req); [| done]. cbn. rewrite !elem_of_cons. tauto. }
    destruct (bool_decide (Worker.method req = "GET"%string)
              && bool_decide (Worker.pathname req = "/votes/batch"%string)).
    { pose proof (getBatchVoteCounts_status now s (Worker.ids req)) as Hst.
      destruct (getBatchVoteCounts now s (Worker.ids req)) as [[resp|] s'];
        cbn [fst] in *; [by apply Hread | cbn; rewrite !elem_of_cons; tauto]. }
    destruct (bool_decide (Worker.method req = "GET"%string)
              && startsWith "/votes/" (Worker.pathname req)).
    { unfold Worker.answer. cbn [fst]. apply Hread, getVoteCounts_status. }
    destruct (bool_decide (Worker.method req = "GET"%string)
              && bool_decide (Worker.pathname req = "/rankings"%string)).
    { cbn. rewrite !elem_of_cons. tauto. }
    destruct (bool_decide (Worker.method req = "GET"%string)
              && bool_decide (Worker.pathname req = "/stats"%string)).
    { unfold getStats. destruct (foldl _ _ _) as [[? ?] ?].
      cbn. rewrite !elem_of_cons. tauto. }
    cbn. rewrite !elem_of_cons. tauto.
  - unfold Worker.fetch.
    case_bool_decide as Hopt; [done |].
    destruct (bool_decide (Worker.method req = "POST"%string)
              && bool_decide (Worker.pathname req = "/vote"%string)) eqn:Hpost.
    { apply andb_true_iff in Hpost as [Hm Hp]. apply bool_decide_eq_true in Hm, Hp.
      unfold vote_fields in Hvf. rewrite Hm, Hp in Hvf.
      rewrite !bool_decide_eq_true_2 in Hvf by done. cbn [andb] in Hvf.
      destruct (Worker.body req); [| done]. intros _. by left. }
    destruct (bool_decide (Worker.method req = "GET"%string)
              && bool_decide (Worker.pathname req = "/votes/batch"%string)) eqn:Hbatch.
    { apply andb_true_iff in Hbatch as [Hm Hp]. apply bool_decide_eq_true in Hm, Hp.
      pose proof (getBatchVoteCounts_status now s (Worker.ids req)) as Hst.
      destruct (getBatchVoteCounts now s (Worker.ids req)) as [[resp|] s'];
        cbn [fst] in *.
      - by destruct (Hread _ Hst).
      - intros _. right. right. tauto. }
    destruct (bool_decide (Worker.method req = "GET"%string)
              && startsWith "/votes/" (Worker.pathname req)).
    { unfold Worker.answer. cbn [fst].
      by destruct (Hread _ (getVoteCounts_status now s
                              (default ""%string
                                 (split "/" (Worker.pathname req) !! 2%nat)))). }
    destruct (bool_decide (Worker.method req = "GET"%string)
              && bool_decide (Worker.pathname req = "/rankings"%string)); [done |].
    destruct (bool_decide (Worker.method req = "GET"%string)
              && bool_decide (Worker.pathname req = "/stats"%string)); [| done].
    unfold getStats. by destruct (foldl _ _ _) as [[? ?] ?].
Qed.

(** ** The metadata of a vote *)

(** X22.  The metadata record belongs to an item and an instant, not to a
    vote.  When two votes for one item are accepted at the same
    millisecond, the second writes its metadata over that of the first:
    the record under [meta:<item>:<instant>] is that of the second vote,
    while both votes are counted. *)
Theorem metadata_shared_within_a_millisecond
    now s i v t1 d1 l1 dl1 n1 s1 t2 d2 l2 dl2 n2 s2 c :
  handleVote now s (Some i) (Some t1) (Some v) d1 = (VoteResponse i l1 dl1 n1, s1) →
  handleVote now s1 (Some i) (Some t2) (Some v) d2 = (VoteResponse i l2 dl2 n2, s2) →
  counter_reads s v i c →
  s2 !! metaKey i now
  = Some (KV.Entry
            (JSON_stringify (vote_metadata t2 v now (or_else d2 (today now))))
            (Some (now + vote_ttl * 1000)))
  ∧ counter_reads s2 v i (c + 2).
Proof.
  intros H1 H2 Hc.
  apply handleVote_accepted in H1
    as (t & v' & _ & [= <-] & [= <-] & (_ & _ & Hv & _) & -> & _).
  apply handleVote_accepted in H2
    as (t' & v'' & _ & [= <-] & [= <-] & _ & -> & _).
  split.
  - unfold after_vote at 1. unfold KV.put at 1. by rewrite lookup_insert_eq.
  - replace (c + 2) with (c + 1 + 1) by lia.
    apply after_vote_counter; [done |]. by apply after_vote_counter.
Qed.

Lemma metadata_shared_within_a_millisecond_witness :
  after_vote 1000 (after_vote 1000 ∅ "x" "t1" "like" None) "x" "t2" "like" None
    !! metaKey "x" 1000
  = Some (KV.Entry
            (JSON_stringify (vote_metadata "t2" "like" 1000 (or_else None (today 1000))))
            (Some (1000 + vote_ttl * 1000)))
  ∧ counter_reads
      (after_vote 1000 (after_vote 1000 ∅ "x" "t1" "like" None) "x" "t2" "like" None)
      "like" "x" (0 + 2).
Proof.
  apply (metadata_shared_within_a_millisecond 1000 ∅ "x" "like" "t1" None
           (Num 1) (Num 0) (Num 1) (after_vote 1000 ∅ "x" "t1" "like" None)
           "t2" None (Num 2) (Num 0) (Num 2)).
  - apply pair_parts; [vm_compute |]; reflexivity.
  - apply pair_parts; [vm_compute |]; reflexivity.
  - intros now. reflexivity.
Defined.

(** ** A batch read of a namespace that the worker made *)

(** X23.  A batch read of what the worker wrote does not fail.  In a
    namespace reached from the empty one every live cache entry is a
    summary text that the worker printed; so, if [JSON.parse] reads the
    summary texts of the requested ids (for the counts that their items
    can have reached), a batch read of 1 to 200 ids is answered 200, with
    an entry for every key: the [catch] of [fetch] is not reached. *)
Theorem batch_read_never_fails `{JsonParser} tr now raw :
  (0 < length (itemIds_of raw) ≤ 200)%nat →
  (∀ id a b,
      id ∈ itemIds_of raw →
      0 ≤ a ≤ accepted "like" (trim id) tr ∅ →
      0 ≤ b ≤ accepted "dislike" (trim id) tr ∅ →
      JSON_parse (cached_summary (trim id) a b) ≠ None) →
  ∃ hits misses,
    getBatchVoteCounts now (run tr ∅) (Some raw)
    = (Some (BatchResponse (batch_results now (run tr ∅) (itemIds_of raw))
               (length (itemIds_of raw)) hits misses),
       batch_store now (run tr ∅) (itemIds_of raw)).
Proof.
  intros Hlen Hparse. apply getBatchVoteCounts_answers; [done |].
  apply Forall_forall. intros id Hid. unfold resolve.
  destruct (KV.get now (run tr ∅) (cacheKey (trim id))) as [body|] eqn:Hget; [| done].
  destruct (truthy (Some body)) eqn:Ht; [| done].
  apply truthy_Some in Ht. rewrite or_else_Some by done.
  apply (run_cache_parses tr now (trim id) body) in Hget; [| by intros; apply Hparse].
  by destruct (JSON_parse body).
Qed.

Lemma batch_read_never_fails_witness :
  ∃ hits misses,
    @getBatchVoteCounts runtime_parser 5000 disliked_then_read (Some " x ,z")
    = (Some (BatchResponse
               (@batch_results runtime_parser 5000 disliked_then_read (itemIds_of " x ,z"))
               (length (itemIds_of " x ,z")) hits misses),
       @batch_store runtime_parser 5000 disliked_then_read (itemIds_of " x ,z")).
Proof.
  apply (@batch_read_never_fails runtime_parser
           (dislike_trace ++ [(4500, GET_votes "x")]) 5000 " x ,z").
  - simpl. lia.
  - intros id a b Hid Ha Hb.
    apply list_elem_of_In in Hid. vm_compute in Hid.
    destruct Hid as [<- | [<- | []]].
    + assert (accepted "like" (trim " x ") (dislike_trace ++ [(4500, GET_votes "x")]) ∅ = 1)
        as Hl by (vm_compute; reflexivity).
      assert (accepted "dislike" (trim " x ") (dislike_trace ++ [(4500, GET_votes "x")]) ∅ = 0)
        as Hd by (vm_compute; reflexivity).
      rewrite Hl in Ha. rewrite Hd in Hb.
      assert (b = 0) as -> by lia.
      assert (a = 0 ∨ a = 1) as [-> | ->] by lia; vm_compute; discriminate.
    + assert (accepted "like" (trim "z") (dislike_trace ++ [(4500, GET_votes "x")]) ∅ = 0)
        as Hl by (vm_compute; reflexivity).
      assert (accepted "dislike" (trim "z") (dislike_trace ++ [(4500, GET_votes "x")]) ∅ = 2)
        as Hd by (vm_compute; reflexivity).
      rewrite Hl in Ha. rewrite Hd in Hb.
      assert (a = 0) as -> by lia.
      assert (b = 0 ∨ b = 1 ∨ b = 2) as [-> | [-> | ->]] by lia; vm_compute; discriminate.
Defined.
